(** * Veil: commitments, REST handlers and the doctor-registration flow

    A shallow embedding of the parts of the Veil healthcare application
    that carry behaviour of their own:

    - [src/lib/zkProofs.ts]: the anonymous-prescription commitment, the
      conversion of a digest to eight 32-bit words, and the mock proof
      generation and verification;
    - the prescriptions route handlers ([GET] and [POST] of
      [/api/prescriptions], and the single-prescription blockchain fetch);
    - the appointments route handlers ([POST] and [GET] of
      [/api/appointments]);
    - the single-prescription route ([GET] and [PUT] of
      [/api/prescriptions/[id]]) and the patients route ([GET] of
      [/api/patients]);
    - the doctor registration form ([DoctorForm.onSubmit]);
    - the two prescription forms: their medication rows and their
      [handleSubmit].

    Conventions.  A JavaScript string is a [list ascii]; text outside ASCII
    is carried as its UTF-8 encoding, which is what [ethers.toUtf8Bytes]
    produces from it, and a surrogate that has no partner, which UTF-8
    cannot write, as the three bytes that generalised UTF-8 gives it
    ([ED A0..AF xx] for a high surrogate, [ED B0..BF xx] for a low one).
    Positions in a string count bytes; the source slices and pads
    hexadecimal text only, where a byte is a UTF-16 code unit.  A
    [Uint8Array] is a [list byte].  A [Date] is the number of milliseconds
    since the epoch, an integer.  Code that reads the clock, the database,
    the chain or the network threads an explicit world. *)

From Stdlib Require Import ZArith List Ascii String Bool Lia.
From Stdlib Require Import Strings.Byte.
From Stdlib Require Import Sorting.Sorted Sorting.Permutation.
Import ListNotations.

Local Open Scope Z_scope.

(** ** JavaScript strings and numbers *)

Module JS.

Definition str := list ascii.

(** A string literal of the source. *)
Definition lit (s : string) : str := list_ascii_of_string s.

Definition code (c : ascii) : Z := Z.of_nat (nat_of_ascii c).

(** [s.startsWith(p)] *)
Fixpoint startsWith (p s : str) : bool :=
  match p, s with
  | [], _ => true
  | _ :: _, [] => false
  | a :: p', b :: s' => Ascii.eqb a b && startsWith p' s'
  end.

(** [s.slice(i, j)] for [0 <= i <= j]; both ends are clamped to the
    length of [s], as in JavaScript. *)
Definition slice (i j : nat) (s : str) : str := firstn (j - i) (skipn i s).

(** [s.slice(i)] *)
Definition sliceFrom (i : nat) (s : str) : str := skipn i s.

(** [s.padStart(n, c)] with a one-character filler [c]. *)
Definition padStart (n : nat) (c : ascii) (s : str) : str :=
  repeat c (n - List.length s) ++ s.

(** [s.toLowerCase()] on the ASCII letters. *)
Definition lowerChar (c : ascii) : ascii :=
  let n := code c in
  if (65 <=? n) && (n <=? 90) then ascii_of_nat (Z.to_nat (n + 32)) else c.

Definition toLowerCase (s : str) : str := map lowerChar s.

(** [s === t] on strings. *)
Fixpoint eqb (s t : str) : bool :=
  match s, t with
  | [], [] => true
  | a :: s', b :: t' => Ascii.eqb a b && eqb s' t'
  | _, _ => false
  end.

(** A string is truthy when it is not empty; [undefined] is falsy. *)
Definition truthy (o : option str) : bool :=
  match o with
  | Some (_ :: _) => true
  | _ => false
  end.

(** [o || d] for a string that may be missing. *)
Definition orElse (o : option str) (d : str) : str :=
  match o with
  | Some (c :: s) => c :: s
  | _ => d
  end.

(** The value of a character as a digit: [0-9], then the letters of
    either case from 10 on. *)
Definition digitValue (c : ascii) : option Z :=
  let n := code c in
  if (48 <=? n) && (n <=? 57) then Some (n - 48)
  else if (97 <=? n) && (n <=? 122) then Some (n - 87)
  else if (65 <=? n) && (n <=? 90) then Some (n - 55)
  else None.

(** The value of a character as a digit of radix [R]. *)
Definition digitIn (R : Z) (c : ascii) : option Z :=
  match digitValue c with
  | Some d => if d <? R then Some d else None
  | None => None
  end.

(** A JavaScript number as [parseInt] can return it: an integer or NaN.
    Every integer up to 2^53 in magnitude is a double, and [Num] is that
    double.  Beyond 2^53 JavaScript rounds; [Num] then carries the
    integer that the digits spell, which stands for a double of at least
    2^53 in magnitude.  The chain refuses such a number, whichever it is,
    and what is proved of a number that is passed on is proved for values
    up to 2^53. *)
Inductive number : Type :=
| NaN : number
| Num : Z -> number.

(** The white space of ASCII: U+0009 to U+000D and U+0020. *)
Definition isWhite (c : ascii) : bool :=
  let n := code c in
  ((9 <=? n) && (n <=? 13)) || (n =? 32).

(** One white-space character or line terminator of ECMA-262 at the
    head of a text: U+0009 to U+000D, U+0020, U+00A0, U+1680, U+2000 to
    U+200A, U+2028, U+2029, U+202F, U+205F, U+3000 and U+FEFF, the last
    eight in UTF-8.  The rest of the text is returned. *)
Definition whiteAt (s : str) : option str :=
  match s with
  | [] => None
  | c :: r =>
      if isWhite c then Some r
      else if code c <? 128 then None
      else
        match map code s, s with
        | 194 :: 160 :: _, _ :: _ :: r => Some r
        | 225 :: 154 :: 128 :: _, _ :: _ :: _ :: r => Some r
        | 226 :: 128 :: x :: _, _ :: _ :: _ :: r =>
            if ((128 <=? x) && (x <=? 138)) || (x =? 168) || (x =? 169)
               || (x =? 175)
            then Some r else None
        | 226 :: 129 :: 159 :: _, _ :: _ :: _ :: r => Some r
        | 227 :: 128 :: 128 :: _, _ :: _ :: _ :: r => Some r
        | 239 :: 187 :: 191 :: _, _ :: _ :: _ :: r => Some r
        | _, _ => None
        end
  end.

Fixpoint trimFrom (fuel : nat) (s : str) : str :=
  match fuel with
  | O => s
  | S fuel' =>
      match whiteAt s with
      | Some r => trimFrom fuel' r
      | None => s
      end
  end.

(** The text without the white space at its start. *)
Definition trimStart (s : str) : str := trimFrom (List.length s) s.

(** The longest prefix of radix-[R] digits, as digit values. *)
Fixpoint digitsPrefix (R : Z) (s : str) : list Z :=
  match s with
  | [] => []
  | c :: s' =>
      match digitIn R c with
      | Some d => d :: digitsPrefix R s'
      | None => []
      end
  end.

Definition radixValue (R : Z) (ds : list Z) : Z :=
  fold_left (fun acc d => acc * R + d) ds 0.

(** [parseInt(s, radix)], with [radix = 0] for a call without radix.
    Leading white space is dropped, then a sign; a [0x] or [0X] prefix is
    dropped when the radix is 16 or absent and makes the radix 16; the
    longest run of digits that follows is the value, and NaN when that
    run is empty. *)
Definition parseInt (s : str) (radix : Z) : number :=
  let s1 := trimStart s in
  let negative := startsWith ["-"%char] s1 in
  let s2 :=
    if negative || startsWith ["+"%char] s1 then skipn 1 s1 else s1 in
  if negb (radix =? 0) && ((radix <? 2) || (36 <? radix)) then NaN
  else
    let stripPrefix := (radix =? 0) || (radix =? 16) in
    let hasPrefix :=
      stripPrefix
      && (startsWith ["0"; "x"]%char s2 || startsWith ["0"; "X"]%char s2) in
    let s3 := if hasPrefix then skipn 2 s2 else s2 in
    let R := if hasPrefix then 16 else if radix =? 0 then 10 else radix in
    match digitsPrefix R s3 with
    | [] => NaN
    | ds => Num ((if negative then -1 else 1) * radixValue R ds)
    end.

(** Decimal digits of a natural number, most significant first; [fuel]
    bounds the number of digits. *)
Fixpoint decimalDigits (fuel : nat) (n : Z) (acc : str) : str :=
  match fuel with
  | O => acc
  | S fuel' =>
      let d := ascii_of_nat (Z.to_nat (48 + n mod 10)) in
      if n <? 10 then d :: acc
      else decimalDigits fuel' (n / 10) (d :: acc)
  end.

(** [String(n)] for an integer [n] below 10^21 in magnitude. *)
Definition numberToString (n : Z) : str :=
  if n <? 0
  then "-"%char :: decimalDigits (S (Z.to_nat (Z.log2 (- n)))) (- n) []
  else decimalDigits (S (Z.to_nat (Z.log2 n))) n [].

(** [Math.floor(a / b)] for integers [a] and [b > 0]. *)
Definition floorDiv (a b : Z) : Z := a / b.

(** Lower-case hexadecimal digit of a value in [0, 16). *)
Definition hexChar (d : Z) : ascii :=
  ascii_of_nat (Z.to_nat (if d <? 10 then 48 + d else 87 + d)).

Definition dquote : ascii := ascii_of_nat 34.
Definition bslash : ascii := ascii_of_nat 92.

(** The escape of one character inside a JSON string
    (QuoteJSONString of ECMA-262). *)
Definition quoteChar (c : ascii) : str :=
  let n := code c in
  if n =? 34 then [bslash; dquote]
  else if n =? 92 then [bslash; bslash]
  else if n =? 8 then [bslash; "b"%char]
  else if n =? 12 then [bslash; "f"%char]
  else if n =? 10 then [bslash; "n"%char]
  else if n =? 13 then [bslash; "r"%char]
  else if n =? 9 then [bslash; "t"%char]
  else if n <? 32
       then bslash :: lit "u00" ++ [hexChar (n / 16); hexChar (n mod 16)]
  else [c].

(** The first two bytes of a surrogate that has no partner, and of a
    high one. *)
Definition surrogateLead (a b : ascii) : bool :=
  (code a =? 237) && (160 <=? code b) && (code b <=? 191).

Definition highLead (a b : ascii) : bool :=
  (code a =? 237) && (160 <=? code b) && (code b <=? 175).

(** The escape [\udxxx] of the surrogate that the bytes [ED b c]
    carry. *)
Definition surrogateEscape (b c : ascii) : str :=
  let b6 := code b mod 64 in
  let c6 := code c mod 64 in
  bslash :: "u"%char :: "d"%char
    :: [hexChar (b6 / 4); hexChar ((b6 mod 4) * 4 + c6 / 16);
        hexChar (c6 mod 16)].

(** The characters of a JSON string: a surrogate without partner is
    escaped (well-formed [JSON.stringify]), every other character as
    [quoteChar] has it. *)
Fixpoint quoteChars (s : str) : str :=
  match s with
  | [] => []
  | a :: r =>
      match r with
      | b :: r2 =>
          if surrogateLead a b then
            match r2 with
            | c :: rest => surrogateEscape b c ++ quoteChars rest
            | [] => surrogateEscape b (ascii_of_nat 128)
            end
          else quoteChar a ++ quoteChars r
      | [] => quoteChar a
      end
  end.

(** [JSON.stringify(s)] for a string [s]. *)
Definition quoteJSONString (s : str) : str :=
  dquote :: quoteChars s ++ [dquote].

End JS.

(** ** The Keccak-256 hash

    [ethers.keccak256] is Keccak with rate 1088 and capacity 512, the
    original padding (domain byte [0x01]) and a 32-byte digest.  The state
    is 25 lanes of 64 bits; lane [(x, y)] sits at index [x + 5 * y]. *)

Module Keccak.

Definition mask64 : Z := 0xFFFFFFFFFFFFFFFF.

Definition rotl64 (v : Z) (n : Z) : Z :=
  Z.lor (Z.land (Z.shiftl v n) mask64) (Z.shiftr v (64 - n)).

Definition lane (A : list Z) (x y : nat) : Z :=
  nth ((x mod 5) + 5 * (y mod 5))%nat A 0.

Definition positions : list nat := seq 0 25.

Definition rotationOffsets : list Z :=
  [ 0;  1; 62; 28; 27;
   36; 44;  6; 55; 20;
    3; 10; 43; 25; 39;
   41; 45; 15; 21;  8;
   18;  2; 61; 56; 14].

Definition roundConstants : list Z :=
  [0x0000000000000001; 0x0000000000008082; 0x800000000000808A;
   0x8000000080008000; 0x000000000000808B; 0x0000000080000001;
   0x8000000080008081; 0x8000000000008009; 0x000000000000008A;
   0x0000000000000088; 0x0000000080008009; 0x000000008000000A;
   0x000000008000808B; 0x800000000000008B; 0x8000000000008089;
   0x8000000000008003; 0x8000000000008002; 0x8000000000000080;
   0x000000000000800A; 0x800000008000000A; 0x8000000080008081;
   0x8000000000008080; 0x0000000080000001; 0x8000000080008008].

Definition column (A : list Z) (x : nat) : Z :=
  Z.lxor (lane A x 0)
    (Z.lxor (lane A x 1)
       (Z.lxor (lane A x 2) (Z.lxor (lane A x 3) (lane A x 4)))).

Definition theta (A : list Z) : list Z :=
  map (fun i =>
         let x := (i mod 5)%nat in
         let y := (i / 5)%nat in
         let d := Z.lxor (column A (x + 4)) (rotl64 (column A (x + 1)) 1) in
         Z.lxor (lane A x y) d)
      positions.

(** rho and pi together: the lane written at [(X, Y)] is the rotated
    lane read at [(X + 3 Y, X)]. *)
Definition rhoPi (A : list Z) : list Z :=
  map (fun i =>
         let X := (i mod 5)%nat in
         let Y := (i / 5)%nat in
         let x := ((X + 3 * Y) mod 5)%nat in
         let y := X in
         rotl64 (lane A x y) (nth (x + 5 * y)%nat rotationOffsets 0))
      positions.

Definition chi (B : list Z) : list Z :=
  map (fun i =>
         let x := (i mod 5)%nat in
         let y := (i / 5)%nat in
         Z.lxor (lane B x y)
           (Z.land (Z.lxor (lane B (x + 1) y) mask64) (lane B (x + 2) y)))
      positions.

Definition iota (rc : Z) (A : list Z) : list Z :=
  match A with
  | a :: rest => Z.lxor a rc :: rest
  | [] => []
  end.

Definition round (A : list Z) (rc : Z) : list Z :=
  iota rc (chi (rhoPi (theta A))).

Definition keccakF (A : list Z) : list Z :=
  fold_left round roundConstants A.

Definition byteOfZ (v : Z) : byte :=
  match Byte.of_N (Z.to_N (v mod 256)) with
  | Some b => b
  | None => x00
  end.

Definition zOfByte (b : byte) : Z := Z.of_N (Byte.to_N b).

(** A lane from eight bytes, least significant first. *)
Fixpoint laneOfBytes (bs : list byte) : Z :=
  match bs with
  | [] => 0
  | b :: rest => zOfByte b + 256 * laneOfBytes rest
  end.

Definition bytesOfLane (v : Z) : list byte :=
  map (fun k => byteOfZ (Z.shiftr v (8 * Z.of_nat k))) (seq 0 8).

(** Cut a byte string into pieces of [n] bytes; [fuel] bounds the number
    of pieces. *)
Fixpoint chunks (fuel n : nat) (bs : list byte) : list (list byte) :=
  match fuel with
  | O => []
  | S fuel' =>
      match bs with
      | [] => []
      | _ => firstn n bs :: chunks fuel' n (skipn n bs)
      end
  end.

Definition rate : nat := 136.

(** pad10*1 with the Keccak domain byte. *)
Definition pad (msg : list byte) : list byte :=
  let fill := (rate - 1 - (List.length msg mod rate))%nat in
  match fill with
  | O => msg ++ [x81]
  | S k => msg ++ [x01] ++ repeat x00 k ++ [x80]
  end.

Definition absorbBlock (A : list Z) (block : list byte) : list Z :=
  let lanes := map laneOfBytes (chunks 17 8 block) in
  keccakF (map (fun i => Z.lxor (nth i A 0) (nth i lanes 0)) positions).

Definition emptyState : list Z := repeat 0 25.

Definition keccak_256 (msg : list byte) : list byte :=
  let padded := pad msg in
  let A := fold_left absorbBlock
             (chunks (List.length padded) rate padded) emptyState in
  bytesOfLane (nth 0 A 0) ++ bytesOfLane (nth 1 A 0)
    ++ bytesOfLane (nth 2 A 0) ++ bytesOfLane (nth 3 A 0).

End Keccak.

(** ** The functions of ethers used by the source *)

Module Ethers.
Import JS.

(** A [BytesLike] value: a hexadecimal string or a byte array. *)
Inductive BytesLike : Type :=
| Hex : str -> BytesLike
| Raw : list byte -> BytesLike.

Definition hexOfByte (b : byte) : str :=
  let v := Keccak.zOfByte b in [hexChar (v / 16); hexChar (v mod 16)].

(** [ethers.hexlify] of a byte array. *)
Definition hexlify (bs : list byte) : str :=
  lit "0x" ++ flat_map hexOfByte bs.

(** Pairs of hexadecimal digits to bytes; [None] on an odd length or a
    character that is no digit. *)
Fixpoint bytesOfHexDigits (s : str) : option (list byte) :=
  match s with
  | [] => Some []
  | hi :: lo :: rest =>
      match digitIn 16 hi, digitIn 16 lo, bytesOfHexDigits rest with
      | Some h, Some l, Some bs => Some (Keccak.byteOfZ (16 * h + l) :: bs)
      | _, _, _ => None
      end
  | _ => None
  end.

(** [ethers.getBytes]: a byte array is returned as it is, a string must
    be [0x] followed by pairs of hexadecimal digits; anything else throws
    ([None]). *)
Definition getBytes (v : BytesLike) : option (list byte) :=
  match v with
  | Raw bs => Some bs
  | Hex s =>
      if startsWith ["0"; "x"]%char s || startsWith ["0"; "X"]%char s
      then bytesOfHexDigits (skipn 2 s)
      else None
  end.

(** The bytes of a text. *)
Definition utf8 (s : str) : list byte := map byte_of_ascii s.

(** The text holds a high surrogate that no low surrogate follows. *)
Fixpoint unpairedHigh (s : str) : bool :=
  match s with
  | a :: r =>
      match r with
      | b :: _ => highLead a b || unpairedHigh r
      | [] => false
      end
  | [] => false
  end.

(** [ethers.toUtf8Bytes]: the UTF-8 bytes of the text; a low surrogate
    without partner is written as its three bytes, a high surrogate that
    no low one follows throws "invalid surrogate pair" ([None]). *)
Definition toUtf8Bytes (s : str) : option (list byte) :=
  if unpairedHigh s then None else Some (utf8 s).

(** [ethers.keccak256]: the digest of the bytes of its argument, as a
    hexadecimal string. *)
Definition keccak256 (data : BytesLike) : option str :=
  match getBytes data with
  | Some bs => Some (hexlify (Keccak.keccak_256 bs))
  | None => None
  end.

(** The Solidity types the source packs. *)
Inductive SolType : Type :=
| bytes32 : SolType.

(** One value of [solidityPacked]: a [bytes32] must hold exactly 32
    bytes. *)
Definition pack (t : SolType) (v : BytesLike) : option (list byte) :=
  match t with
  | bytes32 =>
      match getBytes v with
      | Some bs => if (List.length bs =? 32)%nat then Some bs else None
      | None => None
      end
  end.

Fixpoint packAll (ts : list SolType) (vs : list BytesLike)
  : option (list byte) :=
  match ts, vs with
  | [], [] => Some []
  | t :: ts', v :: vs' =>
      match pack t v, packAll ts' vs' with
      | Some b, Some rest => Some (b ++ rest)
      | _, _ => None
      end
  | _, _ => None
  end.

(** [ethers.solidityPacked(types, values)] *)
Definition solidityPacked (ts : list SolType) (vs : list BytesLike)
  : option str :=
  match packAll ts vs with
  | Some bs => Some (hexlify bs)
  | None => None
  end.

End Ethers.


(** ** Effects

    A computation reads and changes a world and either returns a value or
    throws.  What it changed before throwing stays changed, as for a
    JavaScript function that wrote to a store and then raised. *)

Module Eff.

Inductive outcome (E A : Type) : Type :=
| Ok : A -> outcome E A
| Throw : E -> outcome E A.
Arguments Ok {E A} _.
Arguments Throw {E A} _.

Definition M (W E A : Type) : Type := W -> outcome E A * W.

Definition ret {W E A} (a : A) : M W E A := fun w => (Ok a, w).

Definition bind {W E A B} (m : M W E A) (k : A -> M W E B) : M W E B :=
  fun w =>
    match m w with
    | (Ok a, w') => k a w'
    | (Throw e, w') => (Throw e, w')
    end.

Definition throw {W E A} (e : E) : M W E A := fun w => (Throw e, w).

(** [try { m } catch (e) { h e }]: what the handler throws leaves the
    statement, and need not be of the kind that the body throws. *)
Definition tryCatch {W E E' A} (m : M W E A) (h : E -> M W E' A)
  : M W E' A :=
  fun w =>
    match m w with
    | (Ok a, w') => (Ok a, w')
    | (Throw e, w') => h e w'
    end.

Definition get {W E} : M W E W := fun w => (Ok w, w).

Definition modify {W E} (f : W -> W) : M W E unit := fun w => (Ok tt, f w).

(** A library call that throws [e] when it has no result. *)
Definition orThrow {W E A} (e : E) (o : option A) : M W E A :=
  match o with
  | Some a => ret a
  | None => throw e
  end.

Definition run {W E A} (m : M W E A) (w : W) : outcome E A * W := m w.

End Eff.

Declare Scope eff_scope.
Delimit Scope eff_scope with eff.
Notation "x <- m ;; k" := (Eff.bind m (fun x => k))
  (at level 61, m at next level, right associativity) : eff_scope.
Notation "m ;;; k" := (Eff.bind m (fun _ => k))
  (at level 61, right associativity) : eff_scope.

(** ** JSON.stringify *)

#[local] Set Warnings "-register-all".

Module JSON.
Import JS.

(** JSON values; the numbers that occur are integers, and the
    properties of an object are listed in insertion order. *)
Inductive value : Type :=
| JNull : value
| JBool : bool -> value
| JString : str -> value
| JNumber : Z -> value
| JArray : list value -> value
| JObject : list (str * value) -> value.

(** Items separated by commas. *)
(** [o[k]] for an object given by its properties. *)
Fixpoint property (k : str) (props : list (str * value)) : option value :=
  match props with
  | [] => None
  | (k', v) :: rest =>
      if eqb k k' then Some v else property k rest
  end.

Fixpoint commaSep (items : list str) : str :=
  match items with
  | [] => []
  | [x] => x
  | x :: rest => x ++ ","%char :: commaSep rest
  end.

Fixpoint stringify (v : value) : str :=
  match v with
  | JNull => lit "null"
  | JBool true => lit "true"
  | JBool false => lit "false"
  | JString s => quoteJSONString s
  | JNumber n => numberToString n
  | JArray items => "["%char :: commaSep (map stringify items) ++ ["]"%char]
  | JObject props =>
      "{"%char
        :: commaSep
             (map (fun kv =>
                     quoteJSONString (fst kv) ++ ":"%char :: stringify (snd kv))
                  props)
        ++ ["}"%char]
  end.

End JSON.

(** ** src/lib/zkProofs.ts *)

Module ZkProofs.
Import JS Ethers JSON Eff.
Local Open Scope eff_scope.

Record Proof : Type := {
  a : str * str;
  b : (str * str) * (str * str);
  c : str * str
}.

Record ZKProofData : Type := {
  proof : Proof;
  inputs : list str
}.

Record Medication : Type := {
  name : str;
  dosage : str;
  duration : str;
  additionalInstructions : str
}.

Record AnonymousPrescriptionData : Type := {
  medications : list Medication;
  diagnosis : str;
  doctorId : str;
  secretKey : str
}.

(** The browser as this module sees it: the clock read by [Date.now()],
    in milliseconds, and the lines written by [console.log]. *)
Record World : Type := {
  clock : Z;
  console : list str
}.

(** An exception thrown by ethers (a text with a surrogate that has no
    partner, an argument that is no valid [BytesLike], a [bytes32] of the
    wrong length). *)
Inductive exn : Type :=
| InvalidArgument : exn.

Definition dateNow : M World exn Z := fun w => (Ok (clock w), w).

Definition consoleLog (line : str) : M World exn unit :=
  modify (fun w => {| clock := clock w; console := console w ++ [line] |}).

(** [await new Promise(resolve => setTimeout(resolve, ms))]: the
    computation resumes once [ms] milliseconds have passed. *)
Definition sleep (ms : Z) : M World exn unit :=
  modify (fun w => {| clock := clock w + ms; console := console w |}).

Definition ethers {A} (o : option A) : M World exn A :=
  orThrow InvalidArgument o.

(** A medication object, with its properties in the order in which the
    interface declares them and the forms build them. *)
Definition medicationObject (m : Medication) : value :=
  JObject [(lit "name", JString (name m));
           (lit "dosage", JString (dosage m));
           (lit "duration", JString (duration m));
           (lit "additionalInstructions",
             JString (additionalInstructions m))].

Definition generateCommitment (prescriptionData : AnonymousPrescriptionData)
  : M World exn str :=
  now <- dateNow ;;
  let dataString :=
    stringify
      (JObject
         [(lit "medications",
            JArray (map medicationObject (medications prescriptionData)));
          (lit "diagnosis", JString (diagnosis prescriptionData));
          (lit "doctorId", JString (doctorId prescriptionData));
          (lit "timestamp", JNumber (floorDiv now 1000))]) in
  dataBytes <- ethers (toUtf8Bytes dataString) ;;
  prescriptionHash <- ethers (keccak256 (Raw dataBytes)) ;;
  secretKeyBytes <- ethers (toUtf8Bytes (secretKey prescriptionData)) ;;
  secretKeyHash <- ethers (keccak256 (Raw secretKeyBytes)) ;;
  packed <-
    ethers (solidityPacked [bytes32; bytes32]
              [Hex prescriptionHash; Hex secretKeyHash]) ;;
  commitment <- ethers (keccak256 (Hex packed)) ;;
  ret commitment.

(** The loop [for (let i = 0; i < 64; i += 8)] of [hexToU32Array]. *)
Fixpoint chunkLoop (fuel i : nat) (paddedHex : str) (chunks : list number)
  : list number :=
  match fuel with
  | O => chunks
  | S fuel' =>
      if (i <? 64)%nat
      then
        let chunk := slice i (i + 8) paddedHex in
        chunkLoop fuel' (i + 8) paddedHex (chunks ++ [parseInt chunk 16])
      else chunks
  end.

(** [hexToU32Array]: the text is cut by position, which is exact for
    ASCII text, as hexadecimal text is; in other text the source counts
    UTF-16 code units where this counts bytes. *)
Definition hexToU32Array (hex : str) : list number :=
  let cleanHex :=
    if startsWith (lit "0x") hex then sliceFrom 2 hex else hex in
  let paddedHex := padStart 64 "0"%char cleanHex in
  chunkLoop 64 0 paddedHex [].

Record WitnessInput : Type := {
  prescription_hash : list number;
  secret_key : number;
  doctor_id : number;
  public_commitment : list number
}.

Definition generateWitnessInput (prescriptionData : AnonymousPrescriptionData)
  : M World exn WitnessInput :=
  let dataString :=
    stringify
      (JObject
         [(lit "medications",
            JArray (map medicationObject (medications prescriptionData)));
          (lit "diagnosis", JString (diagnosis prescriptionData));
          (lit "doctorId", JString (doctorId prescriptionData))]) in
  dataBytes <- ethers (toUtf8Bytes dataString) ;;
  prescriptionHashHex <- ethers (keccak256 (Raw dataBytes)) ;;
  secretKeyBytes <- ethers (toUtf8Bytes (secretKey prescriptionData)) ;;
  secretKeyHash <- ethers (keccak256 (Raw secretKeyBytes)) ;;
  doctorIdBytes <- ethers (toUtf8Bytes (doctorId prescriptionData)) ;;
  doctorIdHash <- ethers (keccak256 (Raw doctorIdBytes)) ;;
  let prescriptionHashU32 := hexToU32Array prescriptionHashHex in
  let secretKeyU32 := parseInt (slice 2 10 secretKeyHash) 16 in
  let doctorIdU32 := parseInt (slice 2 10 doctorIdHash) 16 in
  commitment <- generateCommitment prescriptionData ;;
  let commitmentU32 := hexToU32Array commitment in
  ret {| prescription_hash := prescriptionHashU32;
         secret_key := secretKeyU32;
         doctor_id := doctorIdU32;
         public_commitment := commitmentU32 |}.

Definition generateZKProof (prescriptionData : AnonymousPrescriptionData)
  : M World exn ZKProofData :=
  consoleLog (lit "Generating ZK proof for prescription...") ;;;
  commitment <- generateCommitment prescriptionData ;;
  let mockProof :=
    {| proof :=
         {| a := (lit "0x1234", lit "0x5678");
            b := ((lit "0xabcd", lit "0xef01"),
                  (lit "0x2345", lit "0x6789"));
            c := (lit "0x9abc", lit "0xdef0") |};
       inputs := [commitment] |} in
  sleep 1000 ;;;
  ret mockProof.

Definition verifyZKProof (proof : ZKProofData) : M World exn bool :=
  consoleLog (lit "Verifying ZK proof...") ;;;
  sleep 500 ;;;
  ret true.

Definition parseCommitmentForContract (commitment : str) : list number :=
  hexToU32Array commitment.

End ZkProofs.


(** ** Dates *)

Module Dates.

(** The largest time value of a [Date], in milliseconds either side of
    the epoch. *)
Definition maxTime : Z := 8640000000000000.

Inductive date : Type :=
| InvalidDate : date
| At : Z -> date.

(** [new Date(t)] for an integer [t]. *)
Definition newDate (t : Z) : date :=
  if Z.abs t <=? maxTime then At t else InvalidDate.

(** The text that [toISOString] gives for a valid date, kept as the
    instant it denotes: parsing the text gives that instant back. *)
Inductive ISOString : Type :=
| ISO : Z -> ISOString.

Definition instant (s : ISOString) : Z :=
  match s with ISO ms => ms end.

(** [d.toISOString()]; an invalid date throws a RangeError ([None]). *)
Definition toISOString (d : date) : option ISOString :=
  match d with
  | At ms => Some (ISO ms)
  | InvalidDate => None
  end.

End Dates.

(** ** The stores behind the route handlers *)

Module Store.
Import JS Dates.

Inductive AppointmentStatus : Type :=
| PENDING : AppointmentStatus
| CONFIRMED : AppointmentStatus
| CANCELED : AppointmentStatus.

Record UserRow : Type := {
  userId : str;
  userRole : str
}.

Record PatientRow : Type := {
  patientId : str;
  patientUserId : str;
  patientGender : str;
  patientDateOfBirth : Z;
  patientBloodType : str;
  patientChronicDiseases : list str;
  patientEmergencyContact : str;
  patientBlockId : str
}.

Record DoctorRow : Type := {
  doctorId : str;
  doctorUserId : str;
  doctorBlockId : str;
  doctorVerified : bool
}.

Record AccessRequestRow : Type := {
  accessDoctorId : str;
  accessPatientId : str;
  accessStatus : str
}.

Record AppointmentRow : Type := {
  appointmentId : str;
  appointmentDoctorId : str;
  appointmentPatientId : str;
  startTime : Z;
  endTime : Z;
  status : AppointmentStatus
}.

Record MedicationRow : Type := {
  medName : str;
  medDosage : str;
  medDuration : str;
  medAdditionalInstructions : str
}.

Record PrescriptionRow : Type := {
  prescriptionId : str;
  prescriptionDoctorId : str;
  prescriptionPatientId : str;
  issueDate : Z;
  validTill : Z;
  medications : list MedicationRow
}.

(** The relational store; [generated] counts the identifiers handed out
    so far. *)
Record Db : Type := {
  users : list UserRow;
  patients : list PatientRow;
  doctors : list DoctorRow;
  accessRequests : list AccessRequestRow;
  appointments : list AppointmentRow;
  prescriptions : list PrescriptionRow;
  generated : nat
}.

(** The Medical contract as the server reads it.  A read that is
    rejected by the provider is [None]; a mapping entry that was never
    written is the zero record, as in Solidity. *)
Record ChainPrescription : Type := {
  chainId : Z;
  chainIssueDate : Z;
  chainDoctorAddress : str;
  chainPatientAddress : str
}.

Record ChainDoctor : Type := {
  chainDoctorName : str;
  chainSpeciality : str
}.

Record ChainPatient : Type := {
  chainPatientName : str
}.

Record Chain : Type := {
  online : bool;
  prescriptionCounter : Z;
  chainPrescriptions : Z -> option ChainPrescription;
  chainDoctors : str -> option ChainDoctor;
  chainPatients : str -> option ChainPatient
}.

(** The largest integer that ethers takes as a JavaScript number. *)
Definition maxSafeInteger : Z := 0x1fffffffffffff.

(** [contract.prescriptions(n)] for a JavaScript number [n]: a number
    that is negative or not safe is refused before anything is read. *)
Definition readPrescription (ch : Chain) (n : Z) : option ChainPrescription :=
  if (0 <=? n) && (n <=? maxSafeInteger) then chainPrescriptions ch n
  else None.

(** What a request reaches: both stores, the clock of [Date.now()] and
    the number of calls of [Math.random()] made so far. *)
Record World : Type := {
  db : Db;
  chain : Chain;
  clock : Z;
  randomCalls : nat
}.

(** What the libraries decide and the sources do not show. *)
Class Platform : Type := {
  (** [z.string().datetime()] accepts the text *)
  zodDatetime : str -> bool;
  (** the time value of [new Date(text)] for an accepted text *)
  dateOfText : str -> Z;
  (** the [n]-th identifier that the database generates *)
  cuid : nat -> str;
  (** [Math.random().toString(16).substr(2, 40)] at the [n]-th call *)
  randomHex : nat -> str
}.

(** The session user of [getCurrentUser()]: its id and, when a wallet is
    connected, its address. *)
Record SessionUser : Type := {
  sessionId : str;
  sessionAddress : option str
}.

(** A request: the session, the [role] search parameter and the body,
    [None] when the body is not JSON at all. *)
Record Request : Type := {
  session : option SessionUser;
  roleParam : option str;
  json : option JSON.value
}.

(** What a handler can catch: [req.json()] on a body that is not JSON,
    a body that the schema refuses (with the paths of the issues), and an
    [update] of a record that is not there, which the database client
    refuses.  Apart from that the database is taken as the handlers use
    it: it is reachable and carries out every call; the constraints of
    its schema are declared outside the sources and are not modelled. *)
Inductive exn : Type :=
| SyntaxError : exn
| ZodError : list str -> exn
| RecordNotFound : exn.

(** A stable insertion sort: [Array.prototype.sort] and [orderBy] keep
    the order of items that compare equal.  [cmp x y <= 0] puts [x]
    first. *)
Section Sort.
Context {A : Type} (cmp : A -> A -> Z).

Fixpoint insertSorted (x : A) (l : list A) : list A :=
  match l with
  | [] => [x]
  | y :: l' =>
      if cmp x y <=? 0 then x :: y :: l' else y :: insertSorted x l'
  end.

Definition sortBy (l : list A) : list A := fold_right insertSorted [] l.
End Sort.

(** A JavaScript [Map] with string keys: its entries in insertion
    order. *)
Section JsMap.
Context {V : Type}.

Definition mapHas (k : str) (m : list (str * V)) : bool :=
  existsb (fun kv => eqb (fst kv) k) m.

Definition mapSet (k : str) (v : V) (m : list (str * V)) : list (str * V) :=
  if mapHas k m
  then map (fun kv => if eqb (fst kv) k then (fst kv, v) else kv) m
  else m ++ [(k, v)].

Definition mapValues (m : list (str * V)) : list V := map snd m.
End JsMap.

End Store.

(** ** The prescriptions routes

    [GET] and [POST] of [/api/prescriptions], and the blockchain fetch of
    [/api/prescriptions/[id]]. *)

Module Prescriptions.
Import JS Dates Store Eff.
Import JSON (value(..), property).
Local Open Scope eff_scope.

(** A prescription as it is rebuilt from the chain.  The e-mail fields
    are present in the list route only. *)
Record ChainView : Type := {
  viewId : str;
  viewIssueDate : ISOString;
  viewValidTill : ISOString;
  viewNotes : str;
  viewPatientName : str;
  viewPatientEmail : option str;
  viewDoctorName : str;
  viewDoctorEmail : option str;
  viewSpecialization : str;
  viewLicenseNumber : str;
  viewMedications : list MedicationRow;
  viewBlockchainOnly : bool
}.

(** An entry of the list that [GET] returns: a database row or a record
    rebuilt from the chain. *)
Inductive Item : Type :=
| FromDb : PrescriptionRow -> Item
| FromChain : ChainView -> Item.

Definition itemId (p : Item) : str :=
  match p with
  | FromDb r => prescriptionId r
  | FromChain v => viewId v
  end.

(** [new Date(p.issueDate).getTime()] *)
Definition itemIssueTime (p : Item) : Z :=
  match p with
  | FromDb r => issueDate r
  | FromChain v => instant (viewIssueDate v)
  end.

Inductive Body : Type :=
| Text : str -> Body
| ErrorJson : str -> Body
| IssuesJson : list str -> Body
| PrescriptionJson : PrescriptionRow -> Body
| ListJson : list Item -> Body.

Record Response : Type := {
  statusCode : Z;
  body : Body
}.

(** The object built from one chain record and the two profiles.
    [Number(issueDate) * 1000] and the sum with thirty days are exact
    whenever they are valid time values; beyond that range the date is
    invalid and [toISOString] throws. *)
Definition chainView (withEmail : bool) (data : ChainPrescription)
           (doctorInfo : ChainDoctor) (patientInfo : ChainPatient)
  : option ChainView :=
  match toISOString (newDate (chainIssueDate data * 1000)),
        toISOString
          (newDate (chainIssueDate data * 1000 + 30 * 24 * 60 * 60 * 1000))
  with
  | Some issued, Some till =>
      Some {| viewId := numberToString (chainId data);
              viewIssueDate := issued;
              viewValidTill := till;
              viewNotes := [];
              viewPatientName :=
                orElse (Some (chainPatientName patientInfo))
                       (lit "Unknown Patient");
              viewPatientEmail := if withEmail then Some [] else None;
              viewDoctorName :=
                orElse (Some (chainDoctorName doctorInfo))
                       (lit "Unknown Doctor");
              viewDoctorEmail := if withEmail then Some [] else None;
              viewSpecialization :=
                orElse (Some (chainSpeciality doctorInfo)) [];
              viewLicenseNumber := [];
              viewMedications := [];
              viewBlockchainOnly := true |}
  | _, _ => None
  end.

(** One turn of the loop of [fetchAllPrescriptionsFromBlockchain]: the
    record pushed for index [i], or [None] when the turn ends in
    [continue] or in the inner [catch]. *)
Definition fetchOne (ch : Chain) (userAddress : option str) (isDoctor : bool)
           (i : Z) : option ChainView :=
  match readPrescription ch i with
  | None => None
  | Some prescriptionData =>
      if chainId prescriptionData =? 0 then None
      else
        let doctorLower := toLowerCase (chainDoctorAddress prescriptionData) in
        let patientLower :=
          toLowerCase (chainPatientAddress prescriptionData) in
        let userLower := toLowerCase (orElse userAddress []) in
        let pushed :=
          match chainDoctors ch (chainDoctorAddress prescriptionData),
                chainPatients ch (chainPatientAddress prescriptionData) with
          | Some doctorInfo, Some patientInfo =>
              chainView true prescriptionData doctorInfo patientInfo
          | _, _ => None
          end in
        if truthy userAddress then
          let hasAccess :=
            eqb doctorLower userLower || eqb patientLower userLower in
          if isDoctor && negb (eqb doctorLower userLower) then None
          else if negb isDoctor && negb (eqb patientLower userLower) then None
          else if hasAccess then pushed else None
        else pushed
  end.

(** The loop [for (let i = 1; i <= Number(prescriptionCounter); i++)]. *)
Fixpoint fetchLoop (ch : Chain) (userAddress : option str) (isDoctor : bool)
         (fuel : nat) (i : Z) (acc : list ChainView) : list ChainView :=
  match fuel with
  | O => acc
  | S fuel' =>
      if i <=? prescriptionCounter ch then
        fetchLoop ch userAddress isDoctor fuel' (i + 1)
          match fetchOne ch userAddress isDoctor i with
          | Some v => acc ++ [v]
          | None => acc
          end
      else acc
  end.

Definition fetchAllPrescriptionsFromBlockchain
           (ch : Chain) (userAddress : option str) (isDoctor : bool)
  : list ChainView :=
  if online ch
  then fetchLoop ch userAddress isDoctor
         (Z.to_nat (prescriptionCounter ch)) 1 []
  else [].

(** [fetchPrescriptionFromBlockchain] of the single-prescription route;
    [None] is the [null] it returns. *)
Definition fetchPrescriptionFromBlockchain
           (ch : Chain) (prescriptionId : str) (userAddress : option str)
  : option ChainView :=
  if online ch then
    match parseInt prescriptionId 0 with
    | NaN => None
    | Num blockchainId =>
        match readPrescription ch blockchainId with
        | None => None
        | Some prescriptionData =>
            if chainId prescriptionData =? 0 then None
            else
              match chainDoctors ch (chainDoctorAddress prescriptionData),
                    chainPatients ch (chainPatientAddress prescriptionData)
              with
              | Some doctorInfo, Some patientInfo =>
                  let userLower := toLowerCase (orElse userAddress []) in
                  let hasAccess :=
                    eqb (toLowerCase (chainDoctorAddress prescriptionData))
                        userLower
                    || eqb (toLowerCase (chainPatientAddress prescriptionData))
                           userLower in
                  if truthy userAddress && negb hasAccess then None
                  else chainView false prescriptionData doctorInfo patientInfo
              | _, _ => None
              end
        end
    end
  else None.

Section Handlers.
Context {P : Platform}.

Definition M := Eff.M World exn.

Definition dateNow : M Z := fun w => (Ok (clock w), w).

(** [db.doctor.findFirst({ where: { userId } })] *)
Definition findDoctorByUser (uid : str) : M (option DoctorRow) :=
  fun w => (Ok (find (fun d => eqb (doctorUserId d) uid) (doctors (db w))), w).

(** [db.patient.findFirst({ where: { userId } })] *)
Definition findPatientByUser (uid : str) : M (option PatientRow) :=
  fun w =>
    (Ok (find (fun p => eqb (patientUserId p) uid) (patients (db w))), w).

Definition newestFirst (x y : PrescriptionRow) : Z :=
  issueDate y - issueDate x.

(** [db.prescription.findMany({ where, orderBy: { issueDate: 'desc' } })] *)
Definition findPrescriptions (keep : PrescriptionRow -> bool)
  : M (list PrescriptionRow) :=
  fun w => (Ok (sortBy newestFirst (filter keep (prescriptions (db w)))), w).

Definition readChain : M Chain := fun w => (Ok (chain w), w).

(** The merge of both sources through a [Map] keyed by id. *)
Definition combine (dbPrescriptions : list PrescriptionRow)
           (blockchainPrescriptions : list ChainView) : list Item :=
  let combined :=
    fold_left (fun m p => mapSet (prescriptionId p) (FromDb p) m)
              dbPrescriptions [] in
  let combined :=
    fold_left (fun m p =>
                 if negb (mapHas (viewId p) m)
                 then mapSet (viewId p) (FromChain p) m
                 else m)
              blockchainPrescriptions combined in
  mapValues combined.

(** The comparator of the final sort. *)
Definition mostRecentFirst (x y : Item) : Z :=
  itemIssueTime y - itemIssueTime x.

Definition GET (req : Request) : M Response :=
  tryCatch
    (match session req with
     | None => ret {| statusCode := 401; body := Text (lit "Unauthorized") |}
     | Some user =>
         let role := orElse (roleParam req) (lit "patient") in
         if eqb role (lit "doctor") then
           doctor <- findDoctorByUser (sessionId user) ;;
           match doctor with
           | None =>
               ret {| statusCode := 404;
                      body := Text (lit "Doctor not found") |}
           | Some doctor =>
               dbPrescriptions <-
                 findPrescriptions
                   (fun p => eqb (prescriptionDoctorId p) (doctorId doctor)) ;;
               ch <- readChain ;;
               let blockchainPrescriptions :=
                 if truthy (Some (doctorBlockId doctor))
                 then fetchAllPrescriptionsFromBlockchain
                        ch (Some (doctorBlockId doctor)) true
                 else [] in
               let prescriptions :=
                 combine dbPrescriptions blockchainPrescriptions in
               ret {| statusCode := 200;
                      body := ListJson (sortBy mostRecentFirst prescriptions) |}
           end
         else
           patient <- findPatientByUser (sessionId user) ;;
           dbPrescriptions <-
             match patient with
             | Some patient =>
                 findPrescriptions
                   (fun p => eqb (prescriptionPatientId p) (patientId patient))
             | None => ret []
             end ;;
           ch <- readChain ;;
           let blockchainPrescriptions :=
             fetchAllPrescriptionsFromBlockchain ch None false in
           let prescriptions :=
             combine dbPrescriptions blockchainPrescriptions in
           ret {| statusCode := 200;
                  body := ListJson (sortBy mostRecentFirst prescriptions) |}
     end)
    (fun error =>
       ret {| statusCode := 500;
              body := ErrorJson (lit "Failed to fetch prescriptions") |}).

(** *** The body schema of [POST]

    [prescriptionCreateSchema.parse]: the parsed body, or the paths
    of the issues of the ZodError. *)

Record MedicationInput : Type := {
  inputName : str;
  inputDosage : str;
  inputDuration : str;
  inputAdditionalInstructions : option str
}.

Record PrescriptionCreate : Type := {
  bodyPatientId : str;
  bodyMedications : list MedicationInput;
  bodyValidTill : option str;
  bodyBlockchainTxHash : option str
}.

Definition issuesOf {T} (r : list str + T) : list str :=
  match r with
  | inl issues => issues
  | inr _ => []
  end.

(** [z.string().min(n)] at [path] *)
Definition zString (path : str) (n : nat) (o : option value)
  : list str + str :=
  match o with
  | Some (JString s) =>
      if (n <=? List.length s)%nat then inr s else inl [path]
  | _ => inl [path]
  end.

(** [z.string().optional()] at [path] *)
Definition zOptionalString (path : str) (o : option value)
  : list str + option str :=
  match o with
  | None => inr None
  | Some (JString s) => inr (Some s)
  | Some _ => inl [path]
  end.

(** [z.string().datetime().optional()] at [path] *)
Definition zOptionalDatetime (path : str) (o : option value)
  : list str + option str :=
  match o with
  | None => inr None
  | Some (JString s) => if zodDatetime s then inr (Some s) else inl [path]
  | Some _ => inl [path]
  end.

Definition zMedication (v : value) : list str + MedicationInput :=
  match v with
  | JObject props =>
      match zString (lit "medications.name") 1
                    (property (lit "name") props),
            zString (lit "medications.dosage") 1
                    (property (lit "dosage") props),
            zString (lit "medications.duration") 1
                    (property (lit "duration") props),
            zOptionalString (lit "medications.additionalInstructions")
                    (property (lit "additionalInstructions") props)
      with
      | inr n, inr d, inr t, inr i =>
          inr {| inputName := n; inputDosage := d; inputDuration := t;
                 inputAdditionalInstructions := i |}
      | n, d, t, i => inl (issuesOf n ++ issuesOf d ++ issuesOf t ++ issuesOf i)
      end
  | _ => inl [lit "medications"]
  end.

Fixpoint zMedications (items : list value)
  : list str + list MedicationInput :=
  match items with
  | [] => inr []
  | v :: rest =>
      match zMedication v, zMedications rest with
      | inr m, inr ms => inr (m :: ms)
      | m, ms => inl (issuesOf m ++ issuesOf ms)
      end
  end.

Definition zMedicationArray (o : option value)
  : list str + list MedicationInput :=
  match o with
  | Some (JArray items) => zMedications items
  | _ => inl [lit "medications"]
  end.

Definition prescriptionCreateSchema (json : value)
  : list str + PrescriptionCreate :=
  match json with
  | JObject props =>
      match zString (lit "patientId") 1 (property (lit "patientId") props),
            zMedicationArray (property (lit "medications") props),
            zOptionalDatetime (lit "validTill")
                              (property (lit "validTill") props),
            zOptionalString (lit "blockchainTxHash")
                            (property (lit "blockchainTxHash") props)
      with
      | inr p, inr m, inr v, inr t =>
          inr {| bodyPatientId := p; bodyMedications := m;
                 bodyValidTill := v; bodyBlockchainTxHash := t |}
      | p, m, v, t => inl (issuesOf p ++ issuesOf m ++ issuesOf v ++ issuesOf t)
      end
  | _ => inl [[]]
  end.

(** [await req.json()] *)
Definition reqJson (req : Request) : M value :=
  orThrow SyntaxError (json req).

(** [schema.parse(json)] *)
Definition zodParse {T} (r : list str + T) : M T :=
  match r with
  | inr v => ret v
  | inl issues => throw (ZodError issues)
  end.

(** [db.prescription.create({ data })]: the row gets a generated id.
    The handler does not set the issue date; the default of the schema,
    which is outside the sources, is taken to be the time of the
    insertion. *)
Definition createPrescription (doctor patient : str) (till : Z)
           (meds : list MedicationRow) : M PrescriptionRow :=
  fun w =>
    let d := db w in
    let row :=
      {| prescriptionId := cuid (generated d);
         prescriptionDoctorId := doctor;
         prescriptionPatientId := patient;
         issueDate := clock w;
         validTill := till;
         medications := meds |} in
    (Ok row,
     {| db :=
          {| users := users d; patients := patients d;
             doctors := doctors d; accessRequests := accessRequests d;
             appointments := appointments d;
             prescriptions := prescriptions d ++ [row];
             generated := S (generated d) |};
        chain := chain w; clock := clock w;
        randomCalls := randomCalls w |}).

Definition POST (req : Request) : M Response :=
  tryCatch
    (match session req with
     | None => ret {| statusCode := 401; body := Text (lit "Unauthorized") |}
     | Some user =>
         doctor <- findDoctorByUser (sessionId user) ;;
         match doctor with
         | None =>
             ret {| statusCode := 403;
                    body := Text (lit "Only doctors can create prescriptions") |}
         | Some doctor =>
             json <- reqJson req ;;
             body <- zodParse (prescriptionCreateSchema json) ;;
             validTill <-
               (if truthy (bodyValidTill body)
                then ret (dateOfText (orElse (bodyValidTill body) []))
                else now <- dateNow ;;
                     ret (now + 30 * 24 * 60 * 60 * 1000)) ;;
             prescription <-
               createPrescription (doctorId doctor) (bodyPatientId body)
                 validTill
                 (map (fun med =>
                         {| medName := inputName med;
                            medDosage := inputDosage med;
                            medDuration := inputDuration med;
                            medAdditionalInstructions :=
                              orElse (inputAdditionalInstructions med) [] |})
                      (bodyMedications body)) ;;
             ret {| statusCode := 200;
                    body := PrescriptionJson prescription |}
         end
     end)
    (fun error =>
       match error with
       | ZodError issues =>
           ret {| statusCode := 422; body := IssuesJson issues |}
       | _ =>
           ret {| statusCode := 500;
                  body := ErrorJson (lit "Failed to create prescription") |}
       end).

End Handlers.

End Prescriptions.

(** ** The appointments route: [POST] of [/api/appointments] *)

Module Appointments.
Import JS Dates Store Eff.
Import JSON (value(..), property).
Local Open Scope eff_scope.

Inductive Body : Type :=
| NoBody : Body
| Text : str -> Body
| Created : AppointmentRow -> Body
| ValidationFailed : list str -> Body
| ErrorJson : str -> Body.

Record Response : Type := {
  statusCode : Z;
  body : Body
}.

Record AppointmentRequest : Type := {
  bodyDoctorId : str;
  bodyStartTime : str;
  bodyEndTime : str
}.

Section Handlers.
Context {P : Platform}.

Definition M := Eff.M World exn.

(** [z.string()] at [path] *)
Definition zString (path : str) (o : option value) : list str + str :=
  match o with
  | Some (JString s) => inr s
  | _ => inl [path]
  end.

(** [z.string().datetime()] at [path] *)
Definition zDatetime (path : str) (o : option value) : list str + str :=
  match o with
  | Some (JString s) => if zodDatetime s then inr s else inl [path]
  | _ => inl [path]
  end.

Definition issuesOf {T} (r : list str + T) : list str :=
  match r with
  | inl issues => issues
  | inr _ => []
  end.

Definition appointmentSchema (json : value)
  : list str + AppointmentRequest :=
  match json with
  | JObject props =>
      match zString (lit "doctorId") (property (lit "doctorId") props),
            zDatetime (lit "startTime") (property (lit "startTime") props),
            zDatetime (lit "endTime") (property (lit "endTime") props)
      with
      | inr d, inr s, inr e =>
          inr {| bodyDoctorId := d; bodyStartTime := s; bodyEndTime := e |}
      | d, s, e => inl (issuesOf d ++ issuesOf s ++ issuesOf e)
      end
  | _ => inl [[]]
  end.

Definition reqJson (req : Request) : M value :=
  orThrow SyntaxError (json req).

Definition zodParse {T} (r : list str + T) : M T :=
  match r with
  | inr v => ret v
  | inl issues => throw (ZodError issues)
  end.

Definition setDb (w : World) (d : Db) : World :=
  {| db := d; chain := chain w; clock := clock w;
     randomCalls := randomCalls w |}.

(** [db.patient.findFirst({ where: { userId } })] *)
Definition findPatientByUser (uid : str) : M (option PatientRow) :=
  fun w =>
    (Ok (find (fun p => eqb (patientUserId p) uid) (patients (db w))), w).

(** [Math.random().toString(16).substr(2, 40)] *)
Definition mathRandomHex : M str :=
  fun w =>
    (Ok (randomHex (randomCalls w)),
     {| db := db w; chain := chain w; clock := clock w;
        randomCalls := S (randomCalls w) |}).

(** The time value of [new Date("1990-01-01")]. *)
Definition defaultDateOfBirth : Z := 631152000000.

(** [db.patient.create] with the placeholder profile. *)
Definition createPatient (uid blockId : str) : M PatientRow :=
  fun w =>
    let d := db w in
    let row :=
      {| patientId := cuid (generated d);
         patientUserId := uid;
         patientGender := lit "Not specified";
         patientDateOfBirth := defaultDateOfBirth;
         patientBloodType := lit "Unknown";
         patientChronicDiseases := [];
         patientEmergencyContact := lit "Not provided";
         patientBlockId := blockId |} in
    (Ok row,
     setDb w
       {| users := users d; patients := patients d ++ [row];
          doctors := doctors d; accessRequests := accessRequests d;
          appointments := appointments d;
          prescriptions := prescriptions d;
          generated := S (generated d) |}).

(** [db.user.update({ where: { id }, data: { role } })]: the update
    throws when no user has the id. *)
Definition updateUserRole (uid role : str) : M unit :=
  fun w =>
    let d := db w in
    if existsb (fun u => eqb (userId u) uid) (users d)
    then
      (Ok tt,
       setDb w
         {| users :=
              map (fun u =>
                     if eqb (userId u) uid
                     then {| userId := userId u; userRole := role |}
                     else u)
                  (users d);
            patients := patients d; doctors := doctors d;
            accessRequests := accessRequests d;
            appointments := appointments d;
            prescriptions := prescriptions d;
            generated := generated d |})
    else (Throw RecordNotFound, w).

(** [db.doctor.findUnique({ where: { id } })] *)
Definition findDoctor (id : str) : M (option DoctorRow) :=
  fun w => (Ok (find (fun d => eqb (doctorId d) id) (doctors (db w))), w).

(** [db.req_access.findUnique] on the pair of block ids. *)
Definition findAccessRequest (doctorBlock patientBlock : str)
  : M (option AccessRequestRow) :=
  fun w =>
    (Ok (find (fun r => eqb (accessDoctorId r) doctorBlock
                        && eqb (accessPatientId r) patientBlock)
              (accessRequests (db w))), w).

(** [status: { in: ["PENDING", "CONFIRMED"] }] *)
Definition active (s : AppointmentStatus) : bool :=
  match s with
  | PENDING | CONFIRMED => true
  | CANCELED => false
  end.

(** The [where] clause of the conflict query. *)
Definition conflicts (doctor patient : str) (startDateTime endDateTime : Z)
           (a : AppointmentRow) : bool :=
  (eqb (appointmentDoctorId a) doctor
   && (startTime a <=? endDateTime)
   && (endTime a >=? startDateTime)
   && active (status a))
  || (eqb (appointmentPatientId a) patient
      && (startTime a <=? endDateTime)
      && (endTime a >=? startDateTime)
      && active (status a)).

Definition findConflict (doctor patient : str)
           (startDateTime endDateTime : Z) : M (option AppointmentRow) :=
  fun w =>
    (Ok (find (conflicts doctor patient startDateTime endDateTime)
              (appointments (db w))), w).

(** [db.appointment.create({ data })] *)
Definition createAppointment (doctor patient : str)
           (startDateTime endDateTime : Z) : M AppointmentRow :=
  fun w =>
    let d := db w in
    let row :=
      {| appointmentId := cuid (generated d);
         appointmentDoctorId := doctor;
         appointmentPatientId := patient;
         startTime := startDateTime;
         endTime := endDateTime;
         status := PENDING |} in
    (Ok row,
     setDb w
       {| users := users d; patients := patients d;
          doctors := doctors d; accessRequests := accessRequests d;
          appointments := appointments d ++ [row];
          prescriptions := prescriptions d;
          generated := S (generated d) |}).

Definition POST (req : Request) : M Response :=
  tryCatch
    (match session req with
     | None => ret {| statusCode := 401; body := NoBody |}
     | Some user =>
         json <- reqJson req ;;
         parsed <- zodParse (appointmentSchema json) ;;
         let doctorId := bodyDoctorId parsed in
         let startDateTime := dateOfText (bodyStartTime parsed) in
         let endDateTime := dateOfText (bodyEndTime parsed) in
         found <- findPatientByUser (sessionId user) ;;
         patient <-
           match found with
           | Some patient => ret patient
           | None =>
               random <- mathRandomHex ;;
               patient <-
                 createPatient (sessionId user) (lit "0x" ++ random) ;;
               updateUserRole (sessionId user) (lit "patient") ;;;
               ret patient
           end ;;
         doctor <- findDoctor doctorId ;;
         match doctor with
         | None =>
             ret {| statusCode := 404; body := Text (lit "Doctor not found") |}
         | Some doctor =>
             accessRequest <-
               findAccessRequest (doctorBlockId doctor)
                                 (patientBlockId patient) ;;
             conflictingAppointment <-
               findConflict doctorId (patientId patient)
                            startDateTime endDateTime ;;
             match conflictingAppointment with
             | Some _ =>
                 ret {| statusCode := 409;
                        body := Text (lit "Time slot not available") |}
             | None =>
                 appointment <-
                   createAppointment doctorId (patientId patient)
                                     startDateTime endDateTime ;;
                 ret {| statusCode := 200; body := Created appointment |}
             end
         end
     end)
    (fun error =>
       match error with
       | ZodError issues =>
           ret {| statusCode := 400; body := ValidationFailed issues |}
       | _ =>
           ret {| statusCode := 500;
                  body := ErrorJson (lit "Internal server error") |}
       end).

End Handlers.

End Appointments.

(** ** The doctor registration form: [DoctorForm.onSubmit]

    The contract wrapper and the API route that the form calls are not
    part of the sources; they are the [Backend] below.  The chain holds the
    addresses that [registerDoctor] has registered, the database the users
    whose doctor profile the API has stored.  Console output is left
    out. *)

Module DoctorForm.
Import JS Eff.
Local Open Scope eff_scope.

Record FormData : Type := {
  name : str;
  phoneNumber : str;
  aadharNumber : str;
  mbbsId : str;
  specialty : str;
  blockId : str;
  fees : Z
}.

Record Toast : Type := {
  title : str;
  description : str;
  destructive : bool
}.

(** [error?.data?.message] of a caught error, as far as
    [?.includes(...)] depends on it: missing ([undefined] or [null], also
    when [error.data] is missing or a primitive), a string, or another
    value.  For another value [DataValue None] says that it has no
    [includes] to call, and [DataValue (Some b)] that it has one, as an
    array has, whose answer counts as [b] in a condition. *)
Inductive DataMessage : Type :=
| NoDataMessage : DataMessage
| DataString : str -> DataMessage
| DataValue : option bool -> DataMessage.

(** A caught error, as far as the form looks into it: [error?.message],
    a string in every error that the libraries throw, and
    [error?.data?.message]. *)
Record JsError : Type := {
  message : option str;
  errorData : DataMessage
}.

(** [error.data.message] when it is a string. *)
Definition dataMessage (e : JsError) : option str :=
  match errorData e with
  | DataString m => Some m
  | _ => None
  end.

(** What leaves [onSubmit] uncaught: the TypeError of calling an
    [includes] that is not a function. *)
Inductive Uncaught : Type :=
| TypeError : Uncaught.

(** The answer of [axios.post]: a response with its status, or a
    rejection (a status outside 2xx, or no answer at all). *)
Inductive PostOutcome : Type :=
| Resolved : Z -> PostOutcome
| Rejected : str -> PostOutcome.

(** The calls that leave the browser. *)
Inductive Call : Type :=
| ContractInit : str -> Call
| RegisterDoctor : str -> str -> Z -> Call
| PostDoctor : str -> Call.

Record World : Type := {
  chainDoctors : list str;
  dbDoctors : list str;
  toasts : list Toast;
  pushed : list str;
  calls : list Call
}.

Class Backend : Type := {
  (** [contract.init()] for a wallet address: the error it throws *)
  initContract : str -> option JsError;
  (** [contract.registerDoctor]: the error with which the transaction
      is refused on a chain with these doctors *)
  registerDoctor : list str -> FormData -> option JsError;
  (** the answer of [POST /api/users/doctor] on a database with these
      doctors; the profile is stored exactly when the answer is 200 *)
  postDoctor : list str -> FormData -> str -> PostOutcome
}.

(** [hay.includes(needle)] *)
Fixpoint includes (needle hay : str) : bool :=
  startsWith needle hay
  || match hay with
     | [] => false
     | _ :: rest => includes needle rest
     end.

(** [message?.includes(needle)]: [undefined], which counts as false, when
    the message is missing; [None] when the call throws. *)
Definition optionalIncludes (m : DataMessage) (needle : str) : option bool :=
  match m with
  | NoDataMessage => Some false
  | DataString text => Some (includes needle text)
  | DataValue answer => answer
  end.

Section Form.
Context {B : Backend}.

Definition M := Eff.M World JsError.

Definition record {E} (c : Call) : Eff.M World E unit :=
  modify (fun w =>
            {| chainDoctors := chainDoctors w; dbDoctors := dbDoctors w;
               toasts := toasts w; pushed := pushed w;
               calls := calls w ++ [c] |}).

Definition toast {E} (t : Toast) : Eff.M World E unit :=
  modify (fun w =>
            {| chainDoctors := chainDoctors w; dbDoctors := dbDoctors w;
               toasts := toasts w ++ [t]; pushed := pushed w;
               calls := calls w |}).

Definition routerPush {E} (path : str) : Eff.M World E unit :=
  modify (fun w =>
            {| chainDoctors := chainDoctors w; dbDoctors := dbDoctors w;
               toasts := toasts w; pushed := pushed w ++ [path];
               calls := calls w |}).

(** [new MedicalContract(blockId)] and [await contract.init()] *)
Definition contractInit (data : FormData) : M unit :=
  record (ContractInit (blockId data)) ;;;
  match initContract (blockId data) with
  | Some e => throw e
  | None => ret tt
  end.

(** [await contract.registerDoctor(name, specialty, fees)]: the write
    to the chain. *)
Definition contractRegisterDoctor (data : FormData) : M unit :=
  record (RegisterDoctor (name data) (specialty data) (fees data)) ;;;
  fun w =>
    match registerDoctor (chainDoctors w) data with
    | Some e => (Throw e, w)
    | None =>
        (Ok tt,
         {| chainDoctors := chainDoctors w ++ [blockId data];
            dbDoctors := dbDoctors w; toasts := toasts w;
            pushed := pushed w; calls := calls w |})
    end.

(** [await axios.post("/api/users/doctor", { ...data, userId })]: the
    write to the database; the status of the response is returned. *)
Definition axiosPost (data : FormData) (userId : str) : M Z :=
  record (PostDoctor userId) ;;;
  fun w =>
    match postDoctor (dbDoctors w) data userId with
    | Resolved status =>
        (Ok status,
         {| chainDoctors := chainDoctors w;
            dbDoctors :=
              if status =? 200 then dbDoctors w ++ [userId]
              else dbDoctors w;
            toasts := toasts w; pushed := pushed w; calls := calls w |})
    | Rejected msg =>
        (Throw {| message := Some msg; errorData := NoDataMessage |}, w)
    end.

(** The promise of [onSubmit] is fulfilled, or rejected with what the
    [catch] block throws. *)
Definition onSubmit (userId : str) (data : FormData)
  : Eff.M World Uncaught unit :=
  tryCatch
    (contractInit data ;;;
     contractRegisterDoctor data ;;;
     status <- axiosPost data userId ;;
     if negb (status =? 200) then
       toast {| title := lit "Database Registration Failed";
                description :=
                  lit "Blockchain registration succeeded but database registration failed. Please contact support.";
                destructive := true |}
     else
       toast {| title := lit "Success!";
                description := lit "Doctor registration completed successfully.";
                destructive := false |} ;;;
       routerPush (lit "/doctor"))
    (fun error =>
       isAlreadyRegistered <-
         orThrow TypeError
           (optionalIncludes (errorData error)
                             (lit "Doctor already registered")) ;;
       if isAlreadyRegistered then
         tryCatch
           (status <- axiosPost data userId ;;
            if status =? 200 then
              toast {| title := lit "Registration Completed";
                       description :=
                         lit "You were already registered on blockchain. Database registration completed.";
                       destructive := false |} ;;;
              routerPush (lit "/doctor")
            else
              toast {| title := lit "Registration Issue";
                       description :=
                         lit "You're already registered on blockchain, but database registration failed.";
                       destructive := true |})
           (fun dbError =>
              toast {| title := lit "Registration Failed";
                       description :=
                         lit "You're already registered on blockchain, but database registration failed.";
                       destructive := true |})
       else
         toast {| title := lit "Registration Failed";
                  description :=
                    lit "Failed to register: "
                      ++ orElse (message error) (lit "Unknown error");
                  destructive := true |}).

End Form.

End DoctorForm.


(** ** The single-prescription route: [GET] and [PUT] of
    [/api/prescriptions/[id]]

    The route parameter [id] reaches the handlers as a string.  Console
    output is left out. *)

Module PrescriptionById.
Import JS Dates Store Eff.
Local Open Scope eff_scope.

Inductive Body : Type :=
| Text : str -> Body
| ErrorJson : str -> Body
| RowJson : PrescriptionRow -> Body
| ViewJson : Prescriptions.ChainView -> Body.

Record Response : Type := {
  statusCode : Z;
  body : Body
}.

(** What the handlers can catch: [req.json()] on a body that is not JSON,
    and an update that the database client refuses. *)
Inductive exn : Type :=
| SyntaxError : exn
| UpdateRefused : exn.

(** [db.prescription.update({ where: { id }, data: json })] takes its data
    from the request as they come; what the database client makes of
    them is not in the sources.  [None] is an update that throws. *)
Class Orm : Type := {
  prescriptionUpdate : str -> JSON.value -> Db -> option (PrescriptionRow * Db)
}.

Definition M := Eff.M World exn.

(** [db.user.findUnique({ where: { id }, select: { role: true } })] *)
Definition findUser (uid : str) : M (option UserRow) :=
  fun w => (Ok (find (fun u => eqb (userId u) uid) (users (db w))), w).

(** [userData?.role === "doctor"] *)
Definition roleIsDoctor (userData : option UserRow) : bool :=
  match userData with
  | Some u => eqb (userRole u) (lit "doctor")
  | None => false
  end.

(** [db.doctor.findFirst({ where: { userId } })] *)
Definition findDoctorByUser (uid : str) : M (option DoctorRow) :=
  fun w => (Ok (find (fun d => eqb (doctorUserId d) uid) (doctors (db w))), w).

(** [db.patient.findFirst({ where: { userId } })] *)
Definition findPatientByUser (uid : str) : M (option PatientRow) :=
  fun w => (Ok (find (fun p => eqb (patientUserId p) uid) (patients (db w))), w).

(** [db.prescription.findFirst({ where })] *)
Definition findPrescription (keep : PrescriptionRow -> bool)
  : M (option PrescriptionRow) :=
  fun w => (Ok (find keep (prescriptions (db w))), w).

Definition readChain : M Chain := fun w => (Ok (chain w), w).

(** The end of [GET]: the row found in the database, or else the record
    of the chain when the user has a wallet address. *)
Definition answer (prescriptionId : str) (userWalletAddress : option str)
           (prescription : option PrescriptionRow) : M Response :=
  match prescription with
  | None =>
      if truthy userWalletAddress then
        ch <- readChain ;;
        match Prescriptions.fetchPrescriptionFromBlockchain
                ch prescriptionId userWalletAddress with
        | Some found => ret {| statusCode := 200; body := ViewJson found |}
        | None =>
            ret {| statusCode := 404;
                   body := Text (lit "Prescription not found") |}
        end
      else
        ret {| statusCode := 404; body := Text (lit "Prescription not found") |}
  | Some found => ret {| statusCode := 200; body := RowJson found |}
  end.

Definition GET (req : Request) (prescriptionId : str) : M Response :=
  tryCatch
    (match session req with
     | None => ret {| statusCode := 401; body := Text (lit "Unauthorized") |}
     | Some user =>
         userData <- findUser (sessionId user) ;;
         if roleIsDoctor userData then
           doctor <- findDoctorByUser (sessionId user) ;;
           let userWalletAddress := option_map doctorBlockId doctor in
           match doctor with
           | None =>
               ret {| statusCode := 404;
                      body := Text (lit "Doctor not found") |}
           | Some doctor =>
               prescription <-
                 findPrescription
                   (fun p => eqb (Store.prescriptionId p) prescriptionId
                             && eqb (prescriptionDoctorId p) (doctorId doctor)) ;;
               answer prescriptionId userWalletAddress prescription
           end
         else
           patient <- findPatientByUser (sessionId user) ;;
           let userWalletAddress := option_map patientBlockId patient in
           match patient with
           | None =>
               if truthy userWalletAddress then
                 ch <- readChain ;;
                 match Prescriptions.fetchPrescriptionFromBlockchain
                         ch prescriptionId userWalletAddress with
                 | Some found =>
                     ret {| statusCode := 200; body := ViewJson found |}
                 | None =>
                     ret {| statusCode := 404;
                            body :=
                              Text (lit "Patient not found and no blockchain data available") |}
                 end
               else
                 ret {| statusCode := 404;
                        body :=
                          Text (lit "Patient not found and no blockchain data available") |}
           | Some patient =>
               prescription <-
                 findPrescription
                   (fun p => eqb (Store.prescriptionId p) prescriptionId
                             && eqb (prescriptionPatientId p)
                                    (patientId patient)) ;;
               answer prescriptionId userWalletAddress prescription
           end
     end)
    (fun error =>
       ret {| statusCode := 500;
              body := ErrorJson (lit "Failed to fetch prescription details") |}).

Section Update.
Context {O : Orm}.

(** [await req.json()] *)
Definition reqJson (req : Request) : M JSON.value :=
  orThrow SyntaxError (json req).

Definition updatePrescription (prescriptionId : str) (data : JSON.value)
  : M PrescriptionRow :=
  fun w =>
    match prescriptionUpdate prescriptionId data (db w) with
    | Some (row, d) =>
        (Ok row,
         {| db := d; chain := chain w; clock := clock w;
            randomCalls := randomCalls w |})
    | None => (Throw UpdateRefused, w)
    end.

Definition PUT (req : Request) (prescriptionId : str) : M Response :=
  tryCatch
    (match session req with
     | None => ret {| statusCode := 401; body := Text (lit "Unauthorized") |}
     | Some user =>
         doctor <- findDoctorByUser (sessionId user) ;;
         match doctor with
         | None =>
             ret {| statusCode := 403;
                    body := Text (lit "Only doctors can update prescriptions") |}
         | Some doctor =>
             json <- reqJson req ;;
             existingPrescription <-
               findPrescription
                 (fun p => eqb (Store.prescriptionId p) prescriptionId
                           && eqb (prescriptionDoctorId p) (doctorId doctor)) ;;
             match existingPrescription with
             | None =>
                 ret {| statusCode := 404;
                        body :=
                          Text (lit "Prescription not found or access denied") |}
             | Some _ =>
                 updatedPrescription <-
                   updatePrescription prescriptionId json ;;
                 ret {| statusCode := 200;
                        body := RowJson updatedPrescription |}
             end
         end
     end)
    (fun error =>
       ret {| statusCode := 500;
              body := ErrorJson (lit "Failed to update prescription") |}).

End Update.

End PrescriptionById.

(** ** The appointments list: [GET] of [/api/appointments]

    The search parameters [status], [limit] and [offset] reach the
    handler as strings, or not at all.  A parsed number is carried as the
    integer that its digits spell; JavaScript rounds one beyond 2^53,
    which is far outside the range that the database client takes. *)

Module AppointmentList.
Import JS Store Eff.
Local Open Scope eff_scope.

Record ListRequest : Type := {
  session : option SessionUser;
  statusParam : option str;
  limitParam : option str;
  offsetParam : option str
}.

Record Pagination : Type := {
  total : Z;
  limit : number;
  offset : number;
  hasMore : bool
}.

Inductive Body : Type :=
| Text : str -> Body
| Success : list AppointmentRow -> Pagination -> Body
| Failure : str -> Body.

Record Response : Type := {
  statusCode : Z;
  body : Body
}.

(** What the handler can catch: a query that the database client
    refuses. *)
Inductive exn : Type :=
| ClientError : exn.

Definition M := Eff.M World exn.

(** The [where] clause: the id of the profile, compared with the doctor
    or with the patient of an appointment, and the status when the
    parameter is given. *)
Record Where : Type := {
  byDoctor : bool;
  profileId : str;
  statusIs : option str
}.

(** The database client is given [status], [take] and [skip] as the
    request has them.  What it does with a status outside the
    enumeration, or with a [take] or [skip] that is not an integer from
    0 to 2^31 - 1, is not in the sources: the rows it then returns, or
    [None] when it throws. *)
Class Client : Type := {
  findManyOther : Where -> number -> number -> Db -> option (list AppointmentRow);
  countOther : Where -> Db -> option Z
}.

(** [o ?? d] *)
Definition orDefault (o : option str) (d : str) : str :=
  match o with
  | Some s => s
  | None => d
  end.

(** [a + b] and [a < b] on numbers. *)
Definition plus (a b : number) : number :=
  match a, b with
  | Num x, Num y => Num (x + y)
  | _, _ => NaN
  end.

Definition lessThan (a b : number) : bool :=
  match a, b with
  | Num x, Num y => x <? y
  | _, _ => false
  end.

(** The member of the enumeration that a text names. *)
Definition statusOfText (s : str) : option AppointmentStatus :=
  if eqb s (lit "PENDING") then Some PENDING
  else if eqb s (lit "CONFIRMED") then Some CONFIRMED
  else if eqb s (lit "CANCELED") then Some CANCELED
  else None.

Definition sameStatus (a b : AppointmentStatus) : bool :=
  match a, b with
  | PENDING, PENDING | CONFIRMED, CONFIRMED | CANCELED, CANCELED => true
  | _, _ => false
  end.

(** The status filter of a clause, when the client takes it. *)
Definition statusFilter (clause : Where)
  : option (option AppointmentStatus) :=
  match statusIs clause with
  | None => Some None
  | Some s => option_map Some (statusOfText s)
  end.

(** A [take] or [skip] that the client takes. *)
Definition int32 (n : number) : option nat :=
  match n with
  | Num z => if (0 <=? z) && (z <? 2 ^ 31) then Some (Z.to_nat z) else None
  | NaN => None
  end.

Definition selects (clause : Where) (wanted : option AppointmentStatus)
           (a : AppointmentRow) : bool :=
  (if byDoctor clause
   then eqb (appointmentDoctorId a) (profileId clause)
   else eqb (appointmentPatientId a) (profileId clause))
  && match wanted with
     | Some s => sameStatus (status a) s
     | None => true
     end.

(** [orderBy: { startTime: "desc" }] *)
Definition latestFirst (a b : AppointmentRow) : Z := startTime b - startTime a.

Section Handler.
Context {C : Client}.

(** [db.user.findUnique({ where: { id }, select: { role: true } })] *)
Definition findUser (uid : str) : M (option UserRow) :=
  fun w => (Ok (find (fun u => eqb (userId u) uid) (users (db w))), w).

(** [db.doctor.findFirst] and [db.patient.findFirst] on the user id,
    as far as the handler reads the profile: its id. *)
Definition findDoctorId (uid : str) : M (option str) :=
  fun w =>
    (Ok (option_map doctorId
           (find (fun d => eqb (doctorUserId d) uid) (doctors (db w)))), w).

Definition findPatientId (uid : str) : M (option str) :=
  fun w =>
    (Ok (option_map patientId
           (find (fun p => eqb (patientUserId p) uid) (patients (db w)))), w).

(** [db.appointment.findMany({ where, orderBy, take, skip })] *)
Definition findMany (clause : Where) (take skip : number)
  : M (list AppointmentRow) :=
  fun w =>
    match statusFilter clause, int32 take, int32 skip with
    | Some wanted, Some t, Some s =>
        (Ok (firstn t
               (skipn s
                  (sortBy latestFirst
                     (filter (selects clause wanted)
                             (appointments (db w)))))), w)
    | _, _, _ =>
        match findManyOther clause take skip (db w) with
        | Some rows => (Ok rows, w)
        | None => (Throw ClientError, w)
        end
    end.

(** [db.appointment.count({ where })] *)
Definition count (clause : Where) : M Z :=
  fun w =>
    match statusFilter clause with
    | Some wanted =>
        (Ok (Z.of_nat
               (List.length
                  (filter (selects clause wanted) (appointments (db w))))), w)
    | None =>
        match countOther clause (db w) with
        | Some n => (Ok n, w)
        | None => (Throw ClientError, w)
        end
    end.

Definition GET (req : ListRequest) : M Response :=
  tryCatch
    (match session req with
     | None => ret {| statusCode := 401; body := Text (lit "Unauthorized") |}
     | Some user =>
         let status := statusParam req in
         let limit := parseInt (orDefault (limitParam req) (lit "10")) 0 in
         let offset := parseInt (orDefault (offsetParam req) (lit "0")) 0 in
         userData <- findUser (sessionId user) ;;
         let isDoctor :=
           match userData with
           | Some u => eqb (userRole u) (lit "doctor")
           | None => false
           end in
         userProfile <-
           (if isDoctor then findDoctorId (sessionId user)
            else findPatientId (sessionId user)) ;;
         match userProfile with
         | None =>
             ret {| statusCode := 404; body := Text (lit "Profile not found") |}
         | Some id =>
             let clause :=
               {| byDoctor := isDoctor; profileId := id;
                  statusIs := if truthy status then status else None |} in
             appointments <- findMany clause limit offset ;;
             total <- count clause ;;
             ret {| statusCode := 200;
                    body :=
                      Success appointments
                        {| total := total; limit := limit; offset := offset;
                           hasMore :=
                             lessThan (plus offset limit) (Num total) |} |}
         end
     end)
    (fun error =>
       ret {| statusCode := 500; body := Failure (lit "Internal server error") |}).

End Handler.

End AppointmentList.

(** ** The medication rows of the anonymous-prescription form

    The state [medications] of [AnonymousPrescriptionPage] and the three
    handlers that replace it.  Each handler is given the state of the
    render in which it is called and returns the state that it sets. *)

Module AnonymousForm.
Import JS.
Import ZkProofs (Medication, name, dosage, duration, additionalInstructions).

(** [{ name: "", dosage: "", duration: "", additionalInstructions: "" }] *)
Definition blank : Medication :=
  {| name := []; dosage := []; duration := [];
     additionalInstructions := [] |}.

(** The initial state. *)
Definition initialMedications : list Medication := [blank].

(** [keyof Medication] *)
Inductive Field : Type :=
| Name : Field
| Dosage : Field
| Duration : Field
| AdditionalInstructions : Field.

(** The items of an array with their indices, as the callbacks of
    [filter] and [map] are given them. *)
Definition indexed {A : Type} (l : list A) : list (nat * A) :=
  combine (seq 0 (List.length l)) l.

Definition addMedication (medications : list Medication)
  : list Medication :=
  medications ++ [blank].

Definition removeMedication (index : nat) (medications : list Medication)
  : list Medication :=
  if (1 <? List.length medications)%nat
  then map snd
           (filter (fun im => negb (fst im =? index)%nat)
                   (indexed medications))
  else medications.

(** [{ ...med, [field]: value }] *)
Definition withField (med : Medication) (field : Field) (value : str)
  : Medication :=
  match field with
  | Name =>
      {| name := value; dosage := dosage med; duration := duration med;
         additionalInstructions := additionalInstructions med |}
  | Dosage =>
      {| name := name med; dosage := value; duration := duration med;
         additionalInstructions := additionalInstructions med |}
  | Duration =>
      {| name := name med; dosage := dosage med; duration := value;
         additionalInstructions := additionalInstructions med |}
  | AdditionalInstructions =>
      {| name := name med; dosage := dosage med; duration := duration med;
         additionalInstructions := value |}
  end.

Definition updateMedication (index : nat) (field : Field) (value : str)
           (medications : list Medication) : list Medication :=
  map (fun im =>
         if (fst im =? index)%nat then withField (snd im) field value
         else snd im)
      (indexed medications).

End AnonymousForm.

(** ** The prescription form of the doctor: [handleSubmit] of
    [CreatePrescriptionPage]

    The form writes to the chain first and to the database afterwards.
    The contract, the two API routes and the clock are the world that it
    acts on. *)

Module PrescriptionForm.
Import JS Eff Dates.
Import DoctorForm (Toast, title, description, destructive,
                   JsError, message, errorData, DataMessage, NoDataMessage,
                   PostOutcome, Resolved, Rejected).
Local Open Scope eff_scope.

(** The text is white space of ECMA-262 from end to end. *)
Fixpoint allWhite (fuel : nat) (s : str) : bool :=
  match s with
  | [] => true
  | _ :: _ =>
      match fuel with
      | O => false
      | S fuel' =>
          match whiteAt s with
          | Some r => allWhite fuel' r
          | None => false
          end
      end
  end.

(** [!s.trim()]: nothing is left of [s] once the white space at its ends
    is dropped. *)
Definition blank (s : str) : bool := allWhite (List.length s) s.

Record Medication : Type := {
  name : str;
  dosage : str;
  duration : str;
  additionalInstructions : str
}.

(** The state of the component that [handleSubmit] reads. *)
Record Form : Type := {
  selectedPatientId : str;
  selectedPatientAddress : str;
  medications : list Medication;
  diagnosis : str;
  validTill : str
}.

(** A medication as the contract is given it. *)
Record ChainMedication : Type := {
  chainName : str;
  chainDosage : str;
  chainDuration : number;
  chainInstructions : str
}.

(** The arguments of [issuePrescription]. *)
Record Issue : Type := {
  issuePatient : str;
  issueMedications : list ChainMedication;
  issueDiagnosis : str
}.

(** [validTill] in the body of the POST: the text of the form, or the
    default as [toISOString] writes it. *)
Inductive ValidTill : Type :=
| Typed : str -> ValidTill
| Default : ISOString -> ValidTill.

(** The body of [POST /api/prescriptions]. *)
Record Body : Type := {
  bodyPatientId : str;
  bodyMedications : list Medication;
  bodyValidTill : ValidTill
}.

(** The answer of [axios.get] on the patients route: the ids of the
    patients in the answer, or a rejection. *)
Inductive GetOutcome : Type :=
| Found : list str -> GetOutcome
| GetRejected : str -> GetOutcome.

(** The calls that leave the browser. *)
Inductive Call : Type :=
| GetContract : Call
| IssuePrescription : Issue -> Call
| GetPatients : str -> Call
| PostPrescription : Body -> Call.

Record World : Type := {
  issued : list Issue;
  saved : list Body;
  toasts : list Toast;
  pushed : list str;
  isSubmitting : bool;
  clock : Z;
  calls : list Call
}.

Class Backend : Type := {
  (** [getMedicalContract()]: the error it throws *)
  getMedicalContract : option JsError;
  (** [issuePrescription] and [tx.wait()]: the error with which the
      transaction fails on a chain with these prescriptions *)
  issuePrescription : list Issue -> Issue -> option JsError;
  (** the answer of [GET /api/patients?address=] *)
  getPatients : str -> GetOutcome;
  (** the answer of [POST /api/prescriptions] on a database with these
      prescriptions; the prescription is stored exactly when the answer
      is 200 *)
  postPrescription : list Body -> Body -> PostOutcome;
  (** the RangeError of [toISOString] on an invalid date *)
  invalidTime : JsError
}.

Section Submit.
Context {B : Backend}.

Definition M := Eff.M World JsError.

Definition record (c : Call) : M unit :=
  modify (fun w =>
            {| issued := issued w; saved := saved w; toasts := toasts w;
               pushed := pushed w; isSubmitting := isSubmitting w;
               clock := clock w; calls := calls w ++ [c] |}).

Definition toast (t : Toast) : M unit :=
  modify (fun w =>
            {| issued := issued w; saved := saved w;
               toasts := toasts w ++ [t];
               pushed := pushed w; isSubmitting := isSubmitting w;
               clock := clock w; calls := calls w |}).

Definition routerPush (path : str) : M unit :=
  modify (fun w =>
            {| issued := issued w; saved := saved w; toasts := toasts w;
               pushed := pushed w ++ [path];
               isSubmitting := isSubmitting w;
               clock := clock w; calls := calls w |}).

Definition setIsSubmitting (b : bool) : M unit :=
  modify (fun w =>
            {| issued := issued w; saved := saved w; toasts := toasts w;
               pushed := pushed w; isSubmitting := b;
               clock := clock w; calls := calls w |}).

Definition dateNow : M Z := fun w => (Ok (clock w), w).

(** [await getMedicalContract()] *)
Definition contractGet : M unit :=
  record GetContract ;;;
  match getMedicalContract with
  | Some e => throw e
  | None => ret tt
  end.

(** [await medicalContract.issuePrescription(...)] and
    [await tx.wait()]: the write to the chain. *)
Definition contractIssue (i : Issue) : M unit :=
  record (IssuePrescription i) ;;;
  fun w =>
    match issuePrescription (issued w) i with
    | Some e => (Throw e, w)
    | None =>
        (Ok tt,
         {| issued := issued w ++ [i]; saved := saved w;
            toasts := toasts w; pushed := pushed w;
            isSubmitting := isSubmitting w;
            clock := clock w; calls := calls w |})
    end.

(** [await axios.get(`/api/patients?address=${address}`)], as far as
    the form reads the answer: the ids of the patients. *)
Definition axiosGet (address : str) : M (list str) :=
  record (GetPatients address) ;;;
  match getPatients address with
  | Found ids => ret ids
  | GetRejected msg => throw {| message := Some msg; errorData := NoDataMessage |}
  end.

(** [await axios.post("/api/prescriptions", body)]: the write to the
    database. *)
Definition axiosPost (body : Body) : M unit :=
  record (PostPrescription body) ;;;
  fun w =>
    match postPrescription (saved w) body with
    | Resolved status =>
        (Ok tt,
         {| issued := issued w;
            saved := if status =? 200 then saved w ++ [body] else saved w;
            toasts := toasts w; pushed := pushed w;
            isSubmitting := isSubmitting w;
            clock := clock w; calls := calls w |})
    | Rejected msg =>
        (Throw {| message := Some msg; errorData := NoDataMessage |}, w)
    end.

(** [medications.some(med => !med.name.trim() || !med.dosage.trim() ||
    !med.duration.trim())] *)
Definition someBlank (meds : list Medication) : bool :=
  existsb (fun med => blank (name med) || blank (dosage med)
                      || blank (duration med)) meds.

(** One entry of [blockchainMedications]; [parseInt(med.duration)] is
    the number that the text spells, which is the double of JavaScript up
    to 2^53. *)
Definition blockchainMedication (med : Medication) : ChainMedication :=
  {| chainName := name med;
     chainDosage := dosage med;
     chainDuration := parseInt (duration med) 0;
     chainInstructions := additionalInstructions med |}.

Definition errorToast (text : str) : Toast :=
  {| title := lit "Error"; description := text; destructive := true |}.

(** [validTill || new Date(Date.now() + 30 * 24 * 60 * 60 * 1000)
    .toISOString()] *)
Definition validTillOrDefault (validTill : str) : M ValidTill :=
  match validTill with
  | _ :: _ => ret (Typed validTill)
  | [] =>
      now <- dateNow ;;
      match toISOString (newDate (now + 30 * 24 * 60 * 60 * 1000)) with
      | Some text => ret (Default text)
      | None => throw invalidTime
      end
  end.

Definition handleSubmit (form : Form) : M unit :=
  if blank (selectedPatientAddress form) then
    toast (errorToast (lit "Please enter a patient address."))
  else if blank (diagnosis form) then
    toast (errorToast (lit "Please enter a diagnosis."))
  else if someBlank (medications form) then
    toast (errorToast (lit "Please fill in all medication fields."))
  else
    tryCatch
      (setIsSubmitting true ;;;
       contractGet ;;;
       let blockchainMedications :=
         map blockchainMedication (medications form) in
       contractIssue
         {| issuePatient := selectedPatientAddress form;
            issueMedications := blockchainMedications;
            issueDiagnosis := diagnosis form |} ;;;
       patientIdForDb <-
         match selectedPatientId form, selectedPatientAddress form with
         | [], _ :: _ =>
             data <- axiosGet (selectedPatientAddress form) ;;
             match data with
             | first :: _ => ret first
             | [] => ret (selectedPatientId form)
             end
         | _, _ => ret (selectedPatientId form)
         end ;;
       match patientIdForDb with
       | _ :: _ =>
           till <- validTillOrDefault (validTill form) ;;
           axiosPost {| bodyPatientId := patientIdForDb;
                        bodyMedications := medications form;
                        bodyValidTill := till |}
       | [] => ret tt
       end ;;;
       toast {| title := lit "Success!";
                description := lit "Prescription issued successfully.";
                destructive := false |} ;;;
       routerPush (lit "/doctor/prescriptions"))
      (fun error =>
         toast (errorToast
                  (lit "Failed to issue prescription: "
                     ++ orElse (message error) (lit "Unknown error")))) ;;;
    setIsSubmitting false.

End Submit.

End PrescriptionForm.

(** ** The anonymous-prescription form: [handleSubmit] of
    [AnonymousPrescriptionPage]

    The form computes the commitment in the browser and sends it to the
    contract with the medications, the diagnosis and the mock proof. *)

Module AnonymousPage.
Import JS Eff.
Import DoctorForm (Toast, title, description, destructive).
Import PrescriptionForm (blank).
Local Open Scope eff_scope.

(** The state of the component. *)
Record State : Type := {
  medications : list ZkProofs.Medication;
  diagnosis : str;
  secretKey : str;
  isGeneratingProof : bool;
  isSubmitting : bool
}.

(** The arguments of [issueAnonymousPrescription]. *)
Record AnonymousIssue : Type := {
  sentMedications : list ZkProofs.Medication;
  sentDiagnosis : str;
  sentCommitment : list number;
  sentProof : ZkProofs.Proof;
  sentInputs : list str
}.

Inductive Call : Type :=
| GetContract : Call
| IssueAnonymousPrescription : AnonymousIssue -> Call.

Record World : Type := {
  state : State;
  browser : ZkProofs.World;
  anonymousIssued : list AnonymousIssue;
  toasts : list Toast;
  calls : list Call
}.

(** Whatever is thrown inside [try]: the handler does not look at
    it. *)
Inductive exn : Type :=
| Failed : exn.

Class Wallet : Type := {
  (** the address of the signer of [getMedicalWithZKContract()]; [None]
      when the contract or the address cannot be had *)
  signerAddress : option str;
  (** whether [issueAnonymousPrescription] and [tx.wait()] go through on
      a chain with these prescriptions *)
  issueAnonymousPrescription : list AnonymousIssue -> AnonymousIssue -> bool
}.

Section Submit.
Context {W : Wallet}.

Definition M := Eff.M World exn.

Definition setState (f : State -> State) : M unit :=
  modify (fun w =>
            {| state := f (state w); browser := browser w;
               anonymousIssued := anonymousIssued w; toasts := toasts w;
               calls := calls w |}).

Definition setMedications (v : list ZkProofs.Medication) : M unit :=
  setState (fun s =>
              {| medications := v; diagnosis := diagnosis s;
                 secretKey := secretKey s;
                 isGeneratingProof := isGeneratingProof s;
                 isSubmitting := isSubmitting s |}).

Definition setDiagnosis (v : str) : M unit :=
  setState (fun s =>
              {| medications := medications s; diagnosis := v;
                 secretKey := secretKey s;
                 isGeneratingProof := isGeneratingProof s;
                 isSubmitting := isSubmitting s |}).

Definition setSecretKey (v : str) : M unit :=
  setState (fun s =>
              {| medications := medications s; diagnosis := diagnosis s;
                 secretKey := v;
                 isGeneratingProof := isGeneratingProof s;
                 isSubmitting := isSubmitting s |}).

Definition setIsGeneratingProof (v : bool) : M unit :=
  setState (fun s =>
              {| medications := medications s; diagnosis := diagnosis s;
                 secretKey := secretKey s;
                 isGeneratingProof := v;
                 isSubmitting := isSubmitting s |}).

Definition setIsSubmitting (v : bool) : M unit :=
  setState (fun s =>
              {| medications := medications s; diagnosis := diagnosis s;
                 secretKey := secretKey s;
                 isGeneratingProof := isGeneratingProof s;
                 isSubmitting := v |}).

Definition record (c : Call) : M unit :=
  modify (fun w =>
            {| state := state w; browser := browser w;
               anonymousIssued := anonymousIssued w; toasts := toasts w;
               calls := calls w ++ [c] |}).

Definition toast (t : Toast) : M unit :=
  modify (fun w =>
            {| state := state w; browser := browser w;
               anonymousIssued := anonymousIssued w;
               toasts := toasts w ++ [t];
               calls := calls w |}).

(** A computation of [zkProofs.ts], run in the browser of the page. *)
Definition inBrowser {A} (m : Eff.M ZkProofs.World ZkProofs.exn A) : M A :=
  fun w =>
    let put b :=
      {| state := state w; browser := b;
         anonymousIssued := anonymousIssued w; toasts := toasts w;
         calls := calls w |} in
    match m (browser w) with
    | (Ok a, b) => (Ok a, put b)
    | (Throw _, b) => (Throw Failed, put b)
    end.

(** [await getMedicalWithZKContract()], [medicalContract.runner] and
    [signer?.getAddress()] *)
Definition signer : M str :=
  record GetContract ;;;
  orThrow Failed signerAddress.

(** [await medicalContract.issueAnonymousPrescription(...)] and
    [await tx.wait()] *)
Definition contractIssue (i : AnonymousIssue) : M unit :=
  record (IssueAnonymousPrescription i) ;;;
  fun w =>
    if issueAnonymousPrescription (anonymousIssued w) i
    then (Ok tt,
          {| state := state w; browser := browser w;
             anonymousIssued := anonymousIssued w ++ [i];
             toasts := toasts w; calls := calls w |})
    else (Throw Failed, w).

Definition someBlank (meds : list ZkProofs.Medication) : bool :=
  existsb (fun med => blank (ZkProofs.name med)
                      || blank (ZkProofs.dosage med)
                      || blank (ZkProofs.duration med)) meds.

Definition errorToast (text : str) : Toast :=
  {| title := lit "Error"; description := text; destructive := true |}.

(** [handleSubmit] in a render with the state [s]. *)
Definition handleSubmit (s : State) : M unit :=
  if blank (diagnosis s) then
    toast (errorToast (lit "Please enter a diagnosis."))
  else if blank (secretKey s) then
    toast (errorToast (lit "Please generate or enter a secret key."))
  else if someBlank (medications s) then
    toast (errorToast (lit "Please fill in all medication fields."))
  else
    tryCatch
      (setIsGeneratingProof true ;;;
       doctorAddress <- signer ;;
       let prescriptionData :=
         {| ZkProofs.medications := medications s;
            ZkProofs.diagnosis := diagnosis s;
            ZkProofs.doctorId := doctorAddress;
            ZkProofs.secretKey := secretKey s |} in
       zkProof <- inBrowser (ZkProofs.generateZKProof prescriptionData) ;;
       first <- orThrow Failed (nth_error (ZkProofs.inputs zkProof) 0) ;;
       let commitment := ZkProofs.parseCommitmentForContract first in
       setIsGeneratingProof false ;;;
       setIsSubmitting true ;;;
       contractIssue
         {| sentMedications := medications s;
            sentDiagnosis := diagnosis s;
            sentCommitment := commitment;
            sentProof := ZkProofs.proof zkProof;
            sentInputs := [first] |} ;;;
       toast {| title := lit "Success";
                description :=
                  lit "Anonymous prescription created successfully!";
                destructive := false |} ;;;
       setMedications [AnonymousForm.blank] ;;;
       setDiagnosis [] ;;;
       setSecretKey [])
      (fun error =>
         toast (errorToast
                  (lit "Failed to create anonymous prescription. Please try again."))) ;;;
    setIsGeneratingProof false ;;;
    setIsSubmitting false.

End Submit.

End AnonymousPage.

(** ** The patients route: [GET] of [/api/patients] *)

Module Patients.
Import JS Store Eff.
Local Open Scope eff_scope.

(** A request: the session and the [address] search parameter. *)
Record PatientsRequest : Type := {
  session : option SessionUser;
  addressParam : option str
}.

Inductive Body : Type :=
| Text : str -> Body
| Rows : list PatientRow -> Body
| ErrorJson : str -> Body.

Record Response : Type := {
  statusCode : Z;
  body : Body
}.

(** [orderBy: { user: { name: 'asc' } }]: the order of the names is the
    database's, and the names are not in the stores of this model; the
    rows come back rearranged. *)
Class Collation : Type := {
  orderByUserName : Db -> list PatientRow -> list PatientRow;
  orderByUserName_perm :
    forall d l, Permutation (orderByUserName d l) l
}.

Section Handler.
Context {C : Collation}.

Definition M := Eff.M World exn.

(** [db.doctor.findFirst({ where: { userId }, select: { id: true } })] *)
Definition findDoctorByUser (uid : str) : M (option DoctorRow) :=
  fun w => (Ok (find (fun d => eqb (doctorUserId d) uid) (doctors (db w))), w).

(** [db.patient.findMany({ where: { blockId: address } })] *)
Definition findByBlockId (address : str) : M (list PatientRow) :=
  fun w =>
    (Ok (filter (fun p => eqb (patientBlockId p) address) (patients (db w))),
     w).

(** [db.patient.findMany({ orderBy: { user: { name: 'asc' } } })] *)
Definition findAllByName : M (list PatientRow) :=
  fun w => (Ok (orderByUserName (db w) (patients (db w))), w).

Definition GET (req : PatientsRequest) : M Response :=
  tryCatch
    (match session req with
     | None => ret {| statusCode := 401; body := Text (lit "Unauthorized") |}
     | Some user =>
         doctor <- findDoctorByUser (sessionId user) ;;
         match doctor with
         | None =>
             ret {| statusCode := 403;
                    body := Text (lit "Only doctors can access patient data") |}
         | Some _ =>
             let address := addressParam req in
             if truthy address then
               patients <- findByBlockId (orElse address []) ;;
               ret {| statusCode := 200; body := Rows patients |}
             else
               patients <- findAllByName ;;
               ret {| statusCode := 200; body := Rows patients |}
         end
     end)
    (fun error =>
       ret {| statusCode := 500;
              body := ErrorJson (lit "Failed to fetch patients") |}).

End Handler.

End Patients.
(** ** Definitions used to state the properties *)

Module Spec.
Import JS Ethers JSON Eff.

(** The two digits written for a byte read back as that byte. *)
Definition readsBack (b : byte) : bool :=
  match hexOfByte b with
  | [hi; lo] =>
      match digitIn 16 hi, digitIn 16 lo with
      | Some h, Some l => Byte.eqb (Keccak.byteOfZ (16 * h + l)) b
      | _, _ => false
      end
  | _ => false
  end.

(** A byte of ASCII. *)
Definition plain (c : ascii) : bool := code c <? 128.

(** Somewhere in the text the first two bytes of a surrogate without
    partner stand. *)
Fixpoint surrogates (s : str) : bool :=
  match s with
  | a :: r =>
      match r with
      | b :: _ => surrogateLead a b || surrogates r
      | [] => false
      end
  | [] => false
  end.

(** The text is empty or starts with a byte of ASCII. *)
Definition edge (s : str) : bool :=
  match s with
  | [] => true
  | c :: _ => plain c
  end.

(** What [quoteChar] writes for a byte: the byte itself, or an escape in
    ASCII. *)
Definition quotedPlainly (c : ascii) : bool :=
  match quoteChar c with
  | [c'] => Ascii.eqb c' c || plain c'
  | q => forallb plain q && negb (Nat.eqb (List.length q) 0)
  end.

(** The text that is hashed first: the JSON serialisation of the
    medications, the diagnosis, the doctor id and a timestamp. *)
Definition prescriptionJson (d : ZkProofs.AnonymousPrescriptionData)
           (timestamp : Z) : str :=
  stringify
    (JObject
       [(lit "medications",
          JArray (map ZkProofs.medicationObject (ZkProofs.medications d)));
        (lit "diagnosis", JString (ZkProofs.diagnosis d));
        (lit "doctorId", JString (ZkProofs.doctorId d));
        (lit "timestamp", JNumber timestamp)]).

(** H( H(medications, diagnosis, doctorId, timestamp) || H(secretKey) )
    on bytes. *)
Definition commitmentDigest (d : ZkProofs.AnonymousPrescriptionData)
           (timestamp : Z) : list byte :=
  Keccak.keccak_256
    (Keccak.keccak_256 (utf8 (prescriptionJson d timestamp))
       ++ Keccak.keccak_256 (utf8 (ZkProofs.secretKey d))).

(** The constants that stand in for a proof. *)
Definition mockProofBody : ZkProofs.Proof :=
  {| ZkProofs.a := (lit "0x1234", lit "0x5678");
     ZkProofs.b := ((lit "0xabcd", lit "0xef01"), (lit "0x2345", lit "0x6789"));
     ZkProofs.c := (lit "0x9abc", lit "0xdef0") |}.

(** A prescription and two readings of the clock, one second apart. *)
Definition samplePrescription : ZkProofs.AnonymousPrescriptionData :=
  {| ZkProofs.medications :=
       [{| ZkProofs.name := lit "Aspirin";
           ZkProofs.dosage := lit "100mg";
           ZkProofs.duration := lit "5 days";
           ZkProofs.additionalInstructions := lit "after meals" |}];
     ZkProofs.diagnosis := lit "flu";
     ZkProofs.doctorId := lit "0x00000000000000000000000000000000000000d0";
     ZkProofs.secretKey := lit "s3cret" |}.

(** The same prescription with a secret key that is one high surrogate
    (U+D800) and nothing after it. *)
Definition unpairedKey : str :=
  [ascii_of_nat 237; ascii_of_nat 160; ascii_of_nat 128].

Definition unpairedKeyPrescription : ZkProofs.AnonymousPrescriptionData :=
  {| ZkProofs.medications := ZkProofs.medications samplePrescription;
     ZkProofs.diagnosis := lit "flu";
     ZkProofs.doctorId := lit "0x00000000000000000000000000000000000000d0";
     ZkProofs.secretKey := unpairedKey |}.

Definition atIssue : ZkProofs.World :=
  {| ZkProofs.clock := 1700000000000; ZkProofs.console := [] |}.

Definition atVerification : ZkProofs.World :=
  {| ZkProofs.clock := 1700000001000; ZkProofs.console := [] |}.

(** [c] is a hexadecimal digit. *)
Definition isHexDigit (c : ascii) : bool :=
  match digitIn 16 c with
  | Some _ => true
  | None => false
  end.

Definition hexValue (c : ascii) : Z :=
  match digitIn 16 c with
  | Some d => d
  | None => 0
  end.

(** The facts about a hexadecimal digit that [parseInt] relies on: it is
    no white space, no sign and no [x], and writing its value gives the
    digit back in lower case. *)
Definition plainDigit (c : ascii) : bool :=
  negb (isHexDigit c)
  || (negb (isWhite c)
      && negb (Ascii.eqb "-" c) && negb (Ascii.eqb "+" c)
      && negb (Ascii.eqb "x" c) && negb (Ascii.eqb "X" c)
      && (0 <=? hexValue c) && (hexValue c <? 16)
      && Ascii.eqb (hexChar (hexValue c)) (lowerChar c)).

(** [z] written with [width] hexadecimal digits, most significant first. *)
Fixpoint hexText (width : nat) (z : Z) : str :=
  match width with
  | O => []
  | S width' => hexText width' (z / 16) ++ [hexChar (z mod 16)]
  end.

(** A 32-bit word as a chunk of eight hexadecimal digits. *)
Definition chunkText (n : number) : str :=
  match n with
  | Num z => hexText 8 z
  | NaN => []
  end.

(** [n] is an integer in [0, 2^32). *)
Definition isU32 (n : number) : Prop :=
  match n with
  | Num z => 0 <= z < 2 ^ 32
  | NaN => False
  end.

(** The offsets at which [hexToU32Array] cuts the padded text. *)
Definition offsets : list nat := [0; 8; 16; 24; 32; 40; 48; 56]%nat.

(** [x] may stand before [y] in a list sorted most recent first. *)
Definition notOlder {A : Type} (key : A -> Z) (x y : A) : Prop :=
  key y <= key x.

(** The rows that the query of [GET /api/prescriptions] finds for the
    user of a request, and the records that it rebuilds from the chain. *)
Definition databaseResults (req : Store.Request) (w : Store.World)
  : list Store.PrescriptionRow :=
  match Store.session req with
  | None => []
  | Some user =>
      if eqb (orElse (Store.roleParam req) (lit "patient")) (lit "doctor") then
        match find (fun d => eqb (Store.doctorUserId d) (Store.sessionId user))
                   (Store.doctors (Store.db w)) with
        | None => []
        | Some doctor =>
            Store.sortBy Prescriptions.newestFirst
              (filter (fun p => eqb (Store.prescriptionDoctorId p)
                                    (Store.doctorId doctor))
                      (Store.prescriptions (Store.db w)))
        end
      else
        match find (fun p => eqb (Store.patientUserId p) (Store.sessionId user))
                   (Store.patients (Store.db w)) with
        | None => []
        | Some patient =>
            Store.sortBy Prescriptions.newestFirst
              (filter (fun p => eqb (Store.prescriptionPatientId p)
                                    (Store.patientId patient))
                      (Store.prescriptions (Store.db w)))
        end
  end.

Definition blockchainResults (req : Store.Request) (w : Store.World)
  : list Prescriptions.ChainView :=
  match Store.session req with
  | None => []
  | Some user =>
      if eqb (orElse (Store.roleParam req) (lit "patient")) (lit "doctor") then
        match find (fun d => eqb (Store.doctorUserId d) (Store.sessionId user))
                   (Store.doctors (Store.db w)) with
        | None => []
        | Some doctor =>
            if truthy (Some (Store.doctorBlockId doctor))
            then Prescriptions.fetchAllPrescriptionsFromBlockchain
                   (Store.chain w) (Some (Store.doctorBlockId doctor)) true
            else []
        end
      else
        Prescriptions.fetchAllPrescriptionsFromBlockchain
          (Store.chain w) None false
  end.

(** The two steps of the merge in [GET]. *)
Definition addRow (m : list (str * Prescriptions.Item))
           (p : Store.PrescriptionRow) : list (str * Prescriptions.Item) :=
  Store.mapSet (Store.prescriptionId p) (Prescriptions.FromDb p) m.

Definition addView (m : list (str * Prescriptions.Item))
           (p : Prescriptions.ChainView) : list (str * Prescriptions.Item) :=
  if negb (Store.mapHas (Prescriptions.viewId p) m)
  then Store.mapSet (Prescriptions.viewId p) (Prescriptions.FromChain p) m
  else m.

(** What holds of the map once the database rows are in it. *)
Definition rowsOnly (rows : list Store.PrescriptionRow)
           (m : list (str * Prescriptions.Item)) : Prop :=
  NoDup (map fst m)
  /\ forall e, In e m ->
       exists r, In r rows /\ snd e = Prescriptions.FromDb r
                 /\ fst e = Store.prescriptionId r.

(** What holds of the map after both sources are in it. *)
Definition merged (rows : list Store.PrescriptionRow)
           (views : list Prescriptions.ChainView)
           (m : list (str * Prescriptions.Item)) : Prop :=
  NoDup (map fst m)
  /\ (forall r, In r rows -> In (Store.prescriptionId r) (map fst m))
  /\ forall e, In e m ->
       fst e = Prescriptions.itemId (snd e)
       /\ match snd e with
          | Prescriptions.FromDb r => In r rows
          | Prescriptions.FromChain v =>
              In v views
              /\ forall r, In r rows ->
                   Store.prescriptionId r <> Prescriptions.viewId v
          end.

(** The patient profile of the session user, if there is one. *)
Definition patientOf (w : Store.World) (user : Store.SessionUser)
  : option Store.PatientRow :=
  find (fun p => eqb (Store.patientUserId p) (Store.sessionId user))
       (Store.patients (Store.db w)).

(** The doctor profile of the session user, if there is one. *)
Definition doctorOf (w : Store.World) (user : Store.SessionUser)
  : option Store.DoctorRow :=
  find (fun d => eqb (Store.doctorUserId d) (Store.sessionId user))
       (Store.doctors (Store.db w)).

(** The doctor with a given id, if there is one. *)
Definition doctorById (w : Store.World) (id : str) : option Store.DoctorRow :=
  find (fun d => eqb (Store.doctorId d) id) (Store.doctors (Store.db w)).

(** The users table has a row for the session user. *)
Definition userKnown (w : Store.World) (user : Store.SessionUser) : Prop :=
  exists u, In u (Store.users (Store.db w))
            /\ Store.userId u = Store.sessionId user.

(** An appointment that is pending or confirmed and whose time range
    meets the range from [s] to [e]. *)
Definition overlapping (a : Store.AppointmentRow) (s e : Z) : Prop :=
  (Store.status a = Store.PENDING \/ Store.status a = Store.CONFIRMED)
  /\ Store.startTime a <= e /\ Store.endTime a >= s.

(** The row that [POST /api/prescriptions] stores for a doctor and a
    parsed body, and the world once it is stored. *)
Definition storedRow {P : Store.Platform} (w : Store.World)
           (doctor : Store.DoctorRow) (parsed : Prescriptions.PrescriptionCreate)
  : Store.PrescriptionRow :=
  {| Store.prescriptionId := Store.cuid (Store.generated (Store.db w));
     Store.prescriptionDoctorId := Store.doctorId doctor;
     Store.prescriptionPatientId := Prescriptions.bodyPatientId parsed;
     Store.issueDate := Store.clock w;
     Store.validTill :=
       if truthy (Prescriptions.bodyValidTill parsed)
       then Store.dateOfText (orElse (Prescriptions.bodyValidTill parsed) [])
       else Store.clock w + 30 * 24 * 60 * 60 * 1000;
     Store.medications :=
       map (fun med =>
              {| Store.medName := Prescriptions.inputName med;
                 Store.medDosage := Prescriptions.inputDosage med;
                 Store.medDuration := Prescriptions.inputDuration med;
                 Store.medAdditionalInstructions :=
                   orElse (Prescriptions.inputAdditionalInstructions med) [] |})
           (Prescriptions.bodyMedications parsed) |}.

Definition withPrescription (w : Store.World) (row : Store.PrescriptionRow)
  : Store.World :=
  {| Store.db :=
       {| Store.users := Store.users (Store.db w);
          Store.patients := Store.patients (Store.db w);
          Store.doctors := Store.doctors (Store.db w);
          Store.accessRequests := Store.accessRequests (Store.db w);
          Store.appointments := Store.appointments (Store.db w);
          Store.prescriptions := Store.prescriptions (Store.db w) ++ [row];
          Store.generated := S (Store.generated (Store.db w)) |};
     Store.chain := Store.chain w;
     Store.clock := Store.clock w;
     Store.randomCalls := Store.randomCalls w |}.

End Spec.

(** ** A small clinic, for concrete runs *)

Module Sample.
Import JS JSON Store.

Definition tenOClock : str := lit "2024-01-01T10:00:00Z".
Definition elevenOClock : str := lit "2024-01-01T11:00:00Z".

Definition platform : Platform :=
  {| zodDatetime := fun s => eqb s tenOClock || eqb s elevenOClock;
     dateOfText :=
       fun s => if eqb s tenOClock then 1704103200000
                else if eqb s elevenOClock then 1704106800000
                else 0;
     cuid := fun n => "c"%char :: numberToString (Z.of_nat n);
     randomHex := fun _ => lit "9f3a61c2" |}.

Definition doctorUser : SessionUser :=
  {| sessionId := lit "u1"; sessionAddress := None |}.

Definition patientUser : SessionUser :=
  {| sessionId := lit "u2"; sessionAddress := None |}.

Definition doctor : DoctorRow :=
  {| doctorId := lit "d1"; doctorUserId := lit "u1";
     doctorBlockId := lit "0xD1"; doctorVerified := true |}.

Definition patient : PatientRow :=
  {| patientId := lit "p1"; patientUserId := lit "u2";
     patientGender := lit "Not specified";
     patientDateOfBirth := 631152000000;
     patientBloodType := lit "Unknown";
     patientChronicDiseases := [];
     patientEmergencyContact := lit "Not provided";
     patientBlockId := lit "0xA1" |}.

(** Half past ten to half past eleven, pending. *)
Definition booked : AppointmentRow :=
  {| appointmentId := lit "a1"; appointmentDoctorId := lit "d1";
     appointmentPatientId := lit "p1";
     startTime := 1704105000000; endTime := 1704108600000;
     status := PENDING |}.

(** A prescription stored under the id that the chain uses as well. *)
Definition stored : PrescriptionRow :=
  {| prescriptionId := lit "1"; prescriptionDoctorId := lit "d1";
     prescriptionPatientId := lit "p1";
     issueDate := 6000; validTill := 2592006000; medications := [] |}.

Definition database : Db :=
  {| users := [{| userId := lit "u1"; userRole := lit "doctor" |};
               {| userId := lit "u2"; userRole := lit "patient" |}];
     patients := [patient];
     doctors := [doctor];
     accessRequests := [];
     appointments := [booked];
     prescriptions := [stored];
     generated := 0 |}.

Definition onChain (id issued : Z) : ChainPrescription :=
  {| chainId := id; chainIssueDate := issued;
     chainDoctorAddress := lit "0xD1"; chainPatientAddress := lit "0xA1" |}.

(** Two prescriptions on the chain, issued at seconds 5 and 7. *)
Definition ledger : Chain :=
  {| online := true;
     prescriptionCounter := 2;
     chainPrescriptions :=
       fun n => if n =? 1 then Some (onChain 1 5)
                else if n =? 2 then Some (onChain 2 7)
                else Some (onChain 0 0);
     chainDoctors :=
       fun _ => Some {| chainDoctorName := lit "Dr. Rao";
                        chainSpeciality := lit "GP" |};
     chainPatients := fun _ => Some {| chainPatientName := [] |} |}.

Definition world : World :=
  {| db := database; chain := ledger; clock := 1704100000000;
     randomCalls := 0 |}.

(** A request for ten to eleven with the doctor [d1]. *)
Definition appointmentBody : value :=
  JObject [(lit "doctorId", JString (lit "d1"));
           (lit "startTime", JString tenOClock);
           (lit "endTime", JString elevenOClock)].

Definition bookingRequest : Request :=
  {| session := Some patientUser; roleParam := None;
     json := Some appointmentBody |}.

(** A session whose user is in no table, and the sample booking made
    in that session. *)
Definition unknownUser : SessionUser :=
  {| sessionId := lit "u7"; sessionAddress := None |}.

Definition unknownBooking : Request :=
  {| session := Some unknownUser; roleParam := None;
     json := Some appointmentBody |}.

Definition listRequest : Request :=
  {| session := Some doctorUser; roleParam := Some (lit "doctor");
     json := None |}.

Definition prescriptionBody : value :=
  JObject [(lit "patientId", JString (lit "p1"));
           (lit "medications",
             JArray [JObject [(lit "name", JString (lit "Aspirin"));
                              (lit "dosage", JString (lit "100mg"));
                              (lit "duration", JString (lit "5 days"))]])].

(** A body without [patientId]. *)
Definition brokenBody : value :=
  JObject [(lit "medications", JArray [])].

Definition prescribeRequest : Request :=
  {| session := Some doctorUser; roleParam := None;
     json := Some prescriptionBody |}.

Definition brokenRequest : Request :=
  {| session := Some doctorUser; roleParam := None;
     json := Some brokenBody |}.

(** The broken body, sent without a session, and by a user who is no
    doctor. *)
Definition anonymousRequest : Request :=
  {| session := None; roleParam := None; json := Some brokenBody |}.

Definition patientRequest : Request :=
  {| session := Some patientUser; roleParam := None;
     json := Some brokenBody |}.

(** The bodies above as the schemas read them. *)
Definition parsedAppointment : Appointments.AppointmentRequest :=
  {| Appointments.bodyDoctorId := lit "d1";
     Appointments.bodyStartTime := tenOClock;
     Appointments.bodyEndTime := elevenOClock |}.

Definition parsedPrescription : Prescriptions.PrescriptionCreate :=
  {| Prescriptions.bodyPatientId := lit "p1";
     Prescriptions.bodyMedications :=
       [{| Prescriptions.inputName := lit "Aspirin";
           Prescriptions.inputDosage := lit "100mg";
           Prescriptions.inputDuration := lit "5 days";
           Prescriptions.inputAdditionalInstructions := None |}];
     Prescriptions.bodyValidTill := None;
     Prescriptions.bodyBlockchainTxHash := None |}.

(** The second prescription of the chain as the list route shows it. *)
Definition secondOnChain : Prescriptions.ChainView :=
  {| Prescriptions.viewId := lit "2";
     Prescriptions.viewIssueDate := Dates.ISO 7000;
     Prescriptions.viewValidTill := Dates.ISO 2592007000;
     Prescriptions.viewNotes := [];
     Prescriptions.viewPatientName := lit "Unknown Patient";
     Prescriptions.viewPatientEmail := Some [];
     Prescriptions.viewDoctorName := lit "Dr. Rao";
     Prescriptions.viewDoctorEmail := Some [];
     Prescriptions.viewSpecialization := lit "GP";
     Prescriptions.viewLicenseNumber := [];
     Prescriptions.viewMedications := [];
     Prescriptions.viewBlockchainOnly := true |}.

(** What the doctor is shown: the chain record 2, then the stored row 1
    (the chain record 1 gives way to it). *)
Definition listed : list Prescriptions.Item :=
  [Prescriptions.FromChain secondOnChain; Prescriptions.FromDb stored].

End Sample.


(** ** A registration against a database that is down *)

Module SampleForm.
Import JS DoctorForm.

(** The chain refuses an address that is registered already; the API
    answers every request with status 500, which axios rejects. *)
Definition backend : Backend :=
  {| initContract := fun _ => None;
     registerDoctor :=
       fun registered data =>
         if existsb (eqb (blockId data)) registered
         then Some {| message := Some (lit "execution reverted");
                      errorData := DataString (lit "Doctor already registered") |}
         else None;
     postDoctor :=
       fun _ _ _ => Rejected (lit "Request failed with status code 500") |}.

Definition form : FormData :=
  {| name := lit "Asha Rao"; phoneNumber := lit "9876543210";
     aadharNumber := lit "123412341234"; mbbsId := lit "MBBS-77";
     specialty := lit "Cardiology"; blockId := lit "0xD1"; fees := 10 |}.

Definition start : World :=
  {| chainDoctors := []; dbDoctors := []; toasts := []; pushed := [];
     calls := [] |}.

End SampleForm.

(** ** Definitions for further properties *)

Module Words.
Import JS Ethers.

(** The 32-bit word that four bytes spell, most significant first. *)
Definition wordOfBytes (a b c d : byte) : Z :=
  ((Keccak.zOfByte a * 256 + Keccak.zOfByte b) * 256 + Keccak.zOfByte c) * 256
  + Keccak.zOfByte d.

(** The big-endian 32-bit words of a byte string. *)
Fixpoint wordsOfBytes (bs : list byte) : list Z :=
  match bs with
  | a :: b :: c :: d :: rest => wordOfBytes a b c d :: wordsOfBytes rest
  | _ => []
  end.

(** The two digits of a value below 256, as [hexlify] writes them. *)
Definition digitOk (d : Z) : bool :=
  Spec.isHexDigit (hexChar d)
  && (Spec.hexValue (hexChar d) =? d)
  && Ascii.eqb (lowerChar (hexChar d)) (hexChar d).

(** The prescription data as [generateWitnessInput] serialises them:
    without a timestamp. *)
Definition witnessJson (d : ZkProofs.AnonymousPrescriptionData) : str :=
  JSON.stringify
    (JSON.JObject
       [(lit "medications",
          JSON.JArray (map ZkProofs.medicationObject (ZkProofs.medications d)));
        (lit "diagnosis", JSON.JString (ZkProofs.diagnosis d));
        (lit "doctorId", JSON.JString (ZkProofs.doctorId d))]).

(** Sixty-four hexadecimal digits. *)
Definition sampleDigits : str :=
  List.concat (repeat (lit "0123abcd") 8).

End Words.

Module ChainFacts.
Import JS Store Prescriptions.

(** The elements of an optional result. *)
Definition optList {A : Type} (o : option A) : list A :=
  match o with
  | Some x => [x]
  | None => []
  end.

(** The indices [i], [i + 1], ... that a loop of [n] turns visits. *)
Definition indicesFrom (i : Z) (n : nat) : list Z :=
  map (fun k => i + Z.of_nat k) (seq 0 n).

(** The address of a chain record that [userAddress] must match: the
    doctor's in a doctor's list, the patient's otherwise. *)
Definition listedFor (isDoctor : bool) (data : ChainPrescription)
           (userAddress : str) : Prop :=
  if isDoctor
  then toLowerCase (chainDoctorAddress data) = toLowerCase userAddress
  else toLowerCase (chainPatientAddress data) = toLowerCase userAddress.

(** Both dates of a chain record are valid time values. *)
Definition datable (data : ChainPrescription) : Prop :=
  Z.abs (chainIssueDate data * 1000) <= Dates.maxTime
  /\ Z.abs (chainIssueDate data * 1000 + 2592000000) <= Dates.maxTime.

End ChainFacts.

Module Access.
Import JS Store.

(** The role that the database has for the session user. *)
Definition storedRole (w : World) (user : SessionUser) : option str :=
  option_map userRole
    (find (fun u => eqb (userId u) (sessionId user)) (users (db w))).

(** The prescription is one of the session user's own: issued by the
    user's doctor profile when the user's role is doctor, written for
    the user's patient profile otherwise. *)
Definition ownedBy (w : World) (user : SessionUser) (row : PrescriptionRow)
  : Prop :=
  (storedRole w user = Some (lit "doctor")
   /\ exists doctor, Spec.doctorOf w user = Some doctor
                     /\ prescriptionDoctorId row = doctorId doctor)
  \/ (storedRole w user <> Some (lit "doctor")
      /\ exists patient, Spec.patientOf w user = Some patient
                         /\ prescriptionPatientId row = patientId patient).

(** The wallet address of the profile under which the user is served. *)
Definition walletOf (w : World) (user : SessionUser) (address : str) : Prop :=
  (storedRole w user = Some (lit "doctor")
   /\ exists doctor, Spec.doctorOf w user = Some doctor
                     /\ doctorBlockId doctor = address)
  \/ (storedRole w user <> Some (lit "doctor")
      /\ exists patient, Spec.patientOf w user = Some patient
                         /\ patientBlockId patient = address).

(** The address is the doctor's or the patient's of a chain record,
    letter case apart. *)
Definition partyOf (data : ChainPrescription) (address : str) : Prop :=
  toLowerCase (chainDoctorAddress data) = toLowerCase address
  \/ toLowerCase (chainPatientAddress data) = toLowerCase address.

End Access.

Module Booking.
Import JS Store.

Section Served.
Context {P : Platform}.

(** The id of the patient profile under which a booking of the user is
    made: the profile the user has, or else the placeholder that the
    handler creates. *)
Definition servedPatientId (w : World) (user : SessionUser) : str :=
  match Spec.patientOf w user with
  | Some patient => patientId patient
  | None => cuid (generated (db w))
  end.

(** The placeholder profile that a booking creates for a user who has
    none. *)
Definition placeholder (w : World) (user : SessionUser) : PatientRow :=
  {| patientId := cuid (generated (db w));
     patientUserId := sessionId user;
     patientGender := lit "Not specified";
     patientDateOfBirth := 631152000000;
     patientBloodType := lit "Unknown";
     patientChronicDiseases := [];
     patientEmergencyContact := lit "Not provided";
     patientBlockId := lit "0x" ++ randomHex (randomCalls w) |}.

(** The world once the user has a patient profile: as it is for a user
    who has one; with the placeholder stored, the user's role set to
    patient and one random number drawn for a user who has none. *)
Definition withProfile (w : World) (user : SessionUser) : World :=
  match Spec.patientOf w user with
  | Some _ => w
  | None =>
      {| db :=
           {| users :=
                map (fun u =>
                       if eqb (userId u) (sessionId user)
                       then {| userId := userId u; userRole := lit "patient" |}
                       else u)
                    (users (db w));
              patients := patients (db w) ++ [placeholder w user];
              doctors := doctors (db w);
              accessRequests := accessRequests (db w);
              appointments := appointments (db w);
              prescriptions := prescriptions (db w);
              generated := S (generated (db w)) |};
         chain := chain w; clock := clock w;
         randomCalls := S (randomCalls w) |}
  end.

(** The appointment that a booking stores in [w]. *)
Definition newAppointment (w : World) (doctor patient : str) (s e : Z)
  : AppointmentRow :=
  {| appointmentId := cuid (generated (db w));
     appointmentDoctorId := doctor;
     appointmentPatientId := patient;
     startTime := s; endTime := e; status := PENDING |}.

Definition withAppointment (w : World) (row : AppointmentRow) : World :=
  {| db :=
       {| users := users (db w); patients := patients (db w);
          doctors := doctors (db w);
          accessRequests := accessRequests (db w);
          appointments := appointments (db w) ++ [row];
          prescriptions := prescriptions (db w);
          generated := S (generated (db w)) |};
     chain := chain w; clock := clock w; randomCalls := randomCalls w |}.

End Served.

(** The booking gets past the profile of the user: the user has a
    patient profile, or has a row in the users table, whose role the
    handler can then set. *)
Definition served (w : World) (user : SessionUser) : bool :=
  match Spec.patientOf w user with
  | Some _ => true
  | None => existsb (fun u => eqb (userId u) (sessionId user)) (users (db w))
  end.

(** No pending or confirmed appointment of the doctor or of the patient
    meets the range from [s] to [e]. *)
Definition slotFree (w : World) (doctor patient : str) (s e : Z) : Prop :=
  forall a,
    In a (appointments (db w)) ->
    Spec.overlapping a s e ->
    appointmentDoctorId a <> doctor /\ appointmentPatientId a <> patient.

End Booking.

Module Clinic.
Import JS JSON Store.

(** The sample clinic once its one appointment is canceled. *)
Definition canceled : AppointmentRow :=
  {| appointmentId := lit "a1"; appointmentDoctorId := lit "d1";
     appointmentPatientId := lit "p1";
     startTime := 1704105000000; endTime := 1704108600000;
     status := CANCELED |}.

Definition idle : World :=
  {| db :=
       {| users := users Sample.database;
          patients := patients Sample.database;
          doctors := doctors Sample.database;
          accessRequests := [];
          appointments := [canceled];
          prescriptions := prescriptions Sample.database;
          generated := 0 |};
     chain := Sample.ledger; clock := 1704100000000; randomCalls := 0 |}.

(** The doctor of the clinic books with herself: she has no patient
    profile. *)
Definition doctorBooking : Request :=
  {| session := Some Sample.doctorUser; roleParam := None;
     json := Some Sample.appointmentBody |}.

(** A request from eleven back to ten. *)
Definition reversedBody : value :=
  JObject [(lit "doctorId", JString (lit "d1"));
           (lit "startTime", JString Sample.elevenOClock);
           (lit "endTime", JString Sample.tenOClock)].

Definition reversedRequest : Request :=
  {| session := Some Sample.patientUser; roleParam := None;
     json := Some reversedBody |}.

(** A user who is in no table. *)
Definition stranger : SessionUser :=
  {| sessionId := lit "u9"; sessionAddress := None |}.

Definition strangerRequest : Request :=
  {| session := Some stranger; roleParam := None; json := None |}.

(** The sample booking, once made in the idle clinic. *)
Definition firstBooking : AppointmentRow :=
  Booking.newAppointment (P := Sample.platform) idle (lit "d1") (lit "p1")
                         1704103200000 1704106800000.

Definition afterBooking : World := Booking.withAppointment idle firstBooking.

(** The prescription that the sample request stores, and the clinic
    with it. *)
Definition prescribed : PrescriptionRow :=
  Spec.storedRow (P := Sample.platform) Sample.world Sample.doctor
                 Sample.parsedPrescription.

Definition afterPrescribing : World :=
  Spec.withPrescription Sample.world prescribed.

End Clinic.

Module FormRuns.
Import JS DoctorForm.

(** The ways in which a submission can end, as far as the stores and the
    router see it. *)
Definition stored (userId : str) (w w' : World) (t : Toast) : Prop :=
  destructive t = false
  /\ pushed w' = pushed w ++ [lit "/doctor"]
  /\ dbDoctors w' = dbDoctors w ++ [userId].

Definition notStored (w w' : World) (t : Toast) : Prop :=
  destructive t = true
  /\ pushed w' = pushed w
  /\ dbDoctors w' = dbDoctors w.

(** The calls that one submission can make after the contract is
    initialised. *)
Definition callsAfterInit (userId : str) (data : FormData)
  : list (list Call) :=
  [ [];
    [RegisterDoctor (name data) (specialty data) (fees data)];
    [PostDoctor userId];
    [RegisterDoctor (name data) (specialty data) (fees data);
     PostDoctor userId] ].

(** The error with which the contract step of a submission fails: that
    of [contract.init()], or else that of [registerDoctor]. *)
Definition chainFailure {B : Backend} (data : FormData) (w : World)
  : option JsError :=
  match initContract (blockId data) with
  | Some e => Some e
  | None => registerDoctor (chainDoctors w) data
  end.

(** Whether a caught error says that the doctor is registered already,
    as the form asks it; [None] when asking throws. *)
Definition saysRegistered (e : JsError) : option bool :=
  optionalIncludes (errorData e) (lit "Doctor already registered").

(** The toast of a failure that is not a registration made before. *)
Definition failedToast (e : JsError) : Toast :=
  {| title := lit "Registration Failed";
     description :=
       lit "Failed to register: " ++ orElse (message e) (lit "Unknown error");
     destructive := true |}.

(** The sample form once its address is on the chain. *)
Definition alreadyOnChain : World :=
  {| chainDoctors := [lit "0xD1"]; dbDoctors := []; toasts := [];
     pushed := []; calls := [] |}.

(** A browser without a wallet: the contract cannot be initialised. *)
Definition noWallet : Backend :=
  {| initContract :=
       fun _ => Some {| message := Some (lit "No wallet found");
                        errorData := NoDataMessage |};
     registerDoctor := fun _ _ => None;
     postDoctor := fun _ _ _ => Resolved 200 |}.

Definition noWalletError : JsError :=
  {| message := Some (lit "No wallet found"); errorData := NoDataMessage |}.

Definition alreadyRegistered : JsError :=
  {| message := Some (lit "execution reverted");
     errorData := DataString (lit "Doctor already registered") |}.

(** An error of the wallet whose [data.message] is a number. *)
Definition numberedError : JsError :=
  {| message := Some (lit "Internal JSON-RPC error.");
     errorData := DataValue None |}.

(** A wallet that refuses the transaction with that error. *)
Definition numbered : Backend :=
  {| initContract := fun _ => None;
     registerDoctor := fun _ _ => Some numberedError;
     postDoctor := fun _ _ _ => Resolved 200 |}.

End FormRuns.

Module Listing.
Import JS Store AppointmentList.

(** The status that a request asks for: none when the parameter is
    missing or empty, a member of the enumeration otherwise. *)
Definition requested (req : ListRequest) (wanted : option AppointmentStatus)
  : Prop :=
  match statusParam req with
  | Some (c :: s) => wanted <> None /\ statusOfText (c :: s) = wanted
  | _ => wanted = None
  end.

(** A request whose status, limit and offset the database client
    takes: the limit is [l] and the offset is [o]. *)
Definition regular (req : ListRequest) (wanted : option AppointmentStatus)
           (l o : Z) : Prop :=
  requested req wanted
  /\ parseInt (orDefault (limitParam req) (lit "10")) 0 = Num l
  /\ 0 <= l < 2 ^ 31
  /\ parseInt (orDefault (offsetParam req) (lit "0")) 0 = Num o
  /\ 0 <= o < 2 ^ 31.

(** The appointment is one of the session user's own: with the user's
    doctor profile when the user's role is doctor, with the user's
    patient profile otherwise. *)
Definition mine (w : World) (user : SessionUser) (a : AppointmentRow)
  : Prop :=
  (Access.storedRole w user = Some (lit "doctor")
   /\ exists doctor, Spec.doctorOf w user = Some doctor
                     /\ appointmentDoctorId a = doctorId doctor)
  \/ (Access.storedRole w user <> Some (lit "doctor")
      /\ exists patient, Spec.patientOf w user = Some patient
                         /\ appointmentPatientId a = patientId patient).

Definition wantedBy (wanted : option AppointmentStatus) (a : AppointmentRow)
  : Prop :=
  match wanted with
  | Some s => status a = s
  | None => True
  end.

(** Whether the user is served as a doctor, and the id of the profile
    under which the user is served. *)
Definition asDoctor (w : World) (user : SessionUser) : bool :=
  match Access.storedRole w user with
  | Some role => eqb role (lit "doctor")
  | None => false
  end.

Definition profileOf (w : World) (user : SessionUser) : option str :=
  if asDoctor w user
  then option_map doctorId (Spec.doctorOf w user)
  else option_map patientId (Spec.patientOf w user).

(** All appointments of the user with the wanted status, in the order
    of the table. *)
Definition visible (w : World) (user : SessionUser)
           (wanted : option AppointmentStatus) : list AppointmentRow :=
  match profileOf w user with
  | Some id =>
      filter (selects {| byDoctor := asDoctor w user; profileId := id;
                         statusIs := None |} wanted)
             (appointments (db w))
  | None => []
  end.

(** A database client that refuses what it does not take. *)
Definition strict : Client :=
  {| findManyOther := fun _ _ _ _ => None;
     countOther := fun _ _ => None |}.

(** The doctor of the sample clinic asks for her pending appointments,
    two to a page. *)
Definition pendingPage : ListRequest :=
  {| session := Some Sample.doctorUser;
     statusParam := Some (lit "PENDING");
     limitParam := Some (lit "2");
     offsetParam := None |}.

(** What she is shown: the one appointment of the clinic. *)
Definition pendingAnswer : Response :=
  {| statusCode := 200;
     body :=
       Success [Sample.booked]
               {| total := 1; limit := Num 2; offset := Num 0;
                  hasMore := false |} |}.

End Listing.

Module FormEdits.
Import JS AnonymousForm.

(** What the user can do to the medication rows. *)
Inductive Edit : Type :=
| Add : Edit
| Remove : nat -> Edit
| Update : nat -> Field -> str -> Edit.

Definition apply (medications : list ZkProofs.Medication) (e : Edit)
  : list ZkProofs.Medication :=
  match e with
  | Add => addMedication medications
  | Remove index => removeMedication index medications
  | Update index field value =>
      updateMedication index field value medications
  end.

(** The rows after a series of edits, each made on the state that the
    one before has set. *)
Definition edited (edits : list Edit)
           (medications : list ZkProofs.Medication)
  : list ZkProofs.Medication :=
  fold_left apply edits medications.

(** The field of a row. *)
Definition fieldOf (med : ZkProofs.Medication) (field : Field) : str :=
  match field with
  | Name => ZkProofs.name med
  | Dosage => ZkProofs.dosage med
  | Duration => ZkProofs.duration med
  | AdditionalInstructions => ZkProofs.additionalInstructions med
  end.

(** Remove the only row, add one, remove the first, remove past the
    end. *)
Definition sampleEdits : list Edit := [Remove 0; Add; Remove 0; Remove 5].

End FormEdits.

Module Issuing.
Import JS Dates PrescriptionForm.
Import DoctorForm (Toast, title, description, destructive,
                   JsError, message, errorData, DataMessage, NoDataMessage,
                   PostOutcome, Resolved, Rejected).

(** The form passes the three checks of [handleSubmit]. *)
Definition filled (form : Form) : Prop :=
  blank (selectedPatientAddress form) = false
  /\ blank (diagnosis form) = false
  /\ someBlank (medications form) = false.

(** No duration of the form spells an integer beyond 2^53, where
    JavaScript rounds: each is read as a number that is not a number or
    as an integer that is a double. *)
Definition exactDurations (form : Form) : bool :=
  forallb (fun med =>
             match parseInt (duration med) 0 with
             | NaN => true
             | Num z => Z.abs z <=? 2 ^ 53
             end)
          (medications form).

(** What the form asks the contract to issue. *)
Definition issueOf (form : Form) : Issue :=
  {| issuePatient := selectedPatientAddress form;
     issueMedications := map blockchainMedication (medications form);
     issueDiagnosis := diagnosis form |}.

(** The submission was reported as a success. *)
Definition reportedIssued (form : Form) (w w' : World) (t : Toast) : Prop :=
  destructive t = false
  /\ pushed w' = pushed w ++ [lit "/doctor/prescriptions"]
  /\ issued w' = issued w ++ [issueOf form].

(** The submission was reported as a failure. *)
Definition reportedFailed (w w' : World) (t : Toast) : Prop :=
  destructive t = true /\ pushed w' = pushed w.

(** The [validTill] that the form posts: the text typed, or else thirty
    days from now; [None] when that date is invalid. *)
Definition tillOf (form : Form) (w : World) : option ValidTill :=
  match validTill form with
  | _ :: _ => Some (Typed (validTill form))
  | [] =>
      option_map Default
        (toISOString (newDate (clock w + 30 * 24 * 60 * 60 * 1000)))
  end.

Definition successToast : Toast :=
  {| title := lit "Success!";
     description := lit "Prescription issued successfully.";
     destructive := false |}.

(** A form for one patient address, with no patient chosen from the
    list and no date typed. *)
Definition sampleForm : Form :=
  {| selectedPatientId := [];
     selectedPatientAddress := lit "0xA1";
     medications :=
       [{| name := lit "Aspirin"; dosage := lit "100mg";
           duration := lit "5 days"; additionalInstructions := [] |}];
     diagnosis := lit "flu";
     validTill := [] |}.

(** The same form with the patient chosen from the list. *)
Definition chosenForm : Form :=
  {| selectedPatientId := lit "p1";
     selectedPatientAddress := lit "0xA1";
     medications := medications sampleForm;
     diagnosis := lit "flu";
     validTill := lit "2024-02-01" |}.

Definition chosenBody : Body :=
  {| bodyPatientId := lit "p1";
     bodyMedications := medications sampleForm;
     bodyValidTill := Typed (lit "2024-02-01") |}.

(** The chain accepts every prescription; the patients route knows no
    patient, and the prescriptions route refuses the body. *)
Definition chainOnly : Backend :=
  {| getMedicalContract := None;
     issuePrescription := fun _ _ => None;
     getPatients := fun _ => Found [];
     postPrescription :=
       fun _ _ => Rejected (lit "Request failed with status code 422");
     invalidTime :=
       {| message := Some (lit "Invalid time value");
          errorData := NoDataMessage |} |}.

Definition start : World :=
  {| issued := []; saved := []; toasts := []; pushed := [];
     isSubmitting := false; clock := 1704100000000; calls := [] |}.

End Issuing.

Module Anonymous.
Import JS Ethers AnonymousPage.
Import DoctorForm (Toast, title, description, destructive).

(** The form passes the three checks of [handleSubmit]. *)
Definition filled (s : State) : Prop :=
  PrescriptionForm.blank (diagnosis s) = false
  /\ PrescriptionForm.blank (secretKey s) = false
  /\ someBlank (medications s) = false.

(** The prescription data that the form hashes for a doctor address. *)
Definition dataOf (s : State) (doctorAddress : str)
  : ZkProofs.AnonymousPrescriptionData :=
  {| ZkProofs.medications := medications s;
     ZkProofs.diagnosis := diagnosis s;
     ZkProofs.doctorId := doctorAddress;
     ZkProofs.secretKey := secretKey s |}.

(** What the contract is sent for a commitment digest: the medications
    and the diagnosis as typed, the eight words of the digest, the
    constants that stand in for a proof, and the digest in hexadecimal as
    the one public input. *)
Definition sentFor (s : State) (digest : list byte) : AnonymousIssue :=
  {| sentMedications := medications s;
     sentDiagnosis := diagnosis s;
     sentCommitment := map Num (Words.wordsOfBytes digest);
     sentProof := Spec.mockProofBody;
     sentInputs := [hexlify digest] |}.

(** The form is as it opens. *)
Definition cleared (s : State) : Prop :=
  medications s = [AnonymousForm.blank]
  /\ diagnosis s = [] /\ secretKey s = [].

Definition idle (s : State) : Prop :=
  isGeneratingProof s = false /\ isSubmitting s = false.

(** A wallet whose chain takes every prescription. *)
Definition wallet : Wallet :=
  {| signerAddress := Some (lit "0x00000000000000000000000000000000000000d0");
     issueAnonymousPrescription := fun _ _ => true |}.

Definition sampleState : State :=
  {| medications :=
       [{| ZkProofs.name := lit "Aspirin"; ZkProofs.dosage := lit "100mg";
           ZkProofs.duration := lit "5 days";
           ZkProofs.additionalInstructions := lit "after meals" |}];
     diagnosis := lit "flu";
     secretKey := lit "s3cret";
     isGeneratingProof := false;
     isSubmitting := false |}.

Definition start : World :=
  {| state := sampleState;
     browser := {| ZkProofs.clock := 1700000000000; ZkProofs.console := [] |};
     anonymousIssued := []; toasts := []; calls := [] |}.

End Anonymous.

Module Registry.
Import JS Store Patients.

(** The rows of a body, if it is a list of patients. *)
Definition rowsOf (b : Body) : list PatientRow :=
  match b with
  | Rows rows => rows
  | _ => []
  end.

(** A database that returns the patients in the order of the table. *)
Definition tableOrder : Collation :=
  {| orderByUserName := fun _ l => l;
     orderByUserName_perm := fun _ l => Permutation_refl l |}.

(** The doctor of the sample clinic looks up a wallet address, once as
    it is stored and once in lower case. *)
Definition lookup : PatientsRequest :=
  {| session := Some Sample.doctorUser; addressParam := Some (lit "0xA1") |}.

Definition lowerLookup : PatientsRequest :=
  {| session := Some Sample.doctorUser; addressParam := Some (lit "0xa1") |}.

End Registry.
(** * Properties *)

(** ** Bytes and hexadecimal text *)

Section BytesFacts.
Import JS Ethers Spec.

Lemma keccak_256_length (msg : list byte) :
  List.length (Keccak.keccak_256 msg) = 32%nat.
Proof.
  unfold Keccak.keccak_256, Keccak.bytesOfLane.
  rewrite !length_app, !length_map. reflexivity.
Qed.

Lemma readsBack_all (b : byte) : readsBack b = true.
Proof. destruct b; vm_compute; reflexivity. Qed.

Lemma bytesOfHexDigits_hexOfByte (b : byte) (rest : str) :
  bytesOfHexDigits (hexOfByte b ++ rest) =
  match bytesOfHexDigits rest with
  | Some bs => Some (b :: bs)
  | None => None
  end.
Proof.
  pose proof (readsBack_all b) as H. unfold readsBack in H.
  destruct (hexOfByte b) as [|hi [|lo [|? ?]]] eqn:E; try discriminate.
  cbn [app bytesOfHexDigits].
  destruct (digitIn 16 hi) as [h|]; try discriminate.
  destruct (digitIn 16 lo) as [l|]; try discriminate.
  apply Byte.byte_dec_bl in H. rewrite <- H. reflexivity.
Qed.

Lemma bytesOfHexDigits_flat_map (bs : list byte) :
  bytesOfHexDigits (flat_map hexOfByte bs) = Some bs.
Proof.
  induction bs as [|b bs IH]; cbn [flat_map]; [reflexivity|].
  rewrite bytesOfHexDigits_hexOfByte, IH. reflexivity.
Qed.

(** [getBytes] undoes [hexlify]. *)
Lemma getBytes_hexlify (bs : list byte) :
  getBytes (Hex (hexlify bs)) = Some bs.
Proof.
  unfold getBytes, hexlify.
  change (lit "0x" ++ flat_map hexOfByte bs)
    with ("0"%char :: "x"%char :: flat_map hexOfByte bs).
  cbn [startsWith skipn Ascii.eqb Bool.eqb andb orb].
  apply bytesOfHexDigits_flat_map.
Qed.

Lemma keccak256_Raw (bs : list byte) :
  keccak256 (Raw bs) = Some (hexlify (Keccak.keccak_256 bs)).
Proof. reflexivity. Qed.

Lemma keccak256_Hex_hexlify (bs : list byte) :
  keccak256 (Hex (hexlify bs)) = Some (hexlify (Keccak.keccak_256 bs)).
Proof. unfold keccak256. rewrite getBytes_hexlify. reflexivity. Qed.

(** Packing two digests as [bytes32] values concatenates them. *)
Lemma solidityPacked_digests (x y : list byte) :
  solidityPacked [bytes32; bytes32]
    [Hex (hexlify (Keccak.keccak_256 x)); Hex (hexlify (Keccak.keccak_256 y))]
  = Some (hexlify (Keccak.keccak_256 x ++ Keccak.keccak_256 y)).
Proof.
  unfold solidityPacked, packAll, pack.
  rewrite !getBytes_hexlify, !keccak_256_length.
  change (32 =? 32)%nat with true. cbv beta iota.
  rewrite app_nil_r. reflexivity.
Qed.

End BytesFacts.

(** ** Surrogates and JSON text *)

Section TextFacts.
Import JS Ethers JSON Spec.

Lemma plain_not_lead (a b : ascii) : plain b = true -> surrogateLead a b = false.
Proof.
  unfold plain, surrogateLead. intros H. apply Z.ltb_lt in H.
  assert (E : (160 <=? code b) = false) by (apply Z.leb_gt; lia).
  rewrite E. now destruct (code a =? 237).
Qed.

Lemma plain_no_lead (a b : ascii) : plain a = true -> surrogateLead a b = false.
Proof.
  unfold plain, surrogateLead. intros H. apply Z.ltb_lt in H.
  assert (E : (code a =? 237) = false) by (apply Z.eqb_neq; lia).
  now rewrite E.
Qed.

Lemma highLead_surrogateLead (a b : ascii) :
  surrogateLead a b = false -> highLead a b = false.
Proof.
  unfold surrogateLead, highLead.
  destruct (code a =? 237); [|reflexivity].
  destruct (160 <=? code b); [|reflexivity]. cbn [andb].
  intros H. apply Z.leb_gt in H. apply Z.leb_gt. lia.
Qed.

Lemma surrogates_unpairedHigh (s : str) :
  surrogates s = false -> unpairedHigh s = false.
Proof.
  induction s as [|a r IH]; [reflexivity|].
  cbn [surrogates unpairedHigh]. destruct r as [|b r']; [reflexivity|].
  intros H. apply orb_false_elim in H. destruct H as [H1 H2].
  rewrite (highLead_surrogateLead _ _ H1). cbn [orb]. now apply IH.
Qed.

(** A text free of surrogates stays so when a text that starts in ASCII
    is appended. *)
Lemma surrogates_app (x y : str) :
  surrogates x = false -> surrogates y = false -> edge y = true ->
  surrogates (x ++ y) = false.
Proof.
  intros Hx Hy He. induction x as [|a x IH]; [exact Hy|].
  cbn [app]. destruct x as [|b x'].
  - cbn [app surrogates]. destruct y as [|c y']; [reflexivity|].
    cbn [edge] in He. rewrite (plain_not_lead a c He). exact Hy.
  - cbn [surrogates] in Hx. apply orb_false_elim in Hx.
    destruct Hx as [H1 H2].
    change (surrogates (a :: (b :: x') ++ y))
      with (surrogateLead a b || surrogates ((b :: x') ++ y)).
    rewrite H1. cbn [orb]. now apply IH.
Qed.

Lemma plain_surrogates (x : str) :
  forallb plain x = true -> surrogates x = false.
Proof.
  induction x as [|a x IH]; [reflexivity|].
  cbn [forallb surrogates]. intros H. apply andb_prop in H.
  destruct H as [Ha Hx]. destruct x as [|b x']; [reflexivity|].
  rewrite (plain_no_lead a b Ha). cbn [orb]. now apply IH.
Qed.

Lemma plain_app_surrogates (x y : str) :
  forallb plain x = true -> surrogates y = false ->
  surrogates (x ++ y) = false.
Proof.
  intros Hx Hy. induction x as [|a x IH]; [exact Hy|].
  cbn [forallb] in Hx. apply andb_prop in Hx. destruct Hx as [Ha Hx].
  cbn [app]. specialize (IH Hx).
  destruct (x ++ y) as [|b z] eqn:E; [reflexivity|].
  cbn [surrogates]. rewrite (plain_no_lead a b Ha). exact IH.
Qed.

Lemma edge_app (x y : str) :
  edge x = true -> edge y = true -> edge (x ++ y) = true.
Proof. destruct x; intros Hx Hy; [exact Hy | exact Hx]. Qed.

Lemma hexChar_plain (d : Z) : 0 <= d < 16 -> plain (hexChar d) = true.
Proof.
  intros H.
  assert (C : d = 0 \/ d = 1 \/ d = 2 \/ d = 3 \/ d = 4 \/ d = 5 \/ d = 6
              \/ d = 7 \/ d = 8 \/ d = 9 \/ d = 10 \/ d = 11 \/ d = 12
              \/ d = 13 \/ d = 14 \/ d = 15) by lia.
  repeat (destruct C as [-> | C]; [reflexivity|]). now subst.
Qed.

Lemma surrogateEscape_plain (b c : ascii) :
  forallb plain (surrogateEscape b c) = true.
Proof.
  unfold surrogateEscape. cbv zeta. cbn [forallb].
  assert (Hb : 0 <= code b mod 64 < 64) by (apply Z.mod_pos_bound; lia).
  assert (Hc : 0 <= code c mod 64 < 64) by (apply Z.mod_pos_bound; lia).
  rewrite !hexChar_plain.
  - reflexivity.
  - apply Z.mod_pos_bound. lia.
  - pose proof (Z.mod_pos_bound (code b mod 64) 4 ltac:(lia)).
    assert (0 <= code c mod 64 / 16 < 4)
      by (split; [apply Z.div_pos; lia
                 | apply Z.div_lt_upper_bound; lia]).
    lia.
  - split; [apply Z.div_pos; lia | apply Z.div_lt_upper_bound; lia].
Qed.

Lemma quotedPlainly_all (c : ascii) : quotedPlainly c = true.
Proof.
  destruct c as [[] [] [] [] [] [] [] []]; vm_compute; reflexivity.
Qed.

(** [quoteChar] writes the byte itself or text in ASCII, and never
    nothing. *)
Lemma quoteChar_cases (c : ascii) :
  quoteChar c = [c]
  \/ (forallb plain (quoteChar c) = true /\ quoteChar c <> []).
Proof.
  pose proof (quotedPlainly_all c) as H. unfold quotedPlainly in H.
  destruct (quoteChar c) as [|c1 [|c2 q]] eqn:E.
  - discriminate H.
  - apply orb_prop in H. destruct H as [H | H].
    + apply Ascii.eqb_eq in H. subst c1. now left.
    + right. cbn [forallb]. rewrite H. split; [reflexivity | discriminate].
  - right. apply andb_prop in H. destruct H as [H _].
    split; [exact H | discriminate].
Qed.

(** The first byte that [quoteChars] writes is in ASCII or is the first
    byte of the text. *)
Lemma quoteChars_head (b : ascii) (r : str) :
  exists h t, quoteChars (b :: r) = h :: t /\ (plain h = true \/ h = b).
Proof.
  cbn [quoteChars]. destruct r as [|c r2].
  - destruct (quoteChar_cases b) as [E | [P N]].
    + rewrite E. exists b, []. auto.
    + destruct (quoteChar b) as [|h t]; [congruence|].
      exists h, t. cbn [forallb] in P. apply andb_prop in P. tauto.
  - destruct (surrogateLead b c).
    + destruct r2 as [|d rest]; unfold surrogateEscape; cbv zeta;
        eexists; eexists; (split; [reflexivity|]); left; reflexivity.
    + destruct (quoteChar_cases b) as [E | [P N]].
      * rewrite E. eexists. eexists. split; [reflexivity|]. now right.
      * destruct (quoteChar b) as [|h t]; [congruence|].
        exists h, (t ++ quoteChars (c :: r2)).
        cbn [forallb] in P. apply andb_prop in P. tauto.
Qed.

Lemma quoteChars_bounded (n : nat) (s : str) :
  (List.length s <= n)%nat -> surrogates (quoteChars s) = false.
Proof.
  revert s. induction n as [|n IH]; intros s L.
  - destruct s; [reflexivity | cbn in L; lia].
  - destruct s as [|a r]; [reflexivity|]. cbn [List.length] in L.
    cbn [quoteChars]. destruct r as [|b r2].
    + destruct (quoteChar_cases a) as [E | [P _]].
      * rewrite E. reflexivity.
      * now apply plain_surrogates.
    + destruct (surrogateLead a b) eqn:Lead.
      * destruct r2 as [|c rest].
        -- apply plain_surrogates, surrogateEscape_plain.
        -- apply plain_app_surrogates; [apply surrogateEscape_plain|].
           apply IH. cbn [List.length] in L. lia.
      * assert (R : surrogates (quoteChars (b :: r2)) = false)
          by (apply IH; lia).
        destruct (quoteChar_cases a) as [E | [P _]].
        -- rewrite E. cbn [app].
           destruct (quoteChars_head b r2) as (h & t & Eq & Hh).
           rewrite Eq in *.
           change (surrogates (a :: h :: t))
             with (surrogateLead a h || surrogates (h :: t)).
           rewrite R.
           destruct Hh as [Hp | ->].
           ++ now rewrite (plain_not_lead a h Hp).
           ++ now rewrite Lead.
        -- now apply plain_app_surrogates.
Qed.

Lemma quoteJSONString_clean (s : str) :
  surrogates (quoteJSONString s) = false /\ edge (quoteJSONString s) = true.
Proof.
  split; [|reflexivity]. unfold quoteJSONString.
  apply (plain_app_surrogates [dquote]); [reflexivity|].
  apply surrogates_app; [|reflexivity|reflexivity].
  now apply (quoteChars_bounded (List.length s)).
Qed.

Lemma code_ascii_of_nat (k : nat) :
  (k < 256)%nat -> code (ascii_of_nat k) = Z.of_nat k.
Proof.
  intros H. unfold code. now rewrite nat_ascii_embedding.
Qed.

Lemma decimalDigits_plain (fuel : nat) (n : Z) (acc : str) :
  forallb plain acc = true ->
  forallb plain (decimalDigits fuel n acc) = true.
Proof.
  revert n acc. induction fuel as [|fuel IH]; intros n acc H; [exact H|].
  cbn [decimalDigits].
  assert (D : plain (ascii_of_nat (Z.to_nat (48 + n mod 10))) = true).
  { pose proof (Z.mod_pos_bound n 10 ltac:(lia)).
    unfold plain. rewrite code_ascii_of_nat by lia.
    apply Z.ltb_lt. lia. }
  destruct (n <? 10).
  - cbn [forallb]. now rewrite D.
  - apply IH. cbn [forallb]. now rewrite D.
Qed.

Lemma numberToString_plain (n : Z) :
  forallb plain (numberToString n) = true.
Proof.
  unfold numberToString. destruct (n <? 0).
  - cbn [forallb]. rewrite decimalDigits_plain; reflexivity.
  - now apply decimalDigits_plain.
Qed.

Lemma plain_edge (x : str) : forallb plain x = true -> edge x = true.
Proof.
  destruct x as [|c x]; [reflexivity|]. cbn [forallb edge].
  intros H. apply andb_prop in H. tauto.
Qed.

(** Items free of surrogates, separated by commas. *)
Lemma commaSep_clean (items : list str) :
  Forall (fun x => surrogates x = false /\ edge x = true) items ->
  surrogates (commaSep items) = false /\ edge (commaSep items) = true.
Proof.
  induction 1 as [|x items [Sx Ex] _ [Sr Er]]; [split; reflexivity|].
  cbn [commaSep]. destruct items as [|y items]; [now split|].
  assert (C : surrogates (","%char :: commaSep (y :: items)) = false).
  { apply (plain_app_surrogates [","%char]); [reflexivity | exact Sr]. }
  split.
  - apply surrogates_app; [exact Sx | exact C | reflexivity].
  - apply edge_app; [exact Ex | reflexivity].
Qed.

Lemma wrapped_clean (l r : ascii) (x : str) :
  plain l = true -> plain r = true ->
  surrogates x = false -> edge x = true ->
  surrogates (l :: x ++ [r]) = false /\ edge (l :: x ++ [r]) = true.
Proof.
  intros Hl Hr Sx Ex. split; [|exact Hl].
  apply (plain_app_surrogates [l]); [cbn; now rewrite Hl|].
  apply surrogates_app; [exact Sx | reflexivity |].
  cbn [edge]. exact Hr.
Qed.

(** [JSON.stringify] writes no surrogate without partner: it escapes
    them. *)
Lemma stringify_clean :
  forall v : value,
    surrogates (stringify v) = false /\ edge (stringify v) = true.
Proof.
  fix IH 1. intros v. destruct v as [|[]|s|n|items|props].
  - split; reflexivity.
  - split; reflexivity.
  - split; reflexivity.
  - apply quoteJSONString_clean.
  - cbn [stringify]. pose proof (numberToString_plain n) as P.
    split; [now apply plain_surrogates | now apply plain_edge].
  - cbn [stringify].
    assert (F : Forall (fun x => surrogates x = false /\ edge x = true)
                       (map stringify items)).
    { clear -IH. revert items. fix aux 1. intros [|x items].
      - constructor.
      - cbn [map]. constructor; [apply IH | apply aux]. }
    destruct (commaSep_clean _ F) as [S E].
    now apply wrapped_clean.
  - cbn [stringify].
    assert (F : Forall (fun x => surrogates x = false /\ edge x = true)
                       (map (fun kv =>
                               quoteJSONString (fst kv)
                                 ++ ":"%char :: stringify (snd kv))
                            props)).
    { clear -IH. revert props. fix aux 1. intros [|[k x] props].
      - constructor.
      - cbn [map fst snd]. constructor; [|apply aux].
        destruct (quoteJSONString_clean k) as [Sk Ek].
        destruct (IH x) as [Sx Ex]. split.
        + apply surrogates_app; [exact Sk | | reflexivity].
          apply (plain_app_surrogates [":"%char]); [reflexivity | exact Sx].
        + apply edge_app; [exact Ek | reflexivity]. }
    destruct (commaSep_clean _ F) as [S E].
    now apply wrapped_clean.
Qed.

(** So the text of a JSON value always has UTF-8 bytes. *)
Lemma toUtf8Bytes_stringify (v : value) :
  toUtf8Bytes (stringify v) = Some (utf8 (stringify v)).
Proof.
  unfold toUtf8Bytes.
  destruct (stringify_clean v) as [S _].
  now rewrite (surrogates_unpairedHigh _ S).
Qed.

End TextFacts.

(** ** The commitment *)

Section Commitment.
Import JS Ethers JSON Eff ZkProofs Spec.

Lemma generateCommitment_run (d : AnonymousPrescriptionData) (w : World) :
  unpairedHigh (secretKey d) = false ->
  run (generateCommitment d) w =
  (Ok (hexlify (commitmentDigest d (clock w / 1000))), w).
Proof.
  intros Hkey.
  unfold run, generateCommitment, bind, dateNow, ethers, orThrow, ret.
  cbv beta iota.
  rewrite toUtf8Bytes_stringify. cbv beta iota.
  rewrite keccak256_Raw. cbv beta iota.
  unfold toUtf8Bytes at 1. rewrite Hkey. cbv beta iota.
  rewrite keccak256_Raw. cbv beta iota.
  rewrite solidityPacked_digests. cbv beta iota.
  rewrite keccak256_Hex_hexlify. reflexivity.
Qed.

(** A secret key with a high surrogate that no low one follows makes
    [generateCommitment] throw. *)
Lemma generateCommitment_throws (d : AnonymousPrescriptionData) (w : World) :
  unpairedHigh (secretKey d) = true ->
  run (generateCommitment d) w = (Throw InvalidArgument, w).
Proof.
  intros Hkey.
  unfold run, generateCommitment, bind, dateNow, ethers, orThrow, ret, throw.
  cbv beta iota.
  rewrite toUtf8Bytes_stringify. cbv beta iota.
  rewrite keccak256_Raw. cbv beta iota.
  unfold toUtf8Bytes at 1. rewrite Hkey. reflexivity.
Qed.

(** C1.  For every anonymous-prescription input whose secret key holds
    no high surrogate without its low surrogate, [generateCommitment]
    returns (and does not throw) the Keccak-256 hash of the concatenation
    of the 32-byte Keccak-256 hash of the JSON serialisation of the
    medications, diagnosis, doctorId and a timestamp (the clock in whole
    seconds) and the 32-byte Keccak-256 hash of the secret key, written
    as a hexadecimal string; the world is left as it was.  The other
    three fields may hold any text: [JSON.stringify] escapes the
    surrogates in them. *)
Theorem generateCommitment_is_hash_of_hashes :
  forall (d : AnonymousPrescriptionData) (w : World),
    unpairedHigh (secretKey d) = false ->
    run (generateCommitment d) w =
    (Ok (hexlify
           (Keccak.keccak_256
              (Keccak.keccak_256
                 (utf8 (prescriptionJson d (floorDiv (clock w) 1000)))
                 ++ Keccak.keccak_256 (utf8 (secretKey d))))),
     w)
    /\ toUtf8Bytes (prescriptionJson d (floorDiv (clock w) 1000))
       = Some (utf8 (prescriptionJson d (floorDiv (clock w) 1000)))
    /\ toUtf8Bytes (secretKey d) = Some (utf8 (secretKey d))
    /\ List.length
         (Keccak.keccak_256
            (utf8 (prescriptionJson d (floorDiv (clock w) 1000))))
       = 32%nat
    /\ List.length (Keccak.keccak_256 (utf8 (secretKey d))) = 32%nat.
Proof.
  intros d w Hkey. split; [now apply generateCommitment_run|].
  split; [apply toUtf8Bytes_stringify|].
  split; [unfold toUtf8Bytes; now rewrite Hkey|].
  split; apply keccak_256_length.
Qed.

(** The theorem on the sample prescription. *)
Lemma generateCommitment_is_hash_of_hashes_witness :
  run (generateCommitment samplePrescription) atIssue =
    (Ok (hexlify
           (Keccak.keccak_256
              (Keccak.keccak_256
                 (utf8 (prescriptionJson samplePrescription 1700000000))
                 ++ Keccak.keccak_256 (utf8 (lit "s3cret"))))),
     atIssue).
Proof.
  apply (generateCommitment_is_hash_of_hashes samplePrescription atIssue).
  reflexivity.
Defined.

(** C1 as stated fails: for a secret key that is a high surrogate without
    its low surrogate [ethers.toUtf8Bytes] throws, and
    [generateCommitment] with it, so no hash is returned. *)
Lemma generateCommitment_throws_on_unpaired_surrogate :
  ~ (forall (d : AnonymousPrescriptionData) (w : World),
        run (generateCommitment d) w =
        (Ok (hexlify
               (Keccak.keccak_256
                  (Keccak.keccak_256
                     (utf8 (prescriptionJson d (floorDiv (clock w) 1000)))
                     ++ Keccak.keccak_256 (utf8 (secretKey d))))),
         w)).
Proof.
  intros H. specialize (H unpairedKeyPrescription atIssue).
  rewrite generateCommitment_throws in H by reflexivity.
  discriminate H.
Qed.

(** Two evaluations within the same second agree. *)
Lemma generateCommitment_same_second
      (d : AnonymousPrescriptionData) (w1 w2 : World) :
  clock w1 / 1000 = clock w2 / 1000 ->
  fst (run (generateCommitment d) w1) = fst (run (generateCommitment d) w2).
Proof.
  intros H. destruct (unpairedHigh (secretKey d)) eqn:K.
  - now rewrite !generateCommitment_throws.
  - rewrite !generateCommitment_run by exact K. cbn [fst]. rewrite H.
    reflexivity.
Qed.

(** C2.  The code at the failing input: the same prescription data,
    committed at one reading of the clock and recomputed one second
    later, gives two different commitments, so the comparison of the
    recomputed hash with the stored one fails. *)
Theorem generateCommitment_differs_one_second_later :
  run (generateCommitment samplePrescription) atIssue =
    (Ok (lit "0x6dc2f0fb368830c2808109b43c537397582df0c45a3e108c6011d520a82cbbb6"),
     atIssue)
  /\ run (generateCommitment samplePrescription) atVerification =
    (Ok (lit "0x65759790c62dc7762dfbced81f36564042308f1af00bba9ba5e1d498223e2b99"),
     atVerification)
  /\ fst (run (generateCommitment samplePrescription) atIssue)
     <> fst (run (generateCommitment samplePrescription) atVerification).
Proof.
  assert (H1 : run (generateCommitment samplePrescription) atIssue =
    (Ok (lit "0x6dc2f0fb368830c2808109b43c537397582df0c45a3e108c6011d520a82cbbb6"),
     atIssue)) by (vm_compute; reflexivity).
  assert (H2 : run (generateCommitment samplePrescription) atVerification =
    (Ok (lit "0x65759790c62dc7762dfbced81f36564042308f1af00bba9ba5e1d498223e2b99"),
     atVerification)) by (vm_compute; reflexivity).
  split; [exact H1|]. split; [exact H2|].
  rewrite H1, H2. cbn [fst]. intros E. vm_compute in E. discriminate E.
Qed.

(** The mock proof generation, step by step. *)
Lemma generateZKProof_run (d : AnonymousPrescriptionData) (w : World) :
  unpairedHigh (secretKey d) = false ->
  run (generateZKProof d) w =
    (Ok {| proof := mockProofBody;
           inputs := [hexlify (commitmentDigest d (clock w / 1000))] |},
     {| clock := clock w + 1000;
        console :=
          console w ++ [lit "Generating ZK proof for prescription..."] |}).
Proof.
  intros Hkey.
  unfold run, generateZKProof, bind, consoleLog, modify. cbv beta iota.
  match goal with
  | |- context [generateCommitment d ?w1] =>
      pose proof (generateCommitment_run d w1 Hkey) as R
  end.
  unfold run in R. rewrite R. reflexivity.
Qed.

Lemma generateZKProof_throws (d : AnonymousPrescriptionData) (w : World) :
  unpairedHigh (secretKey d) = true ->
  run (generateZKProof d) w =
    (Throw InvalidArgument,
     {| clock := clock w;
        console :=
          console w ++ [lit "Generating ZK proof for prescription..."] |}).
Proof.
  intros Hkey.
  unfold run, generateZKProof, bind, consoleLog, modify. cbv beta iota.
  match goal with
  | |- context [generateCommitment d ?w1] =>
      pose proof (generateCommitment_throws d w1 Hkey) as R
  end.
  unfold run in R. rewrite R. reflexivity.
Qed.

(** C3.  The proof machinery is a mock: for every input whose secret key
    holds no high surrogate without its low surrogate, [generateZKProof]
    returns the same hard-coded components [a], [b] and [c], and an
    [inputs] array that holds exactly the commitment of the input (as
    [generateCommitment] computes it at that moment); [verifyZKProof]
    returns [true] for every proof. *)
Theorem zk_proof_is_mock :
  (forall (d : AnonymousPrescriptionData) (w : World),
      unpairedHigh (secretKey d) = false ->
      exists (commitment : str) (w' : World) (p : ZKProofData),
        fst (run (generateCommitment d) w) = Ok commitment
        /\ run (generateZKProof d) w = (Ok p, w')
        /\ a (proof p) = (lit "0x1234", lit "0x5678")
        /\ b (proof p) =
           ((lit "0xabcd", lit "0xef01"), (lit "0x2345", lit "0x6789"))
        /\ c (proof p) = (lit "0x9abc", lit "0xdef0")
        /\ proof p = mockProofBody
        /\ inputs p = [commitment])
  /\ (forall (p : ZKProofData) (w : World),
        fst (run (verifyZKProof p) w) = Ok true).
Proof.
  split.
  - intros d w Hkey.
    exists (hexlify (commitmentDigest d (clock w / 1000))).
    eexists. eexists.
    split; [rewrite generateCommitment_run by exact Hkey; reflexivity|].
    split; [now apply generateZKProof_run|].
    cbn [proof inputs a b c]. repeat split; reflexivity.
  - intros p w. reflexivity.
Qed.

(** The theorem on the sample prescription. *)
Lemma zk_proof_is_mock_witness :
  exists (commitment : str) (w' : World) (p : ZKProofData),
    fst (run (generateCommitment samplePrescription) atIssue) = Ok commitment
    /\ run (generateZKProof samplePrescription) atIssue = (Ok p, w')
    /\ proof p = mockProofBody
    /\ inputs p = [commitment].
Proof.
  destruct zk_proof_is_mock as [Mock _].
  destruct (Mock samplePrescription atIssue eq_refl)
    as (commitment & w' & p & C & R & _ & _ & _ & B & I).
  exists commitment, w', p. repeat split; assumption.
Defined.

(** C3 as stated fails: for a secret key that is a high surrogate without
    its low surrogate [generateZKProof] throws and returns no proof. *)
Lemma generateZKProof_throws_on_unpaired_surrogate :
  ~ (forall (d : AnonymousPrescriptionData) (w : World),
        exists (p : ZKProofData) (w' : World),
          run (generateZKProof d) w = (Ok p, w')).
Proof.
  intros H. destruct (H unpairedKeyPrescription atIssue) as (p & w' & E).
  rewrite generateZKProof_throws in E by reflexivity.
  discriminate E.
Qed.

End Commitment.

(** ** The eight words of a digest *)

Section Words.
Import JS ZkProofs Spec.

Lemma plainDigit_all (c : ascii) : plainDigit c = true.
Proof.
  destruct c as [[] [] [] [] [] [] [] []]; vm_compute; reflexivity.
Qed.

Lemma hexDigit_facts (c : ascii) :
  isHexDigit c = true ->
  isWhite c = false
  /\ Ascii.eqb "-" c = false /\ Ascii.eqb "+" c = false
  /\ Ascii.eqb "x" c = false /\ Ascii.eqb "X" c = false
  /\ 0 <= hexValue c < 16
  /\ hexChar (hexValue c) = lowerChar c
  /\ digitIn 16 c = Some (hexValue c).
Proof.
  intros H. pose proof (plainDigit_all c) as P. unfold plainDigit in P.
  rewrite H in P. cbn [negb orb] in P.
  repeat (apply andb_prop in P; destruct P as [P ?]).
  repeat match goal with
         | K : negb _ = true |- _ => apply negb_true_iff in K
         end.
  repeat split; try assumption; try lia.
  - now apply Ascii.eqb_eq.
  - unfold isHexDigit in H. unfold hexValue.
    destruct (digitIn 16 c); [reflexivity | discriminate].
Qed.

Lemma digitsPrefix_hex (s : str) :
  forallb isHexDigit s = true ->
  digitsPrefix 16 s = map hexValue s.
Proof.
  induction s as [|c s IH]; cbn [forallb digitsPrefix map]; [reflexivity|].
  intros H. apply andb_prop in H. destruct H as [Hc Hs].
  destruct (hexDigit_facts c Hc) as (_ & _ & _ & _ & _ & _ & _ & D).
  rewrite D, (IH Hs). reflexivity.
Qed.

Lemma hexDigit_plain (c : ascii) : isHexDigit c = true -> plain c = true.
Proof.
  destruct c as [[] [] [] [] [] [] [] []]; vm_compute; intros H;
    first [reflexivity | discriminate H].
Qed.

(** A text that starts with a byte of ASCII that is no white space has
    nothing to trim. *)
Lemma trimStart_plain (c : ascii) (s : str) :
  isWhite c = false -> plain c = true -> trimStart (c :: s) = c :: s.
Proof.
  intros W P. unfold trimStart. cbn [List.length trimFrom whiteAt].
  unfold plain in P. rewrite W, P. reflexivity.
Qed.

(** On a non-empty run of hexadecimal digits, [parseInt(s, 16)] is the
    value of the digits. *)
Lemma parseInt_hex (s : str) :
  s <> [] ->
  forallb isHexDigit s = true ->
  parseInt s 16 = Num (radixValue 16 (map hexValue s)).
Proof.
  intros Hne Hall. destruct s as [|c0 s]; [congruence|].
  pose proof Hall as Hall'.
  cbn [forallb] in Hall'. apply andb_prop in Hall'. destruct Hall' as [H0 Hs].
  destruct (hexDigit_facts c0 H0) as (W & Mi & Pl & _ & _ & _ & _ & _).
  unfold parseInt. rewrite (trimStart_plain c0 s W (hexDigit_plain c0 H0)).
  cbn [startsWith]. rewrite Mi, Pl. cbn [andb orb].
  change (negb (16 =? 0) && ((16 <? 2) || (36 <? 16))) with false.
  change ((16 =? 0) || (16 =? 16)) with true.
  cbv beta iota. cbn [andb].
  assert (Hx : (Ascii.eqb "0" c0
                && match s with
                   | [] => false
                   | b :: _ => Ascii.eqb "x" b && true
                   end
                || Ascii.eqb "0" c0
                   && match s with
                      | [] => false
                      | b :: _ => Ascii.eqb "X" b && true
                      end) = false).
  { destruct s as [|c1 s'].
    - rewrite !andb_false_r. reflexivity.
    - cbn [forallb] in Hs. apply andb_prop in Hs. destruct Hs as [H1 _].
      destruct (hexDigit_facts c1 H1) as (_ & _ & _ & X1 & X2 & _).
      rewrite X1, X2. cbn [andb]. rewrite !andb_false_r. reflexivity. }
  rewrite Hx. cbv beta iota.
  change (if 16 =? 0 then 10 else 16) with 16.
  rewrite (digitsPrefix_hex (c0 :: s) Hall).
  cbn [map]. f_equal. lia.
Qed.

Lemma radixValue_snoc (ds : list Z) (d : Z) :
  radixValue 16 (ds ++ [d]) = radixValue 16 ds * 16 + d.
Proof. unfold radixValue. rewrite fold_left_app. reflexivity. Qed.

Lemma radixValue_bound (ds : list Z) :
  Forall (fun d => 0 <= d < 16) ds ->
  0 <= radixValue 16 ds < 16 ^ Z.of_nat (List.length ds).
Proof.
  induction ds as [|d ds IH] using rev_ind; intros H.
  - cbn. lia.
  - apply Forall_app in H. destruct H as [Hds Hd].
    inversion Hd as [|? ? Hd' _]; subst.
    specialize (IH Hds).
    rewrite radixValue_snoc, length_app, Nat2Z.inj_add.
    cbn [List.length]. rewrite Z.pow_add_r by lia.
    change (16 ^ Z.of_nat 1) with 16. nia.
Qed.

Lemma hexText_radixValue (ds : list Z) :
  Forall (fun d => 0 <= d < 16) ds ->
  hexText (List.length ds) (radixValue 16 ds) = map hexChar ds.
Proof.
  induction ds as [|d ds IH] using rev_ind; intros H; [reflexivity|].
  apply Forall_app in H. destruct H as [Hds Hd].
  inversion Hd as [|? ? Hd' _]; subst.
  rewrite radixValue_snoc, length_app, map_app.
  cbn [List.length map]. rewrite Nat.add_1_r. cbn [hexText].
  replace ((radixValue 16 ds * 16 + d) / 16) with (radixValue 16 ds)
    by (apply Z.div_unique with d; lia).
  replace ((radixValue 16 ds * 16 + d) mod 16) with d
    by (apply Z.mod_unique with (radixValue 16 ds); lia).
  rewrite (IH Hds). reflexivity.
Qed.

Lemma hexValues_in_range (s : str) :
  forallb isHexDigit s = true ->
  Forall (fun d => 0 <= d < 16) (map hexValue s).
Proof.
  induction s as [|c s IH]; cbn [forallb map]; intros H; constructor.
  - apply andb_prop in H. destruct H as [Hc _].
    now destruct (hexDigit_facts c Hc) as (_ & _ & _ & _ & _ & R & _).
  - apply andb_prop in H. tauto.
Qed.

Lemma hexChar_hexValue (s : str) :
  forallb isHexDigit s = true ->
  map hexChar (map hexValue s) = toLowerCase s.
Proof.
  induction s as [|c s IH]; cbn [forallb map toLowerCase]; intros H;
    [reflexivity|].
  apply andb_prop in H. destruct H as [Hc Hs].
  destruct (hexDigit_facts c Hc) as (_ & _ & _ & _ & _ & _ & L & _).
  rewrite L. f_equal. apply (IH Hs).
Qed.

(** One chunk of eight hexadecimal digits: [parseInt] gives a 32-bit
    value whose eight digits are the chunk. *)
Lemma chunk_value (s : str) :
  List.length s = 8%nat ->
  forallb isHexDigit s = true ->
  exists z : Z,
    parseInt s 16 = Num z /\ 0 <= z < 2 ^ 32 /\ hexText 8 z = toLowerCase s.
Proof.
  intros L H. exists (radixValue 16 (map hexValue s)).
  split; [|split].
  - apply parseInt_hex; [|exact H]. intros ->. discriminate L.
  - pose proof (radixValue_bound _ (hexValues_in_range s H)) as B.
    rewrite length_map, L in B. exact B.
  - pose proof (hexText_radixValue _ (hexValues_in_range s H)) as T.
    rewrite length_map, L in T. rewrite T. apply hexChar_hexValue, H.
Qed.

Lemma forallb_firstn {A} (f : A -> bool) (n : nat) (l : list A) :
  forallb f l = true -> forallb f (firstn n l) = true.
Proof.
  revert n. induction l as [|x l IH]; intros [|n]; cbn; auto.
  intros H. apply andb_prop in H. destruct H as [-> H]. cbn. auto.
Qed.

Lemma forallb_skipn {A} (f : A -> bool) (n : nat) (l : list A) :
  forallb f l = true -> forallb f (skipn n l) = true.
Proof.
  revert n. induction l as [|x l IH]; intros [|n]; cbn; auto.
  intros H. apply andb_prop in H. destruct H as [_ H]. auto.
Qed.

Lemma slice_is_chunk (p : str) (i : nat) :
  List.length p = 64%nat ->
  forallb isHexDigit p = true ->
  In i offsets ->
  List.length (slice i (i + 8) p) = 8%nat
  /\ forallb isHexDigit (slice i (i + 8) p) = true.
Proof.
  intros L H Hi. unfold slice. split.
  - rewrite length_firstn, length_skipn, L.
    unfold offsets in Hi. cbn [In] in Hi. lia.
  - apply forallb_firstn, forallb_skipn, H.
Qed.

Lemma firstn_skipn_step {A} (n : nat) (p : list A) :
  firstn 8 (skipn n p) ++ skipn (n + 8) p = skipn n p.
Proof.
  rewrite Nat.add_comm, <- skipn_skipn. apply firstn_skipn.
Qed.

(** The eight slices, put side by side, are the padded text. *)
Lemma slices_cover (p : str) :
  List.length p = 64%nat ->
  flat_map (fun i => slice i (i + 8) p) offsets = p.
Proof.
  intros L. unfold offsets, slice. cbn [flat_map].
  replace (0 + 8 - 0)%nat with 8%nat by reflexivity.
  replace (8 + 8 - 8)%nat with 8%nat by reflexivity.
  replace (16 + 8 - 16)%nat with 8%nat by reflexivity.
  replace (24 + 8 - 24)%nat with 8%nat by reflexivity.
  replace (32 + 8 - 32)%nat with 8%nat by reflexivity.
  replace (40 + 8 - 40)%nat with 8%nat by reflexivity.
  replace (48 + 8 - 48)%nat with 8%nat by reflexivity.
  replace (56 + 8 - 56)%nat with 8%nat by reflexivity.
  rewrite app_nil_r.
  rewrite (firstn_all2 (n := 8) (skipn 56 p))
    by (rewrite length_skipn, L; apply Nat.le_refl).
  change (skipn 56 p) with (skipn (48 + 8) p). rewrite firstn_skipn_step.
  change (skipn 48 p) with (skipn (40 + 8) p). rewrite firstn_skipn_step.
  change (skipn 40 p) with (skipn (32 + 8) p). rewrite firstn_skipn_step.
  change (skipn 32 p) with (skipn (24 + 8) p). rewrite firstn_skipn_step.
  change (skipn 24 p) with (skipn (16 + 8) p). rewrite firstn_skipn_step.
  change (skipn 16 p) with (skipn (8 + 8) p). rewrite firstn_skipn_step.
  change (skipn 8 p) with (skipn (0 + 8) p). rewrite firstn_skipn_step.
  reflexivity.
Qed.

(** The loop of [hexToU32Array] parses the slice at each offset. *)
Lemma chunkLoop_offsets (p : str) :
  chunkLoop 64 0 p [] = map (fun i => parseInt (slice i (i + 8) p) 16) offsets.
Proof. reflexivity. Qed.

Lemma no_prefix_in_digits (digits : str) :
  forallb isHexDigit digits = true ->
  startsWith (lit "0x") digits = false.
Proof.
  intros H. change (lit "0x") with ["0"%char; "x"%char].
  destruct digits as [|c0 [|c1 r]]; [reflexivity| |].
  - cbn [startsWith]. apply andb_false_r.
  - cbn [forallb] in H.
    apply andb_prop in H. destruct H as [_ H].
    apply andb_prop in H. destruct H as [H1 _].
    destruct (hexDigit_facts c1 H1) as (_ & _ & _ & X & _).
    cbn [startsWith]. rewrite X. cbn [andb]. apply andb_false_r.
Qed.

Lemma forallb_repeat {A} (f : A -> bool) (x : A) (n : nat) :
  f x = true -> forallb f (repeat x n) = true.
Proof. intros H. induction n; cbn; [reflexivity|]. now rewrite H. Qed.

Lemma padded_is_64_digits (digits : str) :
  forallb isHexDigit digits = true ->
  (List.length digits <= 64)%nat ->
  List.length (padStart 64 "0" digits) = 64%nat
  /\ forallb isHexDigit (padStart 64 "0" digits) = true.
Proof.
  intros H L. unfold padStart. split.
  - rewrite length_app, repeat_length. lia.
  - rewrite forallb_app, H, forallb_repeat by reflexivity. reflexivity.
Qed.

Lemma flat_map_in_ext {A B} (f g : A -> list B) (l : list A) :
  (forall x, In x l -> f x = g x) -> flat_map f l = flat_map g l.
Proof.
  induction l as [|x l IH]; intros H; cbn [flat_map]; [reflexivity|].
  rewrite (H x (or_introl eq_refl)), IH; [reflexivity|].
  intros y Hy. apply H. now right.
Qed.

Lemma map_flat_map {A B C} (g : B -> C) (f : A -> list B) (l : list A) :
  map g (flat_map f l) = flat_map (fun x => map g (f x)) l.
Proof.
  induction l as [|x l IH]; cbn [flat_map map]; [reflexivity|].
  now rewrite map_app, IH.
Qed.

(** The result of [hexToU32Array] on text that is, [0x] apart, at most 64
    hexadecimal digits. *)
Lemma hexToU32Array_unfold (digits hex : str) :
  forallb isHexDigit digits = true ->
  hex = digits \/ hex = lit "0x" ++ digits ->
  hexToU32Array hex =
  map (fun i => parseInt (slice i (i + 8) (padStart 64 "0" digits)) 16) offsets.
Proof.
  intros H [-> | ->]; unfold hexToU32Array.
  - rewrite (no_prefix_in_digits digits H). apply chunkLoop_offsets.
  - change (startsWith (lit "0x") (lit "0x" ++ digits)) with true.
    change (sliceFrom 2 (lit "0x" ++ digits)) with digits.
    apply chunkLoop_offsets.
Qed.

(** C8.  For every hexadecimal string of at most 64 digits after an
    optional [0x] prefix, [hexToU32Array] returns exactly eight numbers,
    each an integer in [0, 2^32), whose eight-digit chunks, put side by
    side most significant first, are the input padded on the left with
    zeros to 64 digits (digits being read without regard to letter case,
    and literally so for lower-case input); and
    [parseCommitmentForContract] of any commitment is [hexToU32Array] of
    that commitment. *)
Theorem hexToU32Array_words :
  forall (digits hex : str),
    forallb isHexDigit digits = true ->
    (List.length digits <= 64)%nat ->
    hex = digits \/ hex = lit "0x" ++ digits ->
    List.length (hexToU32Array hex) = 8%nat
    /\ Forall isU32 (hexToU32Array hex)
    /\ flat_map chunkText (hexToU32Array hex)
       = toLowerCase (padStart 64 "0" digits)
    /\ (toLowerCase digits = digits ->
        flat_map chunkText (hexToU32Array hex) = padStart 64 "0" digits)
    /\ (forall commitment : str,
          parseCommitmentForContract commitment = hexToU32Array commitment).
Proof.
  intros digits hex H L Hhex.
  rewrite (hexToU32Array_unfold digits hex H Hhex).
  destruct (padded_is_64_digits digits H L) as [PL PH].
  set (p := padStart 64 "0" digits) in *.
  assert (T : flat_map chunkText
                (map (fun i => parseInt (slice i (i + 8) p) 16) offsets)
              = toLowerCase p).
  { rewrite flat_map_concat_map, map_map, <- flat_map_concat_map.
    rewrite (flat_map_in_ext _ (fun i => toLowerCase (slice i (i + 8) p))).
    - unfold toLowerCase. rewrite <- map_flat_map.
      now rewrite (slices_cover p PL).
    - intros i Hi. destruct (slice_is_chunk p i PL PH Hi) as [SL SH].
      destruct (chunk_value _ SL SH) as (z & -> & _ & E). exact E. }
  split; [|split; [|split; [|split]]].
  - now rewrite length_map.
  - apply Forall_map, Forall_forall. intros i Hi.
    destruct (slice_is_chunk p i PL PH Hi) as [SL SH].
    destruct (chunk_value _ SL SH) as (z & -> & R & _). exact R.
  - exact T.
  - intros Lower. rewrite T. subst p. unfold padStart, toLowerCase.
    rewrite map_app. fold (toLowerCase digits). rewrite Lower. f_equal.
    generalize (64 - List.length digits)%nat.
    intros n. induction n; cbn; [reflexivity|]. now f_equal.
  - reflexivity.
Qed.

(** The theorem at the digest prefix [0x1234]. *)
Lemma hexToU32Array_words_witness :
  forallb isHexDigit (lit "1234") = true
  /\ (List.length (lit "1234") <= 64)%nat
  /\ List.length (hexToU32Array (lit "0x1234")) = 8%nat
  /\ Forall isU32 (hexToU32Array (lit "0x1234"))
  /\ flat_map chunkText (hexToU32Array (lit "0x1234"))
     = toLowerCase (padStart 64 "0" (lit "1234")).
Proof.
  split; [reflexivity|]. split; [cbn; lia|].
  destruct (hexToU32Array_words (lit "1234") (lit "0x1234"))
    as (A & B & C & _); [reflexivity | cbn; lia | right; reflexivity |].
  exact (conj A (conj B C)).
Defined.

End Words.

(** ** Known values *)

Section KnownValues.
Import JS Ethers JSON Eff Spec.

(** The Keccak-256 digests of the empty string and of [abc]. *)
Example keccak256_empty :
  keccak256 (Raw (utf8 [])) =
  Some (lit "0xc5d2460186f7233c927e7db2dcc703c0e500b653ca82273b7bfad8045d85a470").
Proof. vm_compute. reflexivity. Qed.

Example keccak256_abc :
  keccak256 (Raw (utf8 (lit "abc"))) =
  Some (lit "0x4e03657aea45a94fc7d47ba826c8d667c0d1e6e33a64a036ec44f58fa12d6c45").
Proof. vm_compute. reflexivity. Qed.

(** A message longer than one block of 136 bytes. *)
Example keccak256_two_blocks :
  keccak256 (Raw (repeat x61 200)) =
  Some (lit "0x96ea54061def936c4be90b518992fdc6f12f535068a256229aca54267b4d084d").
Proof. vm_compute. reflexivity. Qed.

Example prescriptionJson_sample :
  prescriptionJson samplePrescription 1700000000 =
  lit "{"
  ++ quoteJSONString (lit "medications") ++ lit ":[{"
  ++ quoteJSONString (lit "name") ++ lit ":"
  ++ quoteJSONString (lit "Aspirin") ++ lit ","
  ++ quoteJSONString (lit "dosage") ++ lit ":"
  ++ quoteJSONString (lit "100mg") ++ lit ","
  ++ quoteJSONString (lit "duration") ++ lit ":"
  ++ quoteJSONString (lit "5 days") ++ lit ","
  ++ quoteJSONString (lit "additionalInstructions") ++ lit ":"
  ++ quoteJSONString (lit "after meals") ++ lit "}],"
  ++ quoteJSONString (lit "diagnosis") ++ lit ":"
  ++ quoteJSONString (lit "flu") ++ lit ","
  ++ quoteJSONString (lit "doctorId") ++ lit ":"
  ++ quoteJSONString (lit "0x00000000000000000000000000000000000000d0")
  ++ lit ","
  ++ quoteJSONString (lit "timestamp") ++ lit ":1700000000}".
Proof. vm_compute. reflexivity. Qed.

Example parseInt_examples :
  parseInt (lit "ff") 16 = Num 255
  /\ parseInt (lit "0x1A") 16 = Num 26
  /\ parseInt (lit "  -12") 0 = Num (-12)
  /\ parseInt (lit "12abc") 0 = Num 12
  /\ parseInt (lit "0x10") 0 = Num 16
  /\ parseInt (lit "xyz") 16 = NaN.
Proof. repeat split; reflexivity. Qed.

Example hexToU32Array_example :
  ZkProofs.hexToU32Array (lit "0xFFFFFFFF00000001") =
  [Num 0; Num 0; Num 0; Num 0; Num 0; Num 0; Num 4294967295; Num 1].
Proof. reflexivity. Qed.

(** A booking that meets no other appointment is stored as pending. *)
Example appointment_booked :
  let req :=
    {| Store.session := Some Sample.patientUser; Store.roleParam := None;
       Store.json :=
         Some (JObject [(lit "doctorId", JString (lit "d1"));
                        (lit "startTime", JString Sample.tenOClock);
                        (lit "endTime", JString Sample.tenOClock)]) |} in
  exists w',
    run (Appointments.POST (P := Sample.platform) req) Sample.world =
      (Ok {| Appointments.statusCode := 200;
             Appointments.body :=
               Appointments.Created
                 {| Store.appointmentId := lit "c0";
                    Store.appointmentDoctorId := lit "d1";
                    Store.appointmentPatientId := lit "p1";
                    Store.startTime := 1704103200000;
                    Store.endTime := 1704103200000;
                    Store.status := Store.PENDING |} |}, w').
Proof. eexists. vm_compute. reflexivity. Qed.

(** A registration with both stores up ends on the doctor page. *)
Example registration_succeeds :
  let backend :=
    {| DoctorForm.initContract := fun _ => None;
       DoctorForm.registerDoctor := fun _ _ => None;
       DoctorForm.postDoctor := fun _ _ _ => DoctorForm.Resolved 200 |} in
  exists w',
    run (DoctorForm.onSubmit (B := backend) (lit "u1") SampleForm.form)
        SampleForm.start = (Ok tt, w')
    /\ DoctorForm.chainDoctors w' = [lit "0xD1"]
    /\ DoctorForm.dbDoctors w' = [lit "u1"]
    /\ DoctorForm.pushed w' = [lit "/doctor"].
Proof. eexists. vm_compute. repeat split; reflexivity. Qed.

End KnownValues.

(** ** Strings, maps and sorting *)

Section Containers.
Import JS Store.

Lemma eqb_eq (s t : str) : eqb s t = true <-> s = t.
Proof.
  revert t. induction s as [|a s IH]; intros [|b t]; cbn [eqb];
    try (split; [discriminate | congruence]); [tauto|].
  rewrite andb_true_iff, Ascii.eqb_eq, IH. split.
  - intros [-> ->]. reflexivity.
  - intros E. inversion E. tauto.
Qed.

Lemma eqb_refl (s : str) : eqb s s = true.
Proof. now apply eqb_eq. Qed.

Lemma eqb_neq (s t : str) : eqb s t = false <-> s <> t.
Proof.
  rewrite <- eqb_eq. destruct (eqb s t); split; congruence.
Qed.

Context {V : Type}.

Lemma mapHas_keys (k : str) (m : list (str * V)) :
  mapHas k m = true <-> In k (map fst m).
Proof.
  unfold mapHas. rewrite existsb_exists, in_map_iff. split.
  - intros (kv & Hin & E). apply eqb_eq in E. eauto.
  - intros (kv & E & Hin). exists kv. split; [exact Hin|]. now apply eqb_eq.
Qed.

Lemma mapSet_keys (k : str) (v : V) (m : list (str * V)) :
  map fst (mapSet k v m) =
  if mapHas k m then map fst m else map fst m ++ [k].
Proof.
  unfold mapSet. destruct (mapHas k m).
  - rewrite map_map. apply map_ext. intros kv. now destruct (eqb (fst kv) k).
  - now rewrite map_app.
Qed.

Lemma mapSet_NoDup (k : str) (v : V) (m : list (str * V)) :
  NoDup (map fst m) -> NoDup (map fst (mapSet k v m)).
Proof.
  intros H. rewrite mapSet_keys. destruct (mapHas k m) eqn:E; [exact H|].
  apply NoDup_app; [exact H | repeat constructor; intros [] |].
  intros x Hx [<- | []].
  apply mapHas_keys in Hx. congruence.
Qed.

(** An entry of the map after [set(k, v)] is the new one or an old one
    under another key. *)
Lemma mapSet_entries (k : str) (v : V) (m : list (str * V)) (e : str * V) :
  In e (mapSet k v m) -> e = (k, v) \/ (In e m /\ fst e <> k).
Proof.
  unfold mapSet. destruct (mapHas k m) eqn:Has.
  - rewrite in_map_iff. intros (kv & E & Hin).
    destruct (eqb (fst kv) k) eqn:K.
    + apply eqb_eq in K. left. now rewrite <- E, K.
    + apply eqb_neq in K. right. now subst e.
  - rewrite in_app_iff. intros [Hin | [<- | []]]; [|now left].
    destruct (eqb (fst e) k) eqn:K.
    + apply eqb_eq in K.
      (* an old entry under the key [k] cannot exist *)
      exfalso. assert (Hk : mapHas k m = true).
      { apply mapHas_keys. rewrite <- K. now apply in_map. }
      congruence.
    + apply eqb_neq in K. now right.
Qed.

Lemma mapSet_has (k : str) (v : V) (m : list (str * V)) (k' : str) :
  In k' (map fst m) \/ k' = k -> In k' (map fst (mapSet k v m)).
Proof.
  rewrite mapSet_keys. destruct (mapHas k m) eqn:E.
  - intros [H | ->]; [exact H | now apply mapHas_keys].
  - rewrite in_app_iff. cbn [In]. intuition.
Qed.

End Containers.

Section SortFacts.
Import Store Spec.
Context {A : Type} (key : A -> Z) (cmp : A -> A -> Z).
Hypothesis cmp_key : forall x y, cmp x y = key y - key x.

Abbreviation notOlder := (Spec.notOlder key).

Lemma insertSorted_perm (x : A) (l : list A) :
  Permutation (insertSorted cmp x l) (x :: l).
Proof.
  induction l as [|y l IH]; cbn [insertSorted]; [reflexivity|].
  destruct (cmp x y <=? 0); [reflexivity|].
  rewrite IH. apply perm_swap.
Qed.

Lemma sortBy_perm (l : list A) : Permutation (sortBy cmp l) l.
Proof.
  induction l as [|x l IH]; cbn [sortBy fold_right]; [reflexivity|].
  fold (sortBy cmp l). rewrite insertSorted_perm. now constructor.
Qed.

Lemma insertSorted_sorted (x : A) (l : list A) :
  StronglySorted notOlder l -> StronglySorted notOlder (insertSorted cmp x l).
Proof.
  induction l as [|y l IH]; intros H; cbn [insertSorted].
  - repeat constructor.
  - inversion H as [|? ? Hl Hy]; subst.
    destruct (cmp x y <=? 0) eqn:E.
    + apply Z.leb_le in E. rewrite cmp_key in E.
      constructor; [exact H|]. constructor; [unfold notOlder; lia|].
      eapply Forall_impl; [|exact Hy]. unfold notOlder. intros; lia.
    + apply Z.leb_gt in E. rewrite cmp_key in E.
      constructor; [now apply IH|].
      eapply Permutation_Forall; [symmetry; apply insertSorted_perm|].
      constructor; [unfold notOlder; lia | exact Hy].
Qed.

Lemma sortBy_sorted (l : list A) : StronglySorted notOlder (sortBy cmp l).
Proof.
  induction l as [|x l IH]; cbn [sortBy fold_right]; [constructor|].
  now apply insertSorted_sorted.
Qed.

End SortFacts.

(** ** The list of [GET /api/prescriptions] *)

Section PrescriptionList.
Import JS Store Eff Prescriptions Spec.

Lemma fold_left_invariant {A B} (f : A -> B -> A) (P : A -> Prop)
      (l : list B) (a : A) :
  P a ->
  (forall a x, In x l -> P a -> P (f a x)) ->
  P (fold_left f l a).
Proof.
  revert a. induction l as [|x l IH]; intros a Ha Hstep; cbn [fold_left];
    [exact Ha|].
  apply IH.
  - apply Hstep; [now left | exact Ha].
  - intros a' y Hy. apply Hstep. now right.
Qed.

Lemma rows_fold_rowsOnly (rows : list PrescriptionRow) :
  rowsOnly rows (fold_left addRow rows []).
Proof.
  apply fold_left_invariant.
  - split; [constructor | intros e []].
  - intros m r Hr [ND Hm]. split.
    + now apply mapSet_NoDup.
    + intros e He. apply mapSet_entries in He.
      destruct He as [-> | [He _]]; [|now apply Hm].
      exists r. auto.
Qed.

Lemma rows_fold_covers (rows : list PrescriptionRow) (m : list (str * Item)) :
  (forall k, In k (map fst m) -> In k (map fst (fold_left addRow rows m)))
  /\ (forall r, In r rows ->
        In (prescriptionId r) (map fst (fold_left addRow rows m))).
Proof.
  revert m. induction rows as [|x rows IH]; intros m; cbn [fold_left].
  - split; [auto | intros r []].
  - destruct (IH (addRow m x)) as [Keep Cover]. split.
    + intros k Hk. apply Keep. apply mapSet_has. now left.
    + intros r [<- | Hr]; [|now apply Cover].
      apply Keep. apply mapSet_has. now right.
Qed.

Lemma combine_merged (rows : list PrescriptionRow) (views : list ChainView) :
  merged rows views (fold_left addView views (fold_left addRow rows [])).
Proof.
  apply fold_left_invariant.
  - destruct (rows_fold_rowsOnly rows) as [ND Hm].
    split; [exact ND|]. split.
    + apply rows_fold_covers.
    + intros e He. destruct (Hm e He) as (r & Hr & Es & Ef).
      rewrite Es, Ef. cbn [itemId]. auto.
  - intros m v Hv (ND & Cover & Hm). unfold addView.
    destruct (mapHas (viewId v) m) eqn:Has; cbn [negb];
      [exact (conj ND (conj Cover Hm))|].
    split; [now apply mapSet_NoDup|]. split.
    + intros r Hr. apply mapSet_has. left. now apply Cover.
    + intros e He. apply mapSet_entries in He.
      destruct He as [-> | [He _]]; [|now apply Hm].
      cbn [fst snd itemId]. split; [reflexivity|]. split; [exact Hv|].
      intros r Hr E. apply Cover in Hr. rewrite E in Hr.
      apply mapHas_keys in Hr. congruence.
Qed.

Lemma combine_values (rows : list PrescriptionRow) (views : list ChainView) :
  combine rows views
  = map snd (fold_left addView views (fold_left addRow rows [])).
Proof. reflexivity. Qed.

(** The merge has one entry per id, and an id that the database knows is
    shown as the database has it. *)
Lemma combine_spec (rows : list PrescriptionRow) (views : list ChainView) :
  NoDup (map itemId (combine rows views))
  /\ (forall it, In it (combine rows views) ->
        match it with
        | FromDb r => In r rows
        | FromChain v =>
            In v views /\ forall r, In r rows -> prescriptionId r <> viewId v
        end)
  /\ (forall r, In r rows ->
        In (prescriptionId r) (map itemId (combine rows views))).
Proof.
  rewrite combine_values.
  destruct (combine_merged rows views) as (ND & Cover & Hm).
  set (m := fold_left addView views (fold_left addRow rows [])) in *.
  assert (K : map itemId (map snd m) = map fst m).
  { rewrite map_map. apply map_ext_in. intros e He. symmetry. now apply Hm. }
  rewrite K. split; [exact ND|]. split; [|exact Cover].
  intros it Hit. apply in_map_iff in Hit. destruct Hit as (e & <- & He).
  now apply Hm.
Qed.

(** The list that [GET] returns is the sorted merge of the two sources. *)
Lemma GET_list (req : Request) (w w' : World) (resp : Response)
      (items : list Item) :
  run (GET req) w = (Ok resp, w') ->
  body resp = ListJson items ->
  items = sortBy mostRecentFirst
            (combine (databaseResults req w) (blockchainResults req w)).
Proof.
  unfold run, GET, tryCatch, bind, ret, databaseResults, blockchainResults.
  destruct (session req) as [user|]; cbv beta iota.
  - destruct (eqb (orElse (roleParam req) (lit "patient")) (lit "doctor")).
    + unfold findDoctorByUser. cbv beta iota.
      destruct (find _ (doctors (db w))) as [doctor|]; cbv beta iota.
      * unfold findPrescriptions, readChain. cbv beta iota.
        intros E B. injection E as <- <-. cbn [body] in B.
        injection B as <-. reflexivity.
      * intros E B. injection E as <- <-. discriminate B.
    + unfold findPatientByUser. cbv beta iota.
      destruct (find _ (patients (db w))) as [patient|]; cbv beta iota.
      * unfold findPrescriptions, readChain. cbv beta iota.
        intros E B. injection E as <- <-. cbn [body] in B.
        injection B as <-. reflexivity.
      * unfold readChain. cbv beta iota.
        intros E B. injection E as <- <-. cbn [body] in B.
        injection B as <-. reflexivity.
  - intros E B. injection E as <- <-. discriminate B.
Qed.

(** C9.  The list returned by [GET /api/prescriptions] has at most one
    entry per prescription id; the two sources are merged so that an id
    found in the database is shown as the database has it, never as the
    chain has it; and the list is sorted by issue date, most recent
    first (non-increasing). *)
Theorem prescriptions_list_unique_db_first_sorted :
  forall (req : Request) (w w' : World) (resp : Response) (items : list Item),
    run (GET req) w = (Ok resp, w') ->
    body resp = ListJson items ->
    NoDup (map itemId items)
    /\ (forall r, In r (databaseResults req w) ->
          exists r', In (FromDb r') items
                     /\ prescriptionId r' = prescriptionId r)
    /\ (forall v, In (FromChain v) items ->
          In v (blockchainResults req w)
          /\ forall r, In r (databaseResults req w) ->
               prescriptionId r <> viewId v)
    /\ (forall r, In (FromDb r) items -> In r (databaseResults req w))
    /\ StronglySorted (notOlder itemIssueTime) items.
Proof.
  intros req w w' resp items Hrun Hbody.
  rewrite (GET_list req w w' resp items Hrun Hbody).
  set (rows := databaseResults req w). set (views := blockchainResults req w).
  destruct (combine_spec rows views) as (ND & Src & Cover).
  pose proof (sortBy_perm mostRecentFirst (combine rows views)) as Perm.
  assert (Hin : forall it,
             In it (sortBy mostRecentFirst (combine rows views)) ->
             In it (combine rows views)).
  { intros it. apply Permutation_in. exact Perm. }
  split; [|split; [|split; [|split]]].
  - eapply Permutation_NoDup; [|exact ND].
    apply Permutation_map. symmetry. exact Perm.
  - intros r Hr. specialize (Cover r Hr).
    apply in_map_iff in Cover. destruct Cover as (it & E & Hit).
    pose proof (Src it Hit) as S. destruct it as [r'|v].
    + exists r'. split; [|exact E].
      eapply Permutation_in; [symmetry; exact Perm | exact Hit].
    + cbn [itemId] in E. destruct S as [_ S]. now elim (S r Hr).
  - intros v Hv. exact (Src _ (Hin _ Hv)).
  - intros r Hr. exact (Src _ (Hin _ Hr)).
  - apply sortBy_sorted. reflexivity.
Qed.

End PrescriptionList.


(** ** [POST /api/appointments] *)

Section AppointmentFacts.
Import JS Store Eff Appointments Spec.
Context {P : Platform}.

Lemma find_exists {A} (f : A -> bool) (l : list A) (x : A) :
  In x l -> f x = true -> exists y, find f l = Some y.
Proof.
  intros Hin Hf. destruct (find f l) as [y|] eqn:E; [eauto|].
  pose proof (find_none f l E x Hin). congruence.
Qed.

Lemma overlapping_conflicts (a : AppointmentRow) (s e : Z) (doctor patient : str) :
  overlapping a s e ->
  appointmentDoctorId a = doctor \/ appointmentPatientId a = patient ->
  conflicts doctor patient s e a = true.
Proof.
  intros (St & Hs & He) Who. unfold conflicts.
  assert (A : active (status a) = true) by (destruct St as [-> | ->]; reflexivity).
  assert (S : (startTime a <=? e) = true) by (apply Z.leb_le; lia).
  assert (E : (endTime a >=? s) = true) by (apply Z.geb_le; lia).
  rewrite A, S, E, !andb_true_r.
  destruct Who as [<- | <-]; rewrite eqb_refl; [reflexivity | apply orb_true_r].
Qed.

Lemma userKnown_existsb (w : World) (user : SessionUser) :
  userKnown w user <->
  existsb (fun u => eqb (userId u) (sessionId user)) (users (db w)) = true.
Proof.
  unfold userKnown. rewrite existsb_exists. split.
  - intros (u & Hin & E). exists u. split; [exact Hin|]. now apply eqb_eq.
  - intros (u & Hin & E). exists u. split; [exact Hin|]. now apply eqb_eq.
Qed.

(** C4.  An authenticated request with a valid body and an existing
    doctor, made by a user who has a patient profile or a row in the
    users table, while an appointment of that doctor or of the requesting
    patient is pending or confirmed and overlaps the requested time range,
    is answered with 409, and no appointment is created. *)
Theorem appointment_conflict_is_409 :
  forall (req : Request) (w : World) (user : SessionUser)
         (json : JSON.value) (parsed : AppointmentRequest)
         (doctor : DoctorRow) (existing : AppointmentRow),
    session req = Some user ->
    Store.json req = Some json ->
    appointmentSchema json = inr parsed ->
    doctorById w (bodyDoctorId parsed) = Some doctor ->
    In existing (appointments (db w)) ->
    overlapping existing (dateOfText (bodyStartTime parsed))
                (dateOfText (bodyEndTime parsed)) ->
    (appointmentDoctorId existing = bodyDoctorId parsed
     \/ exists patient, patientOf w user = Some patient
                        /\ appointmentPatientId existing = patientId patient) ->
    (patientOf w user <> None \/ userKnown w user) ->
    exists w',
      run (POST req) w =
        (Ok {| statusCode := 409; body := Text (lit "Time slot not available") |},
         w')
      /\ appointments (db w') = appointments (db w).
Proof.
  intros req w user json parsed doctor existing
         Hsession Hjson Hparsed Hdoctor Hin Hover Hwho Hknown.
  unfold run, POST, tryCatch, bind. rewrite Hsession.
  unfold reqJson, orThrow. rewrite Hjson. unfold ret at 1. cbv beta iota.
  rewrite Hparsed. unfold zodParse, ret at 1. cbv beta iota.
  unfold findPatientByUser. cbv beta iota.
  unfold patientOf in Hwho, Hknown.
  destruct (find _ (patients (db w))) as [patient|] eqn:Hpatient.
  - (* the patient profile exists *)
    unfold ret at 1. cbv beta iota.
    unfold findDoctor. cbv beta iota.
    unfold doctorById in Hdoctor. rewrite Hdoctor. cbv beta iota.
    unfold findAccessRequest, findConflict. cbv beta iota.
    destruct (find_exists
                (conflicts (bodyDoctorId parsed) (patientId patient)
                           (dateOfText (bodyStartTime parsed))
                           (dateOfText (bodyEndTime parsed)))
                (appointments (db w)) existing Hin) as [c Hc].
    { apply overlapping_conflicts; [exact Hover|].
      destruct Hwho as [E | (p & Ep & E)]; [now left|].
      right. congruence. }
    rewrite Hc. eexists. split; reflexivity.
  - (* a placeholder profile is created first *)
    destruct Hknown as [Hknown | Hknown]; [now contradiction Hknown|].
    apply userKnown_existsb in Hknown.
    unfold mathRandomHex. cbv beta iota.
    unfold createPatient. cbv beta iota.
    unfold updateUserRole, setDb. cbn [db users]. rewrite Hknown.
    cbv beta iota.
    unfold ret at 1. cbv beta iota.
    unfold findDoctor. cbn [db doctors].
    unfold doctorById in Hdoctor. rewrite Hdoctor. cbv beta iota.
    unfold findAccessRequest, findConflict. cbn [db appointments].
    match goal with
    | |- context [find (conflicts ?d ?p ?s ?e) ?l] =>
        destruct (find_exists (conflicts d p s e) l existing Hin) as [c Hc]
    end.
    { apply overlapping_conflicts; [exact Hover|].
      destruct Hwho as [E | (p & Ep & _)]; [now left | discriminate Ep]. }
    rewrite Hc. eexists. split; reflexivity.
Qed.

Lemma find_app_none {A} (f : A -> bool) (l l' : list A) :
  find f l = None -> find f (l ++ l') = find f l'.
Proof.
  induction l as [|x l IH]; cbn [find app]; [reflexivity|].
  destruct (f x); [discriminate | exact IH].
Qed.

(** Appointments are created by the successful path only, and the row
    created there names the doctor of the body, who exists, and the
    patient profile of the session user. *)
Lemma appointment_post_creates (req : Request) (w : World) :
  exists resp w',
    run (POST req) w = (Ok resp, w')
    /\ (appointments (db w') = appointments (db w)
        \/ exists user j parsed doctor patient row,
             session req = Some user
             /\ Store.json req = Some j
             /\ appointmentSchema j = inr parsed
             /\ doctorById w (bodyDoctorId parsed) = Some doctor
             /\ patientOf w' user = Some patient
             /\ resp = {| statusCode := 200; body := Created row |}
             /\ appointments (db w') = appointments (db w) ++ [row]
             /\ appointmentDoctorId row = doctorId doctor
             /\ appointmentPatientId row = patientId patient).
Proof.
  unfold run, POST, tryCatch, bind.
  destruct (session req) as [user|] eqn:Es;
    [|eexists; eexists; split; [reflexivity | now left]].
  unfold reqJson, orThrow.
  destruct (Store.json req) as [j|] eqn:Ej;
    [|eexists; eexists; split; [reflexivity | now left]].
  unfold ret at 1. cbv beta iota. unfold zodParse.
  destruct (appointmentSchema j) as [issues|parsed] eqn:Ep;
    [eexists; eexists; split; [reflexivity | now left]|].
  unfold ret at 1. cbv beta iota.
  unfold findPatientByUser. cbv beta iota.
  destruct (find _ (patients (db w))) as [patient|] eqn:Hpatient.
  - unfold ret at 1. cbv beta iota. unfold findDoctor. cbv beta iota.
    destruct (find _ (doctors (db w))) as [doctor|] eqn:Hdoctor;
      [|eexists; eexists; split; [reflexivity | now left]].
    cbv beta iota. unfold findAccessRequest, findConflict. cbv beta iota.
    destruct (find (conflicts _ _ _ _) _);
      [eexists; eexists; split; [reflexivity | now left]|].
    eexists. eexists. split; [reflexivity|]. right.
    exists user, j, parsed, doctor, patient. eexists.
    repeat split; try first [assumption | reflexivity].
    apply find_some in Hdoctor. destruct Hdoctor as [_ E].
    apply eqb_eq in E. cbn. now rewrite E.
  - unfold mathRandomHex. cbv beta iota.
    unfold createPatient. cbv beta iota.
    unfold updateUserRole, setDb. cbn [db users].
    destruct (existsb _ (users (db w)));
      [|eexists; eexists; split; [reflexivity | now left]].
    cbv beta iota.
    unfold ret at 1. cbv beta iota.
    unfold findDoctor. cbn [db doctors].
    destruct (find _ (doctors (db w))) as [doctor|] eqn:Hdoctor;
      [|eexists; eexists; split; [reflexivity | now left]].
    cbv beta iota. unfold findAccessRequest, findConflict.
    cbn [db appointments].
    destruct (find (conflicts _ _ _ _) _);
      [eexists; eexists; split; [reflexivity | now left]|].
    eexists. eexists. split; [reflexivity|]. right.
    exists user, j, parsed, doctor. eexists. eexists.
    repeat split; try first [assumption | reflexivity].
    + unfold patientOf, setDb. cbn [db patients].
      rewrite (find_app_none _ _ _ Hpatient). cbn [find patientUserId].
      rewrite eqb_refl. reflexivity.
    + apply find_some in Hdoctor. destruct Hdoctor as [_ E].
      apply eqb_eq in E. cbn. now rewrite E.
Qed.

End AppointmentFacts.

(** ** [POST /api/prescriptions] *)

Section PrescriptionPost.
Import JS Dates Store Eff Prescriptions Spec.
Context {P : Platform}.

(** [POST] by cases: the answer and the world after it. *)
Lemma POST_cases (req : Request) (w : World) :
  run (POST req) w =
  match session req with
  | None =>
      (Ok {| statusCode := 401; body := Text (lit "Unauthorized") |}, w)
  | Some user =>
      match doctorOf w user with
      | None =>
          (Ok {| statusCode := 403;
                 body := Text (lit "Only doctors can create prescriptions") |},
           w)
      | Some doctor =>
          match json req with
          | None =>
              (Ok {| statusCode := 500;
                     body := ErrorJson (lit "Failed to create prescription") |},
               w)
          | Some j =>
              match prescriptionCreateSchema j with
              | inl issues =>
                  (Ok {| statusCode := 422; body := IssuesJson issues |}, w)
              | inr parsed =>
                  let row := storedRow w doctor parsed in
                  (Ok {| statusCode := 200; body := PrescriptionJson row |},
                   withPrescription w row)
              end
          end
      end
  end.
Proof.
  unfold run, POST, tryCatch, bind, doctorOf.
  destruct (session req) as [user|]; [|reflexivity].
  unfold findDoctorByUser. cbv beta iota.
  destruct (find _ (doctors (db w))) as [doctor|]; [|reflexivity].
  unfold reqJson, orThrow.
  destruct (json req) as [j|]; [|reflexivity].
  unfold ret at 1. cbv beta iota. unfold zodParse.
  destruct (prescriptionCreateSchema j) as [issues|parsed]; [reflexivity|].
  unfold ret at 1. cbv beta iota.
  unfold storedRow, withPrescription.
  destruct (truthy (bodyValidTill parsed)); reflexivity.
Qed.

(** C6, as the code has it.  A request without an authenticated user is
    answered with 401; a request of a user without doctor profile with
    403; a request of a doctor whose body fails the schema with 422; and
    none of the three creates a prescription (the world is unchanged). *)
Theorem prescription_post_errors :
  forall (req : Request) (w : World),
    (session req = None ->
     exists resp, run (POST req) w = (Ok resp, w) /\ statusCode resp = 401)
    /\ (forall user,
          session req = Some user -> doctorOf w user = None ->
          exists resp,
            run (POST req) w = (Ok resp, w) /\ statusCode resp = 403)
    /\ (forall user doctor j issues,
          session req = Some user -> doctorOf w user = Some doctor ->
          json req = Some j -> prescriptionCreateSchema j = inl issues ->
          exists resp,
            run (POST req) w = (Ok resp, w) /\ statusCode resp = 422).
Proof.
  intros req w. rewrite POST_cases. split; [|split].
  - intros ->. eexists. split; reflexivity.
  - intros user -> ->. eexists. split; reflexivity.
  - intros user doctor j issues -> -> -> ->. eexists. split; reflexivity.
Qed.

(** Prescriptions are created by the successful path only, and the row
    created there names the doctor profile of the session user and the
    patient of the body. *)
Lemma prescription_post_creates (req : Request) (w : World) :
  exists resp w',
    run (POST req) w = (Ok resp, w')
    /\ (prescriptions (db w') = prescriptions (db w)
        \/ exists user doctor j parsed row,
             session req = Some user
             /\ doctorOf w user = Some doctor
             /\ json req = Some j
             /\ prescriptionCreateSchema j = inr parsed
             /\ resp = {| statusCode := 200; body := PrescriptionJson row |}
             /\ prescriptions (db w') = prescriptions (db w) ++ [row]
             /\ prescriptionDoctorId row = doctorId doctor
             /\ prescriptionPatientId row = bodyPatientId parsed).
Proof.
  rewrite POST_cases.
  destruct (session req) as [user|] eqn:Es;
    [|eexists; eexists; split; eauto].
  destruct (doctorOf w user) as [doctor|] eqn:Ed;
    [|eexists; eexists; split; eauto].
  destruct (json req) as [j|] eqn:Ej; [|eexists; eexists; split; eauto].
  destruct (prescriptionCreateSchema j) as [issues|parsed] eqn:E;
    [eexists; eexists; split; eauto|].
  eexists. eexists. split; [reflexivity|]. right.
  exists user, doctor, j, parsed, (storedRow w doctor parsed).
  repeat split; first [assumption | reflexivity].
Qed.

End PrescriptionPost.

(** Runs of [POST /api/prescriptions] in the sample clinic. *)
Section PrescriptionPostRuns.
Import JS Store Eff Prescriptions Spec.

(** The theorem on three requests with a body that lacks [patientId]:
    sent without session, sent by a patient, sent by a doctor. *)
Lemma prescription_post_errors_witness :
  (exists resp,
      run (POST (P := Sample.platform) Sample.anonymousRequest) Sample.world
      = (Ok resp, Sample.world) /\ statusCode resp = 401)
  /\ (exists resp,
        run (POST (P := Sample.platform) Sample.patientRequest) Sample.world
        = (Ok resp, Sample.world) /\ statusCode resp = 403)
  /\ (exists resp,
        run (POST (P := Sample.platform) Sample.brokenRequest) Sample.world
        = (Ok resp, Sample.world) /\ statusCode resp = 422).
Proof.
  split; [|split].
  - destruct (prescription_post_errors (P := Sample.platform)
                Sample.anonymousRequest Sample.world) as (A & _ & _).
    exact (A eq_refl).
  - destruct (prescription_post_errors (P := Sample.platform)
                Sample.patientRequest Sample.world) as (_ & B & _).
    exact (B Sample.patientUser eq_refl eq_refl).
  - destruct (prescription_post_errors (P := Sample.platform)
                Sample.brokenRequest Sample.world) as (_ & _ & C).
    exact (C Sample.doctorUser Sample.doctor Sample.brokenBody
             [lit "patientId"] eq_refl eq_refl eq_refl eq_refl).
Defined.

(** C6 as stated fails: a body that fails the schema is not answered with
    422 when it comes without an authenticated user; the answer is 401. *)
Lemma prescription_post_invalid_body_without_user_is_401 :
  ~ (forall (req : Request) (w : World) (j : JSON.value) (issues : list str),
        json req = Some j ->
        prescriptionCreateSchema (P := Sample.platform) j = inl issues ->
        exists resp w',
          run (POST (P := Sample.platform) req) w = (Ok resp, w')
          /\ statusCode resp = 422).
Proof.
  intros H.
  destruct (H Sample.anonymousRequest Sample.world Sample.brokenBody
              [lit "patientId"] eq_refl eq_refl) as (resp & w' & E & S).
  vm_compute in E. injection E as <- _. discriminate S.
Qed.

End PrescriptionPostRuns.

(** ** Validity of thirty days *)

Section Validity.
Import JS Dates Store Eff Prescriptions Spec.
Context {P : Platform}.

Lemma schema_without_validTill (props : list (str * JSON.value))
      (parsed : PrescriptionCreate) :
  JSON.property (lit "validTill") props = None ->
  prescriptionCreateSchema (JSON.JObject props) = inr parsed ->
  bodyValidTill parsed = None.
Proof.
  intros Hprop. unfold prescriptionCreateSchema. rewrite Hprop.
  cbn [zOptionalDatetime].
  destruct (zString _ _ _); destruct (zMedicationArray _);
    destruct (zOptionalString _ _); try discriminate.
  intros E. injection E as <-. reflexivity.
Qed.

Lemma chainView_times (withEmail : bool) (data : ChainPrescription)
      (doctorInfo : ChainDoctor) (patientInfo : ChainPatient) (v : ChainView) :
  chainView withEmail data doctorInfo patientInfo = Some v ->
  instant (viewIssueDate v) = chainIssueDate data * 1000
  /\ instant (viewValidTill v) = chainIssueDate data * 1000 + 2592000000.
Proof.
  unfold chainView, toISOString, newDate.
  destruct (Z.abs (chainIssueDate data * 1000) <=? maxTime); [|discriminate].
  destruct (Z.abs (chainIssueDate data * 1000 + 30 * 24 * 60 * 60 * 1000)
            <=? maxTime); [|discriminate].
  intros E. injection E as <-. cbn [viewIssueDate viewValidTill instant].
  split; reflexivity.
Qed.

Lemma fetchOne_times (ch : Chain) (ua : option str) (isDoctor : bool)
      (i : Z) (v : ChainView) :
  fetchOne ch ua isDoctor i = Some v ->
  instant (viewValidTill v) = instant (viewIssueDate v) + 2592000000.
Proof.
  unfold fetchOne.
  destruct (readPrescription ch i) as [data|]; [|discriminate].
  destruct (chainId data =? 0); [discriminate|].
  assert (K : match chainDoctors ch (chainDoctorAddress data),
                    chainPatients ch (chainPatientAddress data) with
              | Some doctorInfo, Some patientInfo =>
                  chainView true data doctorInfo patientInfo
              | _, _ => None
              end = Some v ->
              instant (viewValidTill v)
              = instant (viewIssueDate v) + 2592000000).
  { destruct (chainDoctors ch _) as [d|]; [|discriminate].
    destruct (chainPatients ch _) as [p|]; [|discriminate].
    intros E. apply chainView_times in E. lia. }
  cbv zeta.
  destruct (truthy ua); [|exact K].
  destruct (isDoctor && _); [discriminate|].
  destruct (negb isDoctor && _); [discriminate|].
  destruct (_ || _); [exact K | discriminate].
Qed.

Lemma fetchLoop_times (ch : Chain) (ua : option str) (isDoctor : bool)
      (fuel : nat) (i : Z) (acc : list ChainView) :
  Forall (fun v => instant (viewValidTill v)
                   = instant (viewIssueDate v) + 2592000000) acc ->
  Forall (fun v => instant (viewValidTill v)
                   = instant (viewIssueDate v) + 2592000000)
         (fetchLoop ch ua isDoctor fuel i acc).
Proof.
  revert i acc. induction fuel as [|fuel IH]; intros i acc H;
    cbn [fetchLoop]; [exact H|].
  destruct (i <=? prescriptionCounter ch); [|exact H].
  apply IH. destruct (fetchOne ch ua isDoctor i) as [v|] eqn:E; [|exact H].
  apply Forall_app. split; [exact H|].
  constructor; [|constructor]. exact (fetchOne_times _ _ _ _ _ E).
Qed.

(** C10.  A prescription created by [POST /api/prescriptions] from a body
    without [validTill] is valid until exactly thirty days
    (30 * 24 * 60 * 60 * 1000 milliseconds) after the time of its
    creation (the reading of [Date.now()] by the handler that creates
    it), and a prescription fetched from the chain, by either route, is
    reported as valid until its issue date plus exactly thirty days. *)
Theorem validity_is_thirty_days :
  (forall (req : Request) (w : World) (user : SessionUser) (doctor : DoctorRow)
          (props : list (str * JSON.value)) (parsed : PrescriptionCreate),
      session req = Some user ->
      doctorOf w user = Some doctor ->
      json req = Some (JSON.JObject props) ->
      JSON.property (lit "validTill") props = None ->
      prescriptionCreateSchema (JSON.JObject props) = inr parsed ->
      exists row w',
        run (POST req) w =
          (Ok {| statusCode := 200; body := PrescriptionJson row |}, w')
        /\ prescriptions (db w') = prescriptions (db w) ++ [row]
        /\ validTill row = clock w + 30 * 24 * 60 * 60 * 1000)
  /\ (forall (ch : Chain) (id : str) (userAddress : option str) (v : ChainView),
        fetchPrescriptionFromBlockchain ch id userAddress = Some v ->
        instant (viewValidTill v)
        = instant (viewIssueDate v) + 30 * 24 * 60 * 60 * 1000)
  /\ (forall (ch : Chain) (userAddress : option str) (isDoctor : bool)
             (v : ChainView),
        In v (fetchAllPrescriptionsFromBlockchain ch userAddress isDoctor) ->
        instant (viewValidTill v)
        = instant (viewIssueDate v) + 30 * 24 * 60 * 60 * 1000).
Proof.
  split; [|split].
  - intros req w user doctor props parsed Hs Hd Hj Hprop Hparsed.
    pose proof (schema_without_validTill props parsed Hprop Hparsed) as Hnone.
    rewrite POST_cases, Hs, Hd, Hj, Hparsed.
    eexists. eexists. split; [reflexivity|].
    unfold storedRow. rewrite Hnone.
    cbn [truthy validTill issueDate withPrescription db prescriptions].
    repeat split; lia.
  - intros ch id ua v. unfold fetchPrescriptionFromBlockchain.
    destruct (online ch); [|discriminate].
    destruct (parseInt id 0) as [|n]; [discriminate|].
    destruct (readPrescription ch n) as [data|]; [|discriminate].
    destruct (chainId data =? 0); [discriminate|].
    destruct (chainDoctors ch _) as [d|]; [|discriminate].
    destruct (chainPatients ch _) as [p|]; [|discriminate].
    cbv zeta. destruct (truthy ua && _); [discriminate|].
    intros E. apply chainView_times in E. lia.
  - intros ch ua isDoctor v. unfold fetchAllPrescriptionsFromBlockchain.
    destruct (online ch); [|intros []].
    intros Hin.
    pose proof (fetchLoop_times ch ua isDoctor
                  (Z.to_nat (prescriptionCounter ch)) 1 [] (Forall_nil _)) as F.
    rewrite Forall_forall in F. rewrite (F v Hin). lia.
Qed.

End Validity.

(** ** The doctor registration form *)

Section Registration.
Import JS Eff DoctorForm.
Context {B : Backend}.

(** C5.  When the on-chain [registerDoctor] call succeeds and the
    database registration that follows fails (the API answers with a
    status other than 200, or the request is rejected), the flow ends by
    reporting the failure in a destructive toast: the write to the chain
    stands, the database is as it was, and the only calls made are the
    contract initialisation, the one [registerDoctor] and the one POST,
    so the chain write is neither reverted nor retried and the two stores
    disagree. *)
Theorem registration_has_no_compensation :
  forall (userId : str) (data : FormData) (w : World),
    initContract (blockId data) = None ->
    registerDoctor (chainDoctors w) data = None ->
    postDoctor (dbDoctors w) data userId <> Resolved 200 ->
    exists (t : Toast) (w' : World),
      run (onSubmit userId data) w = (Ok tt, w')
      /\ destructive t = true
      /\ toasts w' = toasts w ++ [t]
      /\ chainDoctors w' = chainDoctors w ++ [blockId data]
      /\ dbDoctors w' = dbDoctors w
      /\ pushed w' = pushed w
      /\ calls w' =
         calls w ++ [ContractInit (blockId data);
                     RegisterDoctor (name data) (specialty data) (fees data);
                     PostDoctor userId].
Proof.
  intros userId data w Hinit Hreg Hpost.
  unfold run, onSubmit, tryCatch, bind.
  unfold contractInit, bind, record, modify. rewrite Hinit.
  unfold ret at 1. cbv beta iota.
  unfold contractRegisterDoctor, bind, record, modify.
  cbn [chainDoctors dbDoctors toasts pushed calls]. rewrite Hreg.
  cbv beta iota.
  unfold axiosPost, bind, record, modify.
  cbn [chainDoctors dbDoctors toasts pushed calls].
  destruct (postDoctor (dbDoctors w) data userId) as [status|msg] eqn:E.
  - assert (S : (status =? 200) = false).
    { apply Z.eqb_neq. intros ->. now apply Hpost. }
    cbv beta iota. rewrite S. cbn [negb].
    unfold toast, modify.
    cbn [chainDoctors dbDoctors toasts pushed calls].
    eexists. eexists. split; [reflexivity|].
    cbn [destructive chainDoctors dbDoctors toasts pushed calls].
    rewrite <- !app_assoc. repeat split; reflexivity.
  - cbv beta iota. cbn [errorData message optionalIncludes].
    unfold orThrow, ret. cbv beta iota.
    unfold toast, modify.
    cbn [chainDoctors dbDoctors toasts pushed calls].
    eexists. eexists. split; [reflexivity|].
    cbn [destructive chainDoctors dbDoctors toasts pushed calls].
    rewrite <- !app_assoc. repeat split; reflexivity.
Qed.

End Registration.

(** ** Runs in the sample clinic *)

Section Runs.
Import JS Dates Store Eff Spec.

(** The theorem on a booking from ten to eleven with a doctor who is
    booked from half past ten. *)
Lemma appointment_conflict_is_409_witness :
  overlapping Sample.booked 1704103200000 1704106800000
  /\ exists w',
      run (Appointments.POST (P := Sample.platform) Sample.bookingRequest)
          Sample.world =
        (Ok {| Appointments.statusCode := 409;
               Appointments.body :=
                 Appointments.Text (lit "Time slot not available") |},
         w')
      /\ appointments (db w') = appointments (db Sample.world).
Proof.
  assert (O : overlapping Sample.booked 1704103200000 1704106800000).
  { unfold overlapping, Sample.booked. cbn [status startTime endTime].
    split; [now left | lia]. }
  split; [exact O|].
  apply (appointment_conflict_is_409 (P := Sample.platform)
           Sample.bookingRequest Sample.world Sample.patientUser
           Sample.appointmentBody Sample.parsedAppointment
           Sample.doctor Sample.booked).
  - reflexivity.
  - reflexivity.
  - reflexivity.
  - reflexivity.
  - now left.
  - exact O.
  - now left.
  - left. discriminate.
Defined.

(** C4 as stated fails: the sample booking, made while the doctor is
    booked, in a session whose user has neither a patient profile nor a
    row in the users table, is answered with 500, not with 409: the
    update of the user's role is refused. *)
Lemma appointment_conflict_without_user_row_is_500 :
  ~ (forall (req : Request) (w : World) (user : SessionUser)
            (json : JSON.value)
            (parsed : Appointments.AppointmentRequest)
            (doctor : DoctorRow) (existing : AppointmentRow),
        session req = Some user ->
        Store.json req = Some json ->
        Appointments.appointmentSchema (P := Sample.platform) json
        = inr parsed ->
        doctorById w (Appointments.bodyDoctorId parsed) = Some doctor ->
        In existing (appointments (db w)) ->
        overlapping existing
          (dateOfText (Platform := Sample.platform)
                      (Appointments.bodyStartTime parsed))
          (dateOfText (Platform := Sample.platform)
                      (Appointments.bodyEndTime parsed)) ->
        (appointmentDoctorId existing = Appointments.bodyDoctorId parsed
         \/ exists patient,
              patientOf w user = Some patient
              /\ appointmentPatientId existing = patientId patient) ->
        exists w',
          run (Appointments.POST (P := Sample.platform) req) w =
            (Ok {| Appointments.statusCode := 409;
                   Appointments.body :=
                     Appointments.Text (lit "Time slot not available") |},
             w')
          /\ appointments (db w') = appointments (db w)).
Proof.
  intros H.
  assert (O : overlapping Sample.booked 1704103200000 1704106800000).
  { unfold overlapping, Sample.booked. cbn [status startTime endTime].
    split; [now left | lia]. }
  destruct (H Sample.unknownBooking Sample.world Sample.unknownUser
              Sample.appointmentBody Sample.parsedAppointment
              Sample.doctor Sample.booked
              eq_refl eq_refl eq_refl eq_refl (or_introl eq_refl) O
              (or_introl eq_refl)) as (w' & E & _).
  vm_compute in E. discriminate E.
Qed.

(** The theorem on the list of the sample doctor. *)
Lemma prescriptions_list_unique_db_first_sorted_witness :
  run (Prescriptions.GET Sample.listRequest) Sample.world =
    (Ok {| Prescriptions.statusCode := 200;
           Prescriptions.body := Prescriptions.ListJson Sample.listed |},
     Sample.world)
  /\ NoDup (map Prescriptions.itemId Sample.listed)
  /\ StronglySorted (notOlder Prescriptions.itemIssueTime) Sample.listed.
Proof.
  assert (E : run (Prescriptions.GET Sample.listRequest) Sample.world =
              (Ok {| Prescriptions.statusCode := 200;
                     Prescriptions.body :=
                       Prescriptions.ListJson Sample.listed |},
               Sample.world)) by reflexivity.
  split; [exact E|].
  destruct (prescriptions_list_unique_db_first_sorted
              Sample.listRequest Sample.world Sample.world _ Sample.listed
              E eq_refl) as (A & _ & _ & _ & S).
  exact (conj A S).
Defined.

(** The theorem on a prescription without [validTill] and on the second
    prescription of the chain. *)
Lemma validity_is_thirty_days_witness :
  (exists row w',
      run (Prescriptions.POST (P := Sample.platform) Sample.prescribeRequest)
          Sample.world =
        (Ok {| Prescriptions.statusCode := 200;
               Prescriptions.body := Prescriptions.PrescriptionJson row |},
         w')
      /\ validTill row = clock Sample.world + 30 * 24 * 60 * 60 * 1000)
  /\ (exists v,
        Prescriptions.fetchPrescriptionFromBlockchain
          Sample.ledger (lit "2") None = Some v
        /\ instant (Prescriptions.viewValidTill v)
           = instant (Prescriptions.viewIssueDate v)
             + 30 * 24 * 60 * 60 * 1000)
  /\ instant (Prescriptions.viewValidTill Sample.secondOnChain)
     = instant (Prescriptions.viewIssueDate Sample.secondOnChain)
       + 30 * 24 * 60 * 60 * 1000.
Proof.
  destruct (validity_is_thirty_days (P := Sample.platform)) as (A & B & C).
  split; [|split].
  - destruct (A Sample.prescribeRequest Sample.world Sample.doctorUser
                Sample.doctor _ Sample.parsedPrescription
                eq_refl eq_refl eq_refl eq_refl eq_refl)
      as (row & w' & E & _ & T).
    exists row, w'. split; [exact E | exact T].
  - destruct (Prescriptions.fetchPrescriptionFromBlockchain
                Sample.ledger (lit "2") None) as [v|] eqn:E;
      [|discriminate E].
    exists v. split; [reflexivity|]. exact (B _ _ _ _ E).
  - apply (C Sample.ledger (Some (lit "0xD1")) true).
    vm_compute. right. left. reflexivity.
Defined.

(** The theorem on a registration while the database is down. *)
Lemma registration_has_no_compensation_witness :
  exists (t : DoctorForm.Toast) (w' : DoctorForm.World),
    run (DoctorForm.onSubmit (B := SampleForm.backend)
           (lit "u1") SampleForm.form) SampleForm.start = (Ok tt, w')
    /\ DoctorForm.destructive t = true
    /\ DoctorForm.toasts w' = [t]
    /\ DoctorForm.chainDoctors w' = [lit "0xD1"]
    /\ DoctorForm.dbDoctors w' = [].
Proof.
  destruct (registration_has_no_compensation (B := SampleForm.backend)
              (lit "u1") SampleForm.form SampleForm.start)
    as (t & w' & E & D & T & C & Db & _); [reflexivity | reflexivity | |].
  - discriminate.
  - exists t, w'. repeat split; assumption.
Defined.

End Runs.

(** ** Created records *)

Section CreatedRecords.
Import JS Store Eff Spec.
Context {P : Platform}.

(** C7.  Every record created by the create handlers references exactly
    one doctor and exactly one patient.  [POST /api/prescriptions] either
    leaves the prescriptions as they were or adds one row, whose doctor is
    the doctor profile of the authenticated user and whose patient is the
    [patientId] of the body; [POST /api/appointments] either leaves the
    appointments as they were or adds one row, whose doctor is the
    (existing) doctor of the body and whose patient is the patient profile
    of the authenticated user. *)
Theorem created_records_reference_one_doctor_and_one_patient :
  forall (req : Request) (w : World),
    (exists resp w',
        run (Prescriptions.POST req) w = (Ok resp, w')
        /\ (prescriptions (db w') = prescriptions (db w)
            \/ exists user doctor j parsed row,
                 session req = Some user
                 /\ doctorOf w user = Some doctor
                 /\ json req = Some j
                 /\ Prescriptions.prescriptionCreateSchema j = inr parsed
                 /\ resp = {| Prescriptions.statusCode := 200;
                              Prescriptions.body :=
                                Prescriptions.PrescriptionJson row |}
                 /\ prescriptions (db w') = prescriptions (db w) ++ [row]
                 /\ prescriptionDoctorId row = doctorId doctor
                 /\ prescriptionPatientId row
                    = Prescriptions.bodyPatientId parsed))
    /\ (exists resp w',
          run (Appointments.POST req) w = (Ok resp, w')
          /\ (appointments (db w') = appointments (db w)
              \/ exists user j parsed doctor patient row,
                   session req = Some user
                   /\ json req = Some j
                   /\ Appointments.appointmentSchema j = inr parsed
                   /\ doctorById w (Appointments.bodyDoctorId parsed)
                      = Some doctor
                   /\ patientOf w' user = Some patient
                   /\ resp = {| Appointments.statusCode := 200;
                                Appointments.body :=
                                  Appointments.Created row |}
                   /\ appointments (db w') = appointments (db w) ++ [row]
                   /\ appointmentDoctorId row = doctorId doctor
                   /\ appointmentPatientId row = patientId patient)).
Proof.
  intros req w. split.
  - apply prescription_post_creates.
  - apply appointment_post_creates.
Qed.

End CreatedRecords.

(** * Further properties *)

(** ** Digests as words *)

Section DigestWords.
Import JS Ethers Eff ZkProofs Spec Words.

Lemma zOfByte_range (b : byte) : 0 <= Keccak.zOfByte b < 256.
Proof.
  unfold Keccak.zOfByte. pose proof (Byte.to_N_bounded b) as H.
  change 256 with (Z.of_N 256). lia.
Qed.

Lemma digitOk_all (d : Z) : 0 <= d < 16 -> digitOk d = true.
Proof.
  intros H.
  assert (C : d = 0 \/ d = 1 \/ d = 2 \/ d = 3 \/ d = 4 \/ d = 5 \/ d = 6
              \/ d = 7 \/ d = 8 \/ d = 9 \/ d = 10 \/ d = 11 \/ d = 12
              \/ d = 13 \/ d = 14 \/ d = 15) by lia.
  repeat (destruct C as [-> | C]; [reflexivity|]). now subst d.
Qed.

Lemma hexChar_facts (d : Z) :
  0 <= d < 16 ->
  isHexDigit (hexChar d) = true
  /\ hexValue (hexChar d) = d
  /\ lowerChar (hexChar d) = hexChar d.
Proof.
  intros H. pose proof (digitOk_all d H) as K. unfold digitOk in K.
  apply andb_prop in K. destruct K as [K L].
  apply andb_prop in K. destruct K as [K V].
  repeat split; [exact K | now apply Z.eqb_eq | now apply Ascii.eqb_eq].
Qed.

Lemma nibbles (b : byte) :
  0 <= Keccak.zOfByte b / 16 < 16 /\ 0 <= Keccak.zOfByte b mod 16 < 16
  /\ 16 * (Keccak.zOfByte b / 16) + Keccak.zOfByte b mod 16 = Keccak.zOfByte b.
Proof.
  pose proof (zOfByte_range b) as R.
  pose proof (Z.div_mod (Keccak.zOfByte b) 16 ltac:(lia)) as D.
  pose proof (Z.mod_pos_bound (Keccak.zOfByte b) 16 ltac:(lia)) as M.
  repeat split; lia.
Qed.

Lemma hexOfByte_digits (b : byte) :
  forallb isHexDigit (hexOfByte b) = true
  /\ toLowerCase (hexOfByte b) = hexOfByte b
  /\ List.length (hexOfByte b) = 2%nat.
Proof.
  destruct (nibbles b) as (Hh & Hl & _).
  destruct (hexChar_facts _ Hh) as (A1 & _ & A3).
  destruct (hexChar_facts _ Hl) as (B1 & _ & B3).
  unfold hexOfByte. cbn [forallb toLowerCase map List.length].
  rewrite A1, B1, A3, B3. repeat split.
Qed.

(** The digits of [hexlify]: two lower-case hexadecimal digits a byte. *)
Lemma hexlify_digits (bs : list byte) :
  forallb isHexDigit (flat_map hexOfByte bs) = true
  /\ toLowerCase (flat_map hexOfByte bs) = flat_map hexOfByte bs
  /\ List.length (flat_map hexOfByte bs) = (2 * List.length bs)%nat.
Proof.
  induction bs as [|b bs (IH1 & IH2 & IH3)]; [repeat split|].
  destruct (hexOfByte_digits b) as (H1 & H2 & H3).
  cbn [flat_map]. unfold toLowerCase in *.
  rewrite forallb_app, map_app, length_app, H1, H2, H3, IH1, IH2, IH3.
  cbn [List.length]. repeat split. lia.
Qed.

(** Eight digits written for four bytes read back as their word. *)
Lemma parseInt_four_bytes (a b c d : byte) :
  parseInt (hexOfByte a ++ hexOfByte b ++ hexOfByte c ++ hexOfByte d) 16
  = Num (wordOfBytes a b c d).
Proof.
  pose proof (hexlify_digits [a; b; c; d]) as (H & _ & _).
  cbn [flat_map] in H. rewrite app_nil_r in H.
  rewrite parseInt_hex; [|discriminate|exact H].
  f_equal. unfold hexOfByte. cbn [app map]. unfold radixValue. cbn [fold_left].
  destruct (nibbles a) as (A1 & A2 & A3). destruct (nibbles b) as (B1 & B2 & B3).
  destruct (nibbles c) as (C1 & C2 & C3). destruct (nibbles d) as (D1 & D2 & D3).
  rewrite !(proj1 (proj2 (hexChar_facts _ A1))), !(proj1 (proj2 (hexChar_facts _ A2))),
          !(proj1 (proj2 (hexChar_facts _ B1))), !(proj1 (proj2 (hexChar_facts _ B2))),
          !(proj1 (proj2 (hexChar_facts _ C1))), !(proj1 (proj2 (hexChar_facts _ C2))),
          !(proj1 (proj2 (hexChar_facts _ D1))), !(proj1 (proj2 (hexChar_facts _ D2))).
  unfold wordOfBytes. lia.
Qed.

Lemma parseInt_eight_digits (a b c d : byte) :
  parseInt [hexChar (Keccak.zOfByte a / 16); hexChar (Keccak.zOfByte a mod 16);
            hexChar (Keccak.zOfByte b / 16); hexChar (Keccak.zOfByte b mod 16);
            hexChar (Keccak.zOfByte c / 16); hexChar (Keccak.zOfByte c mod 16);
            hexChar (Keccak.zOfByte d / 16); hexChar (Keccak.zOfByte d mod 16)]
           16
  = Num (wordOfBytes a b c d).
Proof. exact (parseInt_four_bytes a b c d). Qed.

(** The words of a digest, read from its hexadecimal text. *)
Lemma hexToU32Array_hexlify (bs : list byte) :
  List.length bs = 32%nat ->
  hexToU32Array (hexlify bs) = map Num (wordsOfBytes bs).
Proof.
  intros L. pose proof (hexlify_digits bs) as (H & _ & Len).
  rewrite (hexToU32Array_unfold (flat_map hexOfByte bs) (hexlify bs) H
             (or_intror eq_refl)).
  unfold padStart. rewrite Len, L.
  change (64 - 2 * 32)%nat with 0%nat. cbn [repeat app].
  do 32 (destruct bs as [|? bs]; [discriminate L|]).
  destruct bs; [|discriminate L].
  unfold offsets, slice, hexOfByte.
  cbn [flat_map wordsOfBytes map app skipn firstn Nat.sub Nat.add].
  rewrite !parseInt_eight_digits. reflexivity.
Qed.

(** The chunks of the result spell the padded digits. *)
Lemma hexToU32Array_text (digits hex : str) :
  forallb isHexDigit digits = true ->
  (List.length digits <= 64)%nat ->
  hex = digits \/ hex = lit "0x" ++ digits ->
  flat_map chunkText (hexToU32Array hex)
  = toLowerCase (padStart 64 "0" digits)
  /\ Forall isU32 (hexToU32Array hex).
Proof.
  intros H L Hhex.
  rewrite (hexToU32Array_unfold digits hex H Hhex).
  destruct (padded_is_64_digits digits H L) as [PL PH].
  set (p := padStart 64 "0" digits) in *. split.
  - rewrite flat_map_concat_map, map_map, <- flat_map_concat_map.
    rewrite (flat_map_in_ext _ (fun i => toLowerCase (slice i (i + 8) p))).
    + unfold toLowerCase. rewrite <- map_flat_map.
      now rewrite (slices_cover p PL).
    + intros i Hi. destruct (slice_is_chunk p i PL PH Hi) as [SL SH].
      destruct (chunk_value _ SL SH) as (z & -> & _ & E). exact E.
  - apply Forall_map, Forall_forall. intros i Hi.
    destruct (slice_is_chunk p i PL PH Hi) as [SL SH].
    destruct (chunk_value _ SL SH) as (z & -> & R & _). exact R.
Qed.

(** X1.  For a secret key that holds no high surrogate without its low
    surrogate, the commitment that [generateCommitment] returns is [0x]
    followed by the 64 lower-case hexadecimal digits of a 32-byte digest;
    [parseCommitmentForContract] turns it into the eight big-endian 32-bit
    words of that digest, each in [0, 2^32), and the commitment can be
    written back from the words digit for digit. *)
Theorem commitment_words_round_trip :
  forall (d : AnonymousPrescriptionData) (w : World),
  unpairedHigh (secretKey d) = false ->
  exists (digest : list byte) (commitment : str),
    run (generateCommitment d) w = (Ok commitment, w)
    /\ List.length digest = 32%nat
    /\ commitment = lit "0x" ++ flat_map hexOfByte digest
    /\ List.length commitment = 66%nat
    /\ parseCommitmentForContract commitment = map Num (wordsOfBytes digest)
    /\ List.length (parseCommitmentForContract commitment) = 8%nat
    /\ Forall isU32 (parseCommitmentForContract commitment)
    /\ lit "0x" ++ flat_map chunkText (parseCommitmentForContract commitment)
       = commitment.
Proof.
  intros d w Hkey. set (digest := commitmentDigest d (clock w / 1000)).
  assert (L : List.length digest = 32%nat) by apply keccak_256_length.
  pose proof (hexlify_digits digest) as (H & Low & Len).
  exists digest, (hexlify digest).
  destruct (hexToU32Array_text (flat_map hexOfByte digest) (hexlify digest) H)
    as [T U]; [lia | now right |].
  split; [now apply generateCommitment_run|]. split; [exact L|].
  split; [reflexivity|]. split.
  { unfold hexlify. rewrite length_app, Len, L. reflexivity. }
  unfold parseCommitmentForContract. split; [now apply hexToU32Array_hexlify|].
  split.
  { rewrite (hexToU32Array_hexlify digest L), length_map.
    clear - L. do 32 (destruct digest as [|? digest]; [discriminate L|]).
    destruct digest; [reflexivity | discriminate L]. }
  split; [exact U|].
  rewrite T. unfold padStart. rewrite Len, L.
  change (64 - 2 * 32)%nat with 0%nat. cbn [repeat app]. rewrite Low.
  reflexivity.
Qed.

Lemma firstn_slice_of_prefix (digits extra : str) (i : nat) :
  (i + 8 <= List.length digits)%nat ->
  slice i (i + 8) (digits ++ extra) = slice i (i + 8) digits.
Proof.
  intros L. unfold slice.
  rewrite skipn_app, firstn_app, length_skipn.
  replace (i - List.length digits)%nat with 0%nat by lia.
  replace (i + 8 - i - (List.length digits - i))%nat with 0%nat by lia.
  cbn [firstn skipn]. now rewrite app_nil_r.
Qed.

Lemma hexToU32Array_of_64 (digits extra : str) :
  forallb isHexDigit digits = true ->
  List.length digits = 64%nat ->
  hexToU32Array (digits ++ extra)
  = map (fun i => parseInt (slice i (i + 8) digits) 16) offsets.
Proof.
  intros H L. unfold hexToU32Array.
  assert (N : startsWith (lit "0x") (digits ++ extra) = false).
  { destruct digits as [|c0 [|c1 r]]; try discriminate L.
    cbn [forallb] in H.
    apply andb_prop in H. destruct H as [_ H].
    apply andb_prop in H. destruct H as [H1 _].
    destruct (hexDigit_facts c1 H1) as (_ & _ & _ & X & _).
    change (lit "0x") with ["0"%char; "x"%char].
    cbn [app startsWith]. rewrite X. cbn [andb]. apply andb_false_r. }
  rewrite N. unfold padStart. rewrite length_app, L.
  replace (64 - (64 + List.length extra))%nat with 0%nat by lia.
  cbn [repeat app]. rewrite chunkLoop_offsets.
  apply map_ext_in. intros i Hi. f_equal.
  apply firstn_slice_of_prefix. unfold offsets in Hi. cbn [In] in Hi. lia.
Qed.

(** X2.  [hexToU32Array] reads 64 digits and no more: whatever follows
    the first 64 hexadecimal digits of its argument (after the optional
    [0x]) has no effect on the result. *)
Theorem hexToU32Array_ignores_what_follows_64_digits :
  forall (digits extra : str),
    forallb isHexDigit digits = true ->
    List.length digits = 64%nat ->
    hexToU32Array (digits ++ extra) = hexToU32Array digits
    /\ hexToU32Array (lit "0x" ++ digits ++ extra) = hexToU32Array digits.
Proof.
  intros digits extra H L.
  pose proof (hexToU32Array_of_64 digits [] H L) as E0.
  rewrite app_nil_r in E0. rewrite E0. split.
  - apply (hexToU32Array_of_64 digits extra H L).
  - unfold hexToU32Array at 1.
    change (startsWith (lit "0x") (lit "0x" ++ digits ++ extra)) with true.
    change (sliceFrom 2 (lit "0x" ++ digits ++ extra)) with (digits ++ extra).
    unfold padStart. rewrite length_app, L.
    replace (64 - (64 + List.length extra))%nat with 0%nat by lia.
    cbn [repeat app]. rewrite chunkLoop_offsets.
    apply map_ext_in. intros i Hi. f_equal.
    apply firstn_slice_of_prefix. unfold offsets in Hi. cbn [In] in Hi. lia.
Qed.

(** The first 32 bits of a digest, as [generateWitnessInput] cuts them
    out of the hexadecimal text. *)
Lemma first_word_of_digest (bs : list byte) :
  List.length bs = 32%nat ->
  parseInt (slice 2 10 (hexlify bs)) 16 = Num (nth 0 (wordsOfBytes bs) 0).
Proof.
  intros L. do 4 (destruct bs as [|? bs]; [discriminate L|]).
  unfold hexlify, slice, hexOfByte.
  change (lit "0x") with ["0"%char; "x"%char].
  cbn [flat_map app skipn firstn Nat.sub wordsOfBytes nth].
  apply parseInt_eight_digits.
Qed.

(** The witness of a prescription leaves the world as it is. *)
Lemma generateWitnessInput_run (d : AnonymousPrescriptionData) (w : World) :
  unpairedHigh (secretKey d) = false ->
  unpairedHigh (doctorId d) = false ->
  run (generateWitnessInput d) w =
  (Ok {| prescription_hash :=
           hexToU32Array
             (hexlify (Keccak.keccak_256 (utf8 (witnessJson d))));
         secret_key :=
           parseInt
             (slice 2 10
                (hexlify (Keccak.keccak_256 (utf8 (secretKey d)))))
             16;
         doctor_id :=
           parseInt
             (slice 2 10
                (hexlify (Keccak.keccak_256 (utf8 (doctorId d)))))
             16;
         public_commitment :=
           hexToU32Array (hexlify (commitmentDigest d (clock w / 1000))) |},
   w).
Proof.
  intros Hkey Hid.
  unfold run, generateWitnessInput, bind, ethers, orThrow, ret.
  rewrite toUtf8Bytes_stringify. cbv beta iota.
  unfold toUtf8Bytes. rewrite Hkey, Hid. cbv beta iota.
  rewrite !keccak256_Raw. cbv beta iota.
  pose proof (generateCommitment_run d w Hkey) as G. unfold run in G.
  rewrite G. reflexivity.
Qed.

(** X3.  For a secret key and a doctor id that hold no high surrogate
    without its low surrogate, [generateWitnessInput] does not throw and
    does not change the world.  Its [prescription_hash] is the eight
    words of the hash of the prescription data without any timestamp, so
    it is the same at every time, while its [public_commitment] is the
    eight words of the commitment of that moment; [secret_key] and
    [doctor_id] are only the first 32 bits of the hashes of the secret
    key and of the doctor id. *)
Theorem witness_input_fields :
  forall (d : AnonymousPrescriptionData) (w : World),
  unpairedHigh (secretKey d) = false ->
  unpairedHigh (doctorId d) = false ->
  exists wi : WitnessInput,
    run (generateWitnessInput d) w = (Ok wi, w)
    /\ prescription_hash wi
       = map Num (wordsOfBytes (Keccak.keccak_256 (utf8 (witnessJson d))))
    /\ secret_key wi
       = Num (nth 0 (wordsOfBytes
                       (Keccak.keccak_256 (utf8 (secretKey d)))) 0)
    /\ doctor_id wi
       = Num (nth 0 (wordsOfBytes
                       (Keccak.keccak_256 (utf8 (doctorId d)))) 0)
    /\ public_commitment wi
       = map Num (wordsOfBytes (commitmentDigest d (floorDiv (clock w) 1000)))
    /\ List.length (prescription_hash wi) = 8%nat
    /\ List.length (public_commitment wi) = 8%nat.
Proof.
  intros d w Hkey Hid. eexists.
  split; [now apply generateWitnessInput_run|].
  cbn [prescription_hash secret_key doctor_id public_commitment].
  rewrite !hexToU32Array_hexlify by apply keccak_256_length.
  rewrite !first_word_of_digest by apply keccak_256_length.
  repeat split; rewrite <- hexToU32Array_hexlify by apply keccak_256_length;
    unfold hexToU32Array; rewrite chunkLoop_offsets; reflexivity.
Qed.

End DigestWords.

(** ** Prescriptions read from the chain *)

Section ChainReads.
Import JS Dates Store Eff Prescriptions Spec ChainFacts.

Lemma fetchLoop_unroll (ch : Chain) (ua : option str) (isDoctor : bool)
      (fuel : nat) (i : Z) (acc : list ChainView) :
  i + Z.of_nat fuel - 1 <= prescriptionCounter ch ->
  fetchLoop ch ua isDoctor fuel i acc
  = acc ++ flat_map (fun k => optList (fetchOne ch ua isDoctor k))
                    (indicesFrom i fuel).
Proof.
  revert i acc. induction fuel as [|fuel IH]; intros i acc H.
  - cbn. now rewrite app_nil_r.
  - cbn [fetchLoop].
    assert (G : (i <=? prescriptionCounter ch) = true) by (apply Z.leb_le; lia).
    rewrite G, IH by lia.
    unfold indicesFrom. cbn [seq map flat_map].
    rewrite <- seq_shift, map_map, Z.add_0_r.
    assert (E : map (fun k => i + 1 + Z.of_nat k) (seq 0 fuel)
                = map (fun k => i + Z.of_nat (S k)) (seq 0 fuel)).
    { apply map_ext. intros k. lia. }
    rewrite E.
    destruct (fetchOne ch ua isDoctor i); cbn [optList app];
      [now rewrite <- app_assoc | reflexivity].
Qed.

(** The list holds what the single turns give, in the order of the
    indices 1, 2, ... up to the counter. *)
Lemma fetchAll_unroll (ch : Chain) (ua : option str) (isDoctor : bool) :
  fetchAllPrescriptionsFromBlockchain ch ua isDoctor
  = if online ch
    then flat_map (fun k => optList (fetchOne ch ua isDoctor k))
                  (indicesFrom 1 (Z.to_nat (prescriptionCounter ch)))
    else [].
Proof.
  unfold fetchAllPrescriptionsFromBlockchain.
  destruct (online ch); [|reflexivity].
  destruct (Z.le_gt_cases (prescriptionCounter ch) 0) as [N | Pn].
  - replace (Z.to_nat (prescriptionCounter ch)) with 0%nat by lia. reflexivity.
  - rewrite fetchLoop_unroll by lia. reflexivity.
Qed.

Lemma fetchAll_member (ch : Chain) (ua : option str) (isDoctor : bool)
      (v : ChainView) :
  In v (fetchAllPrescriptionsFromBlockchain ch ua isDoctor)
  <-> online ch = true
      /\ exists i, 1 <= i <= prescriptionCounter ch
                   /\ fetchOne ch ua isDoctor i = Some v.
Proof.
  rewrite fetchAll_unroll. destruct (online ch).
  - rewrite in_flat_map. unfold indicesFrom. split.
    + intros (i & Hi & Hv). split; [reflexivity|].
      apply in_map_iff in Hi. destruct Hi as (k & <- & Hk).
      apply in_seq in Hk. exists (1 + Z.of_nat k). split; [lia|].
      destruct (fetchOne ch ua isDoctor (1 + Z.of_nat k)) as [x|];
        cbn [optList In] in Hv; [|contradiction].
      destruct Hv as [-> | []]. reflexivity.
    + intros (_ & i & Hi & Hv). exists i. split.
      * apply in_map_iff. exists (Z.to_nat (i - 1)). split; [lia|].
        apply in_seq. lia.
      * rewrite Hv. now left.
  - split; [intros [] | intros [E _]; discriminate E].
Qed.

Lemma chainView_fields (withEmail : bool) (data : ChainPrescription)
      (doctorInfo : ChainDoctor) (patientInfo : ChainPatient) (v : ChainView) :
  chainView withEmail data doctorInfo patientInfo = Some v ->
  viewId v = numberToString (chainId data)
  /\ viewMedications v = []
  /\ viewBlockchainOnly v = true.
Proof.
  unfold chainView.
  destruct (toISOString _); [|discriminate].
  destruct (toISOString _); [|discriminate].
  intros E. injection E as <-. repeat split.
Qed.

Lemma chainView_datable (withEmail : bool) (data : ChainPrescription)
      (doctorInfo : ChainDoctor) (patientInfo : ChainPatient) :
  datable data ->
  exists v, chainView withEmail data doctorInfo patientInfo = Some v.
Proof.
  intros [A B]. unfold chainView, toISOString, newDate.
  change (30 * 24 * 60 * 60 * 1000) with 2592000000.
  apply Z.leb_le in A, B. rewrite A, B. eauto.
Qed.

(** What a turn of the loop has seen when it pushes a record. *)
Lemma fetchOne_some (ch : Chain) (ua : option str) (isDoctor : bool)
      (i : Z) (v : ChainView) :
  fetchOne ch ua isDoctor i = Some v ->
  exists data doctorInfo patientInfo,
    readPrescription ch i = Some data
    /\ chainId data <> 0
    /\ chainDoctors ch (chainDoctorAddress data) = Some doctorInfo
    /\ chainPatients ch (chainPatientAddress data) = Some patientInfo
    /\ chainView true data doctorInfo patientInfo = Some v
    /\ (truthy ua = true -> listedFor isDoctor data (orElse ua [])).
Proof.
  unfold fetchOne.
  destruct (readPrescription ch i) as [data|]; [|discriminate].
  destruct (chainId data =? 0) eqn:Z0; [discriminate|].
  apply Z.eqb_neq in Z0. cbv zeta.
  destruct (chainDoctors ch _) as [doc|] eqn:D.
  2:{ destruct (truthy ua); [|discriminate].
      destruct (isDoctor && _); [discriminate|].
      destruct (negb isDoctor && _); [discriminate|].
      destruct (_ || _); discriminate. }
  destruct (chainPatients ch _) as [pat|] eqn:Pt.
  2:{ destruct (truthy ua); [|discriminate].
      destruct (isDoctor && _); [discriminate|].
      destruct (negb isDoctor && _); [discriminate|].
      destruct (_ || _); discriminate. }
  destruct (truthy ua) eqn:T.
  - destruct (isDoctor && _) eqn:G1; [discriminate|].
    destruct (negb isDoctor && _) eqn:G2; [discriminate|].
    destruct (_ || _); [|discriminate].
    intros E. exists data, doc, pat. repeat split; try assumption.
    intros _. unfold listedFor. destruct isDoctor; cbn [negb andb] in G1, G2.
    + apply negb_false_iff in G1. now apply eqb_eq.
    + apply negb_false_iff in G2. now apply eqb_eq.
  - intros E. exists data, doc, pat. repeat split; try assumption.
    discriminate.
Qed.

(** X4.  When [fetchAllPrescriptionsFromBlockchain] is given an address,
    every record it returns is built from a chain prescription with a
    non-zero id, read at an index from 1 to the counter, whose doctor
    address (in a doctor's list) or patient address (otherwise) is the
    given address, letter case apart; the id shown is the id on the
    chain. *)
Theorem chain_list_is_filtered_by_address :
  forall (ch : Chain) (address : str) (isDoctor : bool) (v : ChainView),
    address <> [] ->
    In v (fetchAllPrescriptionsFromBlockchain ch (Some address) isDoctor) ->
    exists i data,
      1 <= i <= prescriptionCounter ch
      /\ chainPrescriptions ch i = Some data
      /\ chainId data <> 0
      /\ viewId v = numberToString (chainId data)
      /\ listedFor isDoctor data address.
Proof.
  intros ch address isDoctor v Hne Hin.
  apply fetchAll_member in Hin. destruct Hin as (_ & i & Hi & Hv).
  apply fetchOne_some in Hv.
  destruct Hv as (data & doc & pat & R & Z0 & _ & _ & V & A).
  exists i, data. split; [exact Hi|]. repeat split.
  - unfold readPrescription in R. destruct (_ && _); [exact R | discriminate].
  - exact Z0.
  - now apply chainView_fields in V.
  - destruct address as [|c r]; [congruence|]. now apply A.
Qed.

Lemma views_fold_covers (views : list ChainView) (m : list (str * Item)) :
  (forall k, In k (map fst m) -> In k (map fst (fold_left addView views m)))
  /\ (forall v, In v views ->
        In (viewId v) (map fst (fold_left addView views m))).
Proof.
  revert m. induction views as [|x views IH]; intros m; cbn [fold_left].
  - split; [auto | intros v []].
  - destruct (IH (addView m x)) as [Keep Cover].
    assert (Step : forall k, In k (map fst m) \/ k = viewId x ->
                             In k (map fst (addView m x))).
    { intros k Hk. unfold addView.
      destruct (mapHas (viewId x) m) eqn:Has; cbn [negb].
      - destruct Hk as [Hk | ->]; [exact Hk | now apply mapHas_keys].
      - now apply mapSet_has. }
    split.
    + intros k Hk. apply Keep, Step. now left.
    + intros v [<- | Hv]; [|now apply Cover].
      apply Keep, Step. now right.
Qed.

(** Every record rebuilt from the chain has its id in the merged list. *)
Lemma combine_covers_views (rows : list PrescriptionRow)
      (views : list ChainView) (v : ChainView) :
  In v views -> In (viewId v) (map itemId (combine rows views)).
Proof.
  intros Hv. rewrite combine_values.
  destruct (combine_merged rows views) as (_ & _ & Hm).
  set (m := fold_left addView views (fold_left addRow rows [])) in *.
  assert (K : map itemId (map snd m) = map fst m).
  { rewrite map_map. apply map_ext_in. intros e He. symmetry. now apply Hm. }
  rewrite K. now apply views_fold_covers.
Qed.

(** X5.  For a request that does not ask for the doctor's list, [GET
    /api/prescriptions] applies no filter to the chain: whoever the
    authenticated user is, every prescription of the chain that can be
    read (non-zero id, profiles readable, valid dates) has an entry with
    its id in the list, and the stores are left as they were. *)
Theorem patient_list_shows_every_chain_prescription :
  forall (req : Request) (w : World) (user : SessionUser) (i : Z)
         (data : ChainPrescription) (doctorInfo : ChainDoctor)
         (patientInfo : ChainPatient),
    session req = Some user ->
    orElse (roleParam req) (lit "patient") <> lit "doctor" ->
    online (chain w) = true ->
    1 <= i <= prescriptionCounter (chain w) ->
    i <= maxSafeInteger ->
    chainPrescriptions (chain w) i = Some data ->
    chainId data <> 0 ->
    chainDoctors (chain w) (chainDoctorAddress data) = Some doctorInfo ->
    chainPatients (chain w) (chainPatientAddress data) = Some patientInfo ->
    datable data ->
    exists resp items it,
      run (GET req) w = (Ok resp, w)
      /\ statusCode resp = 200
      /\ body resp = ListJson items
      /\ In it items
      /\ itemId it = numberToString (chainId data).
Proof.
  intros req w user i data doc pat Hs Hrole Hon Hi Hsafe Hread Hid Hd Hp Hdate.
  apply eqb_neq in Hrole.
  destruct (chainView_datable true data doc pat Hdate) as [v Hv].
  assert (F : fetchOne (chain w) None false i = Some v).
  { unfold fetchOne, readPrescription.
    assert (G : ((0 <=? i) && (i <=? maxSafeInteger)) = true).
    { apply andb_true_intro. split; apply Z.leb_le; lia. }
    rewrite G, Hread. apply Z.eqb_neq in Hid. rewrite Hid.
    cbv zeta. rewrite Hd, Hp. exact Hv. }
  assert (Hin : In v (blockchainResults req w)).
  { unfold blockchainResults. rewrite Hs, Hrole.
    apply fetchAll_member. split; [exact Hon|]. eauto. }
  pose proof (combine_covers_views (databaseResults req w) _ v Hin) as C.
  apply in_map_iff in C. destruct C as (it & Eit & Hit).
  assert (R : exists resp,
             run (GET req) w = (Ok resp, w)
             /\ statusCode resp = 200
             /\ body resp = ListJson
                              (sortBy mostRecentFirst
                                 (combine (databaseResults req w)
                                          (blockchainResults req w)))).
  { unfold run, GET, tryCatch, bind, ret, databaseResults, blockchainResults.
    rewrite Hs, Hrole. unfold findPatientByUser. cbv beta iota.
    destruct (find _ (patients (db w))) as [patient|]; cbv beta iota;
      unfold findPrescriptions, readChain; cbv beta iota;
      eexists; repeat split. }
  destruct R as (resp & Er & St & Eb).
  exists resp,
    (sortBy mostRecentFirst
       (combine (databaseResults req w) (blockchainResults req w))), it.
  split; [exact Er|]. split; [exact St|].
  split; [exact Eb|]. split.
  - eapply Permutation_in; [symmetry; apply sortBy_perm | exact Hit].
  - rewrite Eit. now apply chainView_fields in Hv.
Qed.

End ChainReads.

(** ** What [POST /api/prescriptions] stores *)

Section StoredPrescriptions.
Import JS Store Eff Prescriptions Spec.
Context {P : Platform}.

Lemma zString_nonempty (path : str) (o : option JSON.value) (s : str) :
  zString path 1 o = inr s -> s <> [].
Proof.
  unfold zString. destruct o as [[| | s' | | |]|]; try discriminate.
  destruct s' as [|c r]; cbn; [discriminate|].
  intros E. injection E as <-. discriminate.
Qed.

Lemma zMedication_nonempty (v : JSON.value) (m : MedicationInput) :
  zMedication v = inr m ->
  inputName m <> [] /\ inputDosage m <> [] /\ inputDuration m <> [].
Proof.
  unfold zMedication. destruct v as [| | | | |props]; try discriminate.
  destruct (zString _ 1 (JSON.property (lit "name") props)) as [|n] eqn:En;
    destruct (zString _ 1 (JSON.property (lit "dosage") props)) as [|d] eqn:Ed;
    destruct (zString _ 1 (JSON.property (lit "duration") props)) as [|t] eqn:Et;
    destruct (zOptionalString _ _) as [|i]; try discriminate.
  intros E. injection E as <-. cbn [inputName inputDosage inputDuration].
  repeat split; eapply zString_nonempty; eassumption.
Qed.

Lemma zMedications_each (items : list JSON.value) (ms : list MedicationInput) :
  zMedications items = inr ms ->
  List.length ms = List.length items
  /\ Forall (fun m => inputName m <> [] /\ inputDosage m <> []
                      /\ inputDuration m <> []) ms.
Proof.
  revert ms. induction items as [|v items IH]; intros ms; cbn [zMedications].
  - intros E. injection E as <-. split; [reflexivity | constructor].
  - destruct (zMedication v) as [|m] eqn:Em;
      destruct (zMedications items) as [|ms'] eqn:Ems; try discriminate.
    intros E. injection E as <-.
    destruct (IH ms' eq_refl) as [L F]. split; [cbn; now rewrite L|].
    constructor; [now apply zMedication_nonempty with v | exact F].
Qed.

(** What the schema guarantees of a body it accepts. *)
Lemma schema_accepts (j : JSON.value) (parsed : PrescriptionCreate) :
  prescriptionCreateSchema j = inr parsed ->
  exists props items,
    j = JSON.JObject props
    /\ JSON.property (lit "medications") props = Some (JSON.JArray items)
    /\ JSON.property (lit "patientId") props
       = Some (JSON.JString (bodyPatientId parsed))
    /\ bodyPatientId parsed <> []
    /\ List.length (bodyMedications parsed) = List.length items
    /\ Forall (fun m => inputName m <> [] /\ inputDosage m <> []
                        /\ inputDuration m <> []) (bodyMedications parsed).
Proof.
  unfold prescriptionCreateSchema.
  destruct j as [| | | | |props]; try discriminate.
  destruct (zString _ 1 _) as [|p] eqn:Ep;
    destruct (zMedicationArray _) as [|ms] eqn:Em;
    destruct (zOptionalDatetime _ _) as [|t];
    destruct (zOptionalString _ _) as [|h]; try discriminate.
  intros E. injection E as <-.
  cbn [bodyPatientId bodyMedications].
  unfold zMedicationArray in Em.
  destruct (JSON.property (lit "medications") props)
    as [[| | | |items|]|] eqn:Pm; try discriminate.
  destruct (zMedications_each items ms Em) as [L F].
  pose proof (zString_nonempty _ _ _ Ep) as Hne.
  unfold zString in Ep.
  destruct (JSON.property (lit "patientId") props)
    as [[| |s| | |]|] eqn:Pp; try discriminate.
  destruct (1 <=? List.length s)%nat; [|discriminate].
  injection Ep as ->.
  exists props, items. repeat split; assumption || reflexivity.
Qed.

(** X6.  Whatever [POST /api/prescriptions] adds to the store has passed
    the schema: the new prescription has a non-empty patient id, it has
    exactly one medication for each medication of the body, and every
    one of them has a non-empty name, dosage and duration. *)
Theorem stored_prescription_is_validated :
  forall (req : Request) (w w' : World) (resp : Response)
         (row : PrescriptionRow),
    run (POST req) w = (Ok resp, w') ->
    In row (prescriptions (db w')) ->
    In row (prescriptions (db w))
    \/ (prescriptionPatientId row <> []
        /\ Forall (fun m => medName m <> [] /\ medDosage m <> []
                            /\ medDuration m <> []) (medications row)
        /\ exists props items,
             json req = Some (JSON.JObject props)
             /\ JSON.property (lit "medications") props
                = Some (JSON.JArray items)
             /\ JSON.property (lit "patientId") props
                = Some (JSON.JString (prescriptionPatientId row))
             /\ List.length (medications row) = List.length items).
Proof.
  intros req w w' resp row. rewrite POST_cases.
  destruct (session req) as [user|];
    [|intros E; injection E as _ <-; now left].
  destruct (doctorOf w user) as [doctor|];
    [|intros E; injection E as _ <-; now left].
  destruct (json req) as [j|];
    [|intros E; injection E as _ <-; now left].
  destruct (prescriptionCreateSchema j) as [issues|parsed] eqn:Ep;
    [intros E; injection E as _ <-; now left|].
  cbv zeta. intros E. injection E as _ <-.
  unfold withPrescription. cbn [db prescriptions].
  rewrite in_app_iff. cbn [In]. intros [Hin | [<- | []]]; [now left|].
  right. destruct (schema_accepts j parsed Ep)
    as (props & items & -> & Em & Epid & Hp & L & F).
  unfold storedRow. cbn [prescriptionPatientId medications].
  split; [exact Hp|]. split.
  - apply Forall_map. eapply Forall_impl; [|exact F].
    intros m H. exact H.
  - exists props, items. rewrite length_map. auto.
Qed.

Lemma property_other (k k' : str) (v : JSON.value)
      (props : list (str * JSON.value)) :
  eqb k k' = false ->
  JSON.property k ((k', v) :: props) = JSON.property k props.
Proof. intros E. cbn [JSON.property]. now rewrite E. Qed.

(** X7.  A [blockchainTxHash] sent with a prescription passes the schema
    and is then dropped: the answer and the stores are the same as for
    the body without it. *)
Theorem tx_hash_is_dropped :
  forall (req : Request) (w : World) (props : list (str * JSON.value))
         (hash : str),
    json req = Some (JSON.JObject props) ->
    JSON.property (lit "blockchainTxHash") props = None ->
    run (POST {| session := session req;
                 roleParam := roleParam req;
                 json := Some (JSON.JObject
                                 ((lit "blockchainTxHash", JSON.JString hash)
                                    :: props)) |}) w
    = run (POST req) w.
Proof.
  intros req w props hash Hj Hnone.
  rewrite !POST_cases. cbn [session json]. rewrite Hj.
  destruct (session req) as [user|]; [|reflexivity].
  destruct (doctorOf w user) as [doctor|]; [|reflexivity].
  unfold prescriptionCreateSchema.
  rewrite !property_other by reflexivity.
  cbn [JSON.property]. rewrite eqb_refl, Hnone.
  cbn [zOptionalString].
  destruct (zString _ 1 _) as [i1|p]; destruct (zMedicationArray _) as [i2|m];
    destruct (zOptionalDatetime _ _) as [i3|t]; reflexivity.
Qed.

End StoredPrescriptions.

(** ** The single-prescription route *)

Section ById.
Import JS Dates Store Eff PrescriptionById Spec Access.

Lemma roleIsDoctor_storedRole (w : World) (user : SessionUser) :
  roleIsDoctor (find (fun u => eqb (userId u) (sessionId user)) (users (db w)))
  = true
  <-> storedRole w user = Some (lit "doctor").
Proof.
  unfold storedRole, roleIsDoctor.
  destruct (find _ (users (db w))) as [u|]; cbn [option_map].
  - rewrite eqb_eq. split; [now intros -> | now intros [= ->]].
  - split; discriminate.
Qed.

(** [parseInt] passes the white space of ECMA-262: an id that starts
    with a no-break space is read as the number after it. *)
Example parseInt_skips_no_break_space :
  parseInt (ascii_of_nat 194 :: ascii_of_nat 160 :: lit "2") 0 = Num 2.
Proof. reflexivity. Qed.

(** What the blockchain fetch has checked when it returns a record. *)
Lemma fetchPrescription_some (ch : Chain) (id : str) (ua : option str)
      (v : Prescriptions.ChainView) :
  Prescriptions.fetchPrescriptionFromBlockchain ch id ua = Some v ->
  exists n data,
    parseInt id 0 = Num n
    /\ 0 <= n <= maxSafeInteger
    /\ chainPrescriptions ch n = Some data
    /\ chainId data <> 0
    /\ Prescriptions.viewId v = numberToString (chainId data)
    /\ (truthy ua = true -> partyOf data (orElse ua [])).
Proof.
  unfold Prescriptions.fetchPrescriptionFromBlockchain.
  destruct (online ch); [|discriminate].
  destruct (parseInt id 0) as [|n]; [discriminate|].
  destruct (readPrescription ch n) as [data|] eqn:R; [|discriminate].
  destruct (chainId data =? 0) eqn:Z0; [discriminate|].
  destruct (chainDoctors ch _) as [doc|]; [|discriminate].
  destruct (chainPatients ch _) as [pat|]; [|discriminate].
  cbv zeta. destruct (truthy ua && _) eqn:G; [discriminate|].
  intros V. exists n, data. split; [reflexivity|].
  unfold readPrescription in R.
  destruct ((0 <=? n) && (n <=? maxSafeInteger)) eqn:Safe; [|discriminate].
  apply andb_prop in Safe. destruct Safe as [Lo Hi].
  apply Z.leb_le in Lo, Hi.
  split; [split; assumption|]. repeat split.
  - exact R.
  - now apply Z.eqb_neq.
  - now apply chainView_fields in V.
  - intros T. rewrite T in G. cbn [andb] in G. apply negb_false_iff in G.
    apply orb_prop in G. unfold partyOf.
    destruct G as [G | G]; apply eqb_eq in G; auto.
Qed.

Lemma answer_ok (pid : str) (ua : option str) (keep : PrescriptionRow -> bool)
      (w w' : World) (resp : Response) :
  answer pid ua (find keep (prescriptions (db w))) w = (Ok resp, w') ->
  statusCode resp = 200 ->
  w' = w
  /\ ((exists row, body resp = RowJson row
                   /\ In row (prescriptions (db w)) /\ keep row = true)
      \/ (exists v n data address,
            body resp = ViewJson v
            /\ ua = Some address /\ address <> []
            /\ parseInt pid 0 = Num n
            /\ 0 <= n <= maxSafeInteger
            /\ chainPrescriptions (chain w) n = Some data
            /\ chainId data <> 0
            /\ Prescriptions.viewId v = numberToString (chainId data)
            /\ partyOf data address)).
Proof.
  unfold answer, bind, readChain, ret.
  destruct (find keep (prescriptions (db w))) as [row|] eqn:F.
  - intros E _. injection E as <- <-. split; [reflexivity|]. left.
    apply find_some in F. exists row. tauto.
  - destruct (truthy ua) eqn:T.
    + destruct (Prescriptions.fetchPrescriptionFromBlockchain (chain w) pid ua)
        as [v|] eqn:Fv.
      * intros E _. injection E as <- <-. split; [reflexivity|]. right.
        destruct (fetchPrescription_some _ _ _ _ Fv)
          as (n & data & Pn & Safe & Rd & Z0 & Vi & Pa).
        destruct ua as [[|c r]|]; try discriminate T.
        exists v, n, data, (c :: r).
        repeat split; try assumption; try discriminate; try apply Safe.
        now apply Pa.
      * intros E S. injection E as <- <-. discriminate S.
    + intros E S. injection E as <- <-. discriminate S.
Qed.

(** X8.  [GET /api/prescriptions/[id]] shows a prescription only to its
    own doctor or patient.  A 200 answer carries either a database row
    with the requested id that belongs to the session user's profile
    (the doctor profile when the user's role is doctor, the patient
    profile otherwise), or a chain record whose doctor or patient address
    is the non-empty wallet address of that profile, letter case apart;
    and the handler leaves the stores as they were.  The chain record is
    the one at the number that [parseInt] reads from the id, after any
    white space of ECMA-262; that number is a safe integer, so it is the
    double that JavaScript computes. *)
Theorem get_by_id_shows_own_prescriptions_only :
  forall (req : Request) (pid : str) (w w' : World) (resp : Response),
    run (GET req pid) w = (Ok resp, w') ->
    statusCode resp = 200 ->
    w' = w
    /\ exists user,
        session req = Some user
        /\ ((exists row,
               body resp = RowJson row
               /\ In row (prescriptions (db w))
               /\ Store.prescriptionId row = pid
               /\ ownedBy w user row)
            \/ (exists v n data address,
                  body resp = ViewJson v
                  /\ walletOf w user address /\ address <> []
                  /\ parseInt pid 0 = Num n
                  /\ 0 <= n <= maxSafeInteger
                  /\ chainPrescriptions (chain w) n = Some data
                  /\ chainId data <> 0
                  /\ Prescriptions.viewId v = numberToString (chainId data)
                  /\ partyOf data address)).
Proof.
  intros req pid w w' resp. unfold run, GET, tryCatch, bind.
  destruct (session req) as [user|];
    [|unfold ret; intros E S; injection E as <- <-; discriminate S].
  unfold findUser. cbv beta iota.
  pose proof (roleIsDoctor_storedRole w user) as Role.
  destruct (roleIsDoctor _) eqn:RD.
  - (* served as a doctor *)
    assert (SR : storedRole w user = Some (lit "doctor")) by now apply Role.
    unfold findDoctorByUser. cbv beta iota zeta.
    destruct (find _ (doctors (db w))) as [doctor|] eqn:Fd.
    2:{ unfold ret. intros E S. injection E as <- <-. discriminate S. }
    unfold findPrescription. cbv beta iota.
    destruct (answer pid (option_map doctorBlockId (Some doctor))
                (find _ (prescriptions (db w))) w) as [[r|e] w1] eqn:A.
    2:{ unfold ret. intros E S. injection E as <- <-. discriminate S. }
    intros E S. injection E as <- <-.
    destruct (answer_ok _ _ _ _ _ _ A S) as [-> Cases].
    split; [reflexivity|]. exists user. split; [reflexivity|].
    destruct Cases as [(row & B & Hin & K) | (v & n & data & a & B & Ua & Rest)].
    + left. exists row. apply andb_prop in K. destruct K as [K1 K2].
      apply eqb_eq in K1, K2. repeat split; try assumption.
      left. split; [exact SR|]. exists doctor. split; [exact Fd | exact K2].
    + right. exists v, n, data, a. split; [exact B|]. split; [|exact Rest].
      left. split; [exact SR|]. exists doctor. split; [exact Fd|].
      cbn [option_map] in Ua. now injection Ua.
  - (* served as a patient *)
    assert (SR : storedRole w user <> Some (lit "doctor")).
    { intros C. apply Role in C. congruence. }
    unfold findPatientByUser. cbv beta iota zeta.
    destruct (find _ (patients (db w))) as [patient|] eqn:Fp.
    2:{ cbn [option_map truthy]. unfold ret.
        intros E S. injection E as <- <-. discriminate S. }
    unfold findPrescription. cbv beta iota.
    destruct (answer pid (option_map patientBlockId (Some patient))
                (find _ (prescriptions (db w))) w) as [[r|e] w1] eqn:A.
    2:{ unfold ret. intros E S. injection E as <- <-. discriminate S. }
    intros E S. injection E as <- <-.
    destruct (answer_ok _ _ _ _ _ _ A S) as [-> Cases].
    split; [reflexivity|]. exists user. split; [reflexivity|].
    destruct Cases as [(row & B & Hin & K) | (v & n & data & a & B & Ua & Rest)].
    + left. exists row. apply andb_prop in K. destruct K as [K1 K2].
      apply eqb_eq in K1, K2. repeat split; try assumption.
      right. split; [exact SR|]. exists patient. split; [exact Fp | exact K2].
    + right. exists v, n, data, a. split; [exact B|]. split; [|exact Rest].
      right. split; [exact SR|]. exists patient. split; [exact Fp|].
      cbn [option_map] in Ua. now injection Ua.
Qed.

(** X9.  A user whose role is not doctor and who has no patient profile
    is always answered with 404 by [GET /api/prescriptions/[id]]: the
    wallet address is taken from the missing profile, so the blockchain
    lookup of that branch never runs, whatever the chain holds. *)
Theorem get_by_id_without_patient_profile_is_404 :
  forall (req : Request) (pid : str) (w : World) (user : SessionUser),
    session req = Some user ->
    storedRole w user <> Some (lit "doctor") ->
    patientOf w user = None ->
    run (GET req pid) w =
      (Ok {| statusCode := 404;
             body :=
               Text (lit "Patient not found and no blockchain data available") |},
       w).
Proof.
  intros req pid w user Hs Hrole Hp.
  unfold run, GET, tryCatch, bind. rewrite Hs.
  unfold findUser. cbv beta iota.
  pose proof (roleIsDoctor_storedRole w user) as Role.
  destruct (roleIsDoctor _).
  - exfalso. apply Hrole. now apply Role.
  - unfold findPatientByUser. cbv beta iota zeta.
    unfold patientOf in Hp. rewrite Hp. reflexivity.
Qed.

End ById.

Section ByIdUpdate.
Import JS Dates Store Eff PrescriptionById Spec Access.
Context {O : Orm}.

(** X10.  [PUT /api/prescriptions/[id]] never throws, never touches the
    chain or the clock, and hands the body to the database only when the
    session user has a doctor profile that issued the prescription with
    the requested id; every other request leaves the stores as they
    were.  The body itself is passed on as it came. *)
Theorem put_by_id_updates_own_prescriptions_only :
  forall (req : Request) (pid : str) (w : World),
    exists resp w',
      run (PUT req pid) w = (Ok resp, w')
      /\ chain w' = chain w /\ clock w' = clock w
      /\ ((w' = w /\ statusCode resp <> 200)
          \/ exists user doctor row data updated,
               session req = Some user
               /\ doctorOf w user = Some doctor
               /\ In row (prescriptions (db w))
               /\ Store.prescriptionId row = pid
               /\ prescriptionDoctorId row = doctorId doctor
               /\ json req = Some data
               /\ prescriptionUpdate pid data (db w) = Some (updated, db w')
               /\ resp = {| statusCode := 200; body := RowJson updated |}).
Proof.
  intros req pid w. unfold run, PUT, tryCatch, bind.
  destruct (session req) as [user|] eqn:Es.
  2:{ eexists. eexists. split; [reflexivity|].
      repeat split. left. split; [reflexivity | discriminate]. }
  unfold findDoctorByUser. cbv beta iota.
  destruct (find _ (doctors (db w))) as [doctor|] eqn:Fd.
  2:{ eexists. eexists. split; [reflexivity|].
      repeat split. left. split; [reflexivity | discriminate]. }
  unfold reqJson, orThrow.
  destruct (json req) as [data|] eqn:Ej.
  2:{ eexists. eexists. split; [reflexivity|].
      repeat split. left. split; [reflexivity | discriminate]. }
  unfold ret at 1. cbv beta iota. unfold findPrescription. cbv beta iota.
  destruct (find _ (prescriptions (db w))) as [row|] eqn:Fr.
  2:{ eexists. eexists. split; [reflexivity|].
      repeat split. left. split; [reflexivity | discriminate]. }
  unfold updatePrescription.
  destruct (prescriptionUpdate pid data (db w)) as [[updated d]|] eqn:Eu.
  - eexists. eexists. split; [reflexivity|]. cbn [chain clock db].
    repeat split. right.
    apply find_some in Fr. destruct Fr as [Hin K].
    apply andb_prop in K. destruct K as [K1 K2]. apply eqb_eq in K1, K2.
    exists user, doctor, row, data, updated.
    repeat split; assumption || reflexivity.
  - eexists. eexists. split; [reflexivity|].
    repeat split. left. split; [reflexivity | discriminate].
Qed.

End ByIdUpdate.

(** ** Booking an appointment *)

Section Bookings.
Import JS Store Eff Appointments Spec Booking.
Context {P : Platform}.

Lemma conflicts_overlapping (a : AppointmentRow) (s e : Z)
      (doctor patient : str) :
  conflicts doctor patient s e a = true ->
  overlapping a s e
  /\ (appointmentDoctorId a = doctor \/ appointmentPatientId a = patient).
Proof.
  unfold conflicts, overlapping, active. intros H.
  apply orb_prop in H.
  destruct H as [H | H];
    repeat (apply andb_prop in H; destruct H as [H ?]);
    apply eqb_eq in H;
    (split;
     [ split;
       [ destruct (status a); auto; discriminate
       | split; [now apply Z.leb_le | apply Z.le_ge; now apply Z.geb_le] ]
     | auto ]).
Qed.

Lemma slotFree_no_conflict (w : World) (doctor patient : str) (s e : Z) :
  slotFree w doctor patient s e ->
  find (conflicts doctor patient s e) (appointments (db w)) = None.
Proof.
  intros Free.
  destruct (find _ (appointments (db w))) as [a|] eqn:F; [|reflexivity].
  apply find_some in F. destruct F as [Hin C].
  apply conflicts_overlapping in C. destruct C as [Ov Who].
  destruct (Free a Hin Ov) as [Nd Np]. destruct Who; contradiction.
Qed.

(** What [POST] does with a valid body of an authenticated user. *)
Lemma post_valid (req : Request) (w : World) (user : SessionUser)
      (j : JSON.value) (parsed : AppointmentRequest) :
  session req = Some user ->
  json req = Some j ->
  appointmentSchema j = inr parsed ->
  served w user = true ->
  run (POST req) w =
    match doctorById w (bodyDoctorId parsed) with
    | None =>
        (Ok {| statusCode := 404; body := Text (lit "Doctor not found") |},
         withProfile w user)
    | Some _ =>
        match find (conflicts (bodyDoctorId parsed) (servedPatientId w user)
                              (dateOfText (bodyStartTime parsed))
                              (dateOfText (bodyEndTime parsed)))
                   (appointments (db w)) with
        | Some _ =>
            (Ok {| statusCode := 409;
                   body := Text (lit "Time slot not available") |},
             withProfile w user)
        | None =>
            let row :=
              newAppointment (withProfile w user) (bodyDoctorId parsed)
                             (servedPatientId w user)
                             (dateOfText (bodyStartTime parsed))
                             (dateOfText (bodyEndTime parsed)) in
            (Ok {| statusCode := 200; body := Created row |},
             withAppointment (withProfile w user) row)
        end
    end.
Proof.
  intros Hs Hj Hp Hserved.
  unfold run, POST, tryCatch, bind. rewrite Hs.
  unfold reqJson, orThrow. rewrite Hj. unfold ret at 1. cbv beta iota.
  rewrite Hp. unfold zodParse, ret at 1. cbv beta iota.
  unfold findPatientByUser. cbv beta iota.
  unfold served in Hserved.
  unfold withProfile, servedPatientId, patientOf, doctorById in *.
  destruct (find _ (patients (db w))) as [patient|] eqn:Hpatient.
  - unfold ret at 1. cbv beta iota. unfold findDoctor. cbv beta iota.
    destruct (find _ (doctors (db w))); [|reflexivity].
    cbv beta iota. unfold findAccessRequest, findConflict. cbv beta iota.
    destruct (find (conflicts _ _ _ _) _); reflexivity.
  - unfold mathRandomHex. cbv beta iota.
    unfold createPatient. cbv beta iota.
    unfold updateUserRole, setDb. cbn [db users]. rewrite Hserved.
    cbv beta iota.
    unfold ret at 1. cbv beta iota.
    unfold findDoctor. cbn [db doctors].
    destruct (find _ (doctors (db w))); [|reflexivity].
    cbv beta iota. unfold findAccessRequest, findConflict.
    cbn [db appointments patientId].
    destruct (find (conflicts _ _ _ _) _); reflexivity.
Qed.

(** What [POST] does with a valid body of a user who has neither a
    patient profile nor a row in the users table: the update of the role
    is refused. *)
Lemma post_refused (req : Request) (w : World) (user : SessionUser)
      (j : JSON.value) (parsed : AppointmentRequest) :
  session req = Some user ->
  json req = Some j ->
  appointmentSchema j = inr parsed ->
  served w user = false ->
  exists w',
    run (POST req) w =
      (Ok {| statusCode := 500;
             body := ErrorJson (lit "Internal server error") |}, w')
    /\ users (db w') = users (db w)
    /\ appointments (db w') = appointments (db w)
    /\ doctors (db w') = doctors (db w)
    /\ prescriptions (db w') = prescriptions (db w)
    /\ accessRequests (db w') = accessRequests (db w)
    /\ chain w' = chain w
    /\ clock w' = clock w.
Proof.
  intros Hs Hj Hp Hserved.
  unfold run, POST, tryCatch, bind. rewrite Hs.
  unfold reqJson, orThrow. rewrite Hj. unfold ret at 1. cbv beta iota.
  rewrite Hp. unfold zodParse, ret at 1. cbv beta iota.
  unfold findPatientByUser. cbv beta iota.
  unfold served, patientOf in Hserved.
  destruct (find _ (patients (db w))) as [patient|]; [discriminate Hserved|].
  unfold mathRandomHex. cbv beta iota.
  unfold createPatient. cbv beta iota.
  unfold updateUserRole, setDb. cbn [db users]. rewrite Hserved.
  cbv beta iota. eexists. split; [reflexivity|]. repeat split.
Qed.

(** A request that is answered with 200 had a session, a valid body, an
    existing doctor and a free slot. *)
Lemma post_200 (req : Request) (w w' : World) (resp : Response) :
  run (POST req) w = (Ok resp, w') ->
  statusCode resp = 200 ->
  exists user j parsed doctor,
    session req = Some user
    /\ json req = Some j
    /\ appointmentSchema j = inr parsed
    /\ served w user = true
    /\ doctorById w (bodyDoctorId parsed) = Some doctor
    /\ find (conflicts (bodyDoctorId parsed) (servedPatientId w user)
                       (dateOfText (bodyStartTime parsed))
                       (dateOfText (bodyEndTime parsed)))
            (appointments (db w)) = None.
Proof.
  destruct (session req) as [user|] eqn:Es.
  2:{ unfold run, POST, tryCatch, bind. rewrite Es. unfold ret.
      intros E S. injection E as <- <-. discriminate S. }
  destruct (json req) as [j|] eqn:Ej.
  2:{ unfold run, POST, tryCatch, bind. rewrite Es.
      unfold reqJson, orThrow. rewrite Ej. unfold throw, ret.
      intros E S. injection E as <- <-. discriminate S. }
  destruct (appointmentSchema j) as [issues|parsed] eqn:Ep.
  { unfold run, POST, tryCatch, bind. rewrite Es.
    unfold reqJson, orThrow. rewrite Ej. unfold ret at 1. cbv beta iota.
    rewrite Ep. unfold zodParse, throw, ret.
    intros E S. injection E as <- <-. discriminate S. }
  destruct (served w user) eqn:Hserved.
  2:{ destruct (post_refused req w user j parsed Es Ej Ep Hserved)
        as (w1 & R & _).
      rewrite R. intros E S. injection E as <- <-. discriminate S. }
  rewrite (post_valid req w user j parsed Es Ej Ep Hserved).
  destruct (doctorById w (bodyDoctorId parsed)) as [doctor|] eqn:Ed.
  2:{ intros E S. injection E as <- <-. discriminate S. }
  destruct (find (conflicts _ _ _ _) _) eqn:Ec.
  { intros E S. injection E as <- <-. discriminate S. }
  intros _ _. exists user, j, parsed, doctor. repeat split; assumption.
Qed.

Lemma served_known (w : World) (user : SessionUser) :
  patientOf w user <> None \/ userKnown w user -> served w user = true.
Proof.
  unfold served. intros [H | H].
  - destruct (patientOf w user); [reflexivity | now contradiction H].
  - destruct (patientOf w user); [reflexivity|].
    now apply userKnown_existsb.
Qed.

(** Once the user has a profile, the profile is found. *)
Lemma withProfile_served (w : World) (user : SessionUser) :
  exists patient,
    patientOf (withProfile w user) user = Some patient
    /\ patientId patient = servedPatientId w user.
Proof.
  unfold withProfile, servedPatientId.
  destruct (patientOf w user) as [patient|] eqn:E.
  - exists patient. split; [exact E | reflexivity].
  - exists (placeholder w user). split; [|reflexivity].
    unfold patientOf in *. cbn [db patients].
    rewrite (find_app_none _ _ _ E). cbn [find placeholder patientUserId].
    now rewrite eqb_refl.
Qed.

(** X11.  A booking into a free slot succeeds: an authenticated request
    with a valid body and an existing doctor, made by a user who has a
    patient profile or a row in the users table, while no pending or
    confirmed appointment of that doctor or of the requesting patient
    meets the requested range, is answered with 200, and one pending
    appointment of that doctor and patient with the requested times is
    appended.  Nothing else is asked for: the start need not come before
    the end, and no access request need exist. *)
Theorem appointment_in_free_slot_is_booked :
  forall (req : Request) (w : World) (user : SessionUser)
         (j : JSON.value) (parsed : AppointmentRequest) (doctor : DoctorRow),
    session req = Some user ->
    json req = Some j ->
    appointmentSchema j = inr parsed ->
    doctorById w (bodyDoctorId parsed) = Some doctor ->
    (patientOf w user <> None \/ userKnown w user) ->
    slotFree w (bodyDoctorId parsed) (servedPatientId w user)
             (dateOfText (bodyStartTime parsed))
             (dateOfText (bodyEndTime parsed)) ->
    exists row w',
      run (POST req) w =
        (Ok {| statusCode := 200; body := Created row |}, w')
      /\ appointments (db w') = appointments (db w) ++ [row]
      /\ appointmentDoctorId row = bodyDoctorId parsed
      /\ appointmentPatientId row = servedPatientId w user
      /\ startTime row = dateOfText (bodyStartTime parsed)
      /\ endTime row = dateOfText (bodyEndTime parsed)
      /\ status row = PENDING.
Proof.
  intros req w user j parsed doctor Hs Hj Hp Hd Known Free.
  rewrite (post_valid req w user j parsed Hs Hj Hp (served_known _ _ Known)),
    Hd.
  rewrite (slotFree_no_conflict _ _ _ _ _ Free). cbv zeta.
  eexists. eexists. split; [reflexivity|].
  split; [|repeat split].
  unfold withAppointment, withProfile. cbn [db appointments].
  destruct (patientOf w user); reflexivity.
Qed.

(** X12.  A valid booking request of a user who has a row in the users
    table and no patient profile gives the user a placeholder profile and
    the role patient, whatever the answer is: also when the doctor is not
    found (404) or the slot is taken (409).  The profile carries the fixed placeholder data and a
    wallet address made of [0x] and the random digits, and every user row
    with the id of the session is left with the role patient, a doctor's
    too. *)
Theorem booking_creates_placeholder_profile :
  forall (req : Request) (w : World) (user : SessionUser)
         (j : JSON.value) (parsed : AppointmentRequest),
    session req = Some user ->
    json req = Some j ->
    appointmentSchema j = inr parsed ->
    userKnown w user ->
    patientOf w user = None ->
    exists resp w',
      run (POST req) w = (Ok resp, w')
      /\ In (statusCode resp) [200; 404; 409]
      /\ patients (db w') = patients (db w) ++ [placeholder w user]
      /\ patientOf w' user = Some (placeholder w user)
      /\ List.length (users (db w')) = List.length (users (db w))
      /\ (forall u, In u (users (db w')) ->
                    userId u = sessionId user -> userRole u = lit "patient")
      /\ (forall u, In u (users (db w)) ->
                    userId u <> sessionId user -> In u (users (db w'))).
Proof.
  intros req w user j parsed Hs Hj Hp Known Hnone.
  rewrite (post_valid req w user j parsed Hs Hj Hp
             (served_known _ _ (or_intror Known))).
  assert (Found : patientOf (withProfile w user) user
                  = Some (placeholder w user)).
  { unfold withProfile. rewrite Hnone. unfold patientOf in *.
    cbn [db patients]. rewrite (find_app_none _ _ _ Hnone).
    cbn [find placeholder patientUserId]. now rewrite eqb_refl. }
  assert (Roles : forall u, In u (users (db (withProfile w user))) ->
                            userId u = sessionId user ->
                            userRole u = lit "patient").
  { unfold withProfile. rewrite Hnone. cbn [db users].
    intros u Hin Hid. apply in_map_iff in Hin. destruct Hin as (u0 & E & _).
    destruct (eqb (userId u0) (sessionId user)) eqn:Q.
    - now subst u.
    - subst u0. rewrite Hid, eqb_refl in Q. discriminate Q. }
  assert (Others : forall u, In u (users (db w)) ->
                             userId u <> sessionId user ->
                             In u (users (db (withProfile w user)))).
  { unfold withProfile. rewrite Hnone. cbn [db users].
    intros u Hin Hid. apply in_map_iff. exists u. split; [|exact Hin].
    destruct (eqb (userId u) (sessionId user)) eqn:Q; [|reflexivity].
    apply eqb_eq in Q. contradiction. }
  assert (Len : List.length (users (db (withProfile w user)))
                = List.length (users (db w))).
  { unfold withProfile. rewrite Hnone. cbn [db users]. apply length_map. }
  assert (Pats : patients (db (withProfile w user))
                 = patients (db w) ++ [placeholder w user]).
  { unfold withProfile. now rewrite Hnone. }
  destruct (doctorById w (bodyDoctorId parsed)).
  - destruct (find (conflicts _ _ _ _) _).
    + eexists. eexists. split; [reflexivity|].
      split; [cbn; tauto|]. repeat split; assumption.
    + cbv zeta. eexists. eexists. split; [reflexivity|].
      split; [cbn; tauto|]. repeat split; assumption.
  - eexists. eexists. split; [reflexivity|].
    split; [cbn; tauto|]. repeat split; assumption.
Qed.

Lemma withProfile_keeps (w : World) (user : SessionUser) :
  doctors (db (withProfile w user)) = doctors (db w)
  /\ appointments (db (withProfile w user)) = appointments (db w)
  /\ prescriptions (db (withProfile w user)) = prescriptions (db w)
  /\ accessRequests (db (withProfile w user)) = accessRequests (db w)
  /\ chain (withProfile w user) = chain w
  /\ clock (withProfile w user) = clock w.
Proof.
  unfold withProfile. destruct (patientOf w user); repeat split.
Qed.

Ltac answered :=
  cbn [statusCode body];
  (split; [cbn; tauto|]);
  repeat split; try assumption; try reflexivity; intros;
  try discriminate; try congruence;
  try match goal with
      | H : _ \/ _ |- _ => destruct H; discriminate
      end.

(** X13.  [POST /api/appointments] never throws and answers with one of
    200, 400, 401, 404, 409 and 500.  An answer 400 or 401 leaves the
    stores as they were; only an answer 200 changes the appointments,
    by appending the one appointment that it returns; and no answer
    touches the doctors, the prescriptions, the access requests, the
    chain or the clock. *)
Theorem appointment_post_answers :
  forall (req : Request) (w : World),
    exists resp w',
      run (POST req) w = (Ok resp, w')
      /\ In (statusCode resp) [200; 400; 401; 404; 409; 500]
      /\ (statusCode resp = 400 \/ statusCode resp = 401 -> w' = w)
      /\ (statusCode resp <> 200 ->
          appointments (db w') = appointments (db w))
      /\ (statusCode resp = 200 ->
          exists row, body resp = Created row
                      /\ appointments (db w') = appointments (db w) ++ [row])
      /\ doctors (db w') = doctors (db w)
      /\ prescriptions (db w') = prescriptions (db w)
      /\ accessRequests (db w') = accessRequests (db w)
      /\ chain w' = chain w
      /\ clock w' = clock w.
Proof.
  intros req w.
  destruct (session req) as [user|] eqn:Es.
  2:{ unfold run, POST, tryCatch, bind. rewrite Es. unfold ret.
      eexists. eexists. split; [reflexivity|]. answered. }
  destruct (json req) as [j|] eqn:Ej.
  2:{ unfold run, POST, tryCatch, bind. rewrite Es.
      unfold reqJson, orThrow. rewrite Ej. unfold throw, ret.
      eexists. eexists. split; [reflexivity|]. answered. }
  destruct (appointmentSchema j) as [issues|parsed] eqn:Ep.
  { unfold run, POST, tryCatch, bind. rewrite Es.
    unfold reqJson, orThrow. rewrite Ej. unfold ret at 1. cbv beta iota.
    rewrite Ep. unfold zodParse, throw, ret.
    eexists. eexists. split; [reflexivity|]. answered. }
  destruct (served w user) eqn:Hserved.
  2:{ destruct (post_refused req w user j parsed Es Ej Ep Hserved)
        as (w1 & R & _ & Ka & Kd & Kp & Kr & Kc & Kt).
      rewrite R. eexists. eexists. split; [reflexivity|]. answered. }
  rewrite (post_valid req w user j parsed Es Ej Ep Hserved).
  destruct (withProfile_keeps w user) as (Kd & Ka & Kp & Kr & Kc & Kt).
  destruct (doctorById w (bodyDoctorId parsed)).
  - destruct (find (conflicts _ _ _ _) _).
    + eexists. eexists. split; [reflexivity|]. answered.
    + cbv zeta. eexists. eexists. split; [reflexivity|].
      unfold withAppointment. cbn [db appointments doctors prescriptions
                                      accessRequests chain clock].
      answered.
      eexists. split; [reflexivity|]. now rewrite Ka.
  - eexists. eexists. split; [reflexivity|]. answered.
Qed.

Lemma conflicts_own (w : World) (doctor patient : str) (s e : Z) :
  conflicts doctor patient s e (newAppointment w doctor patient s e)
  = (s <=? e).
Proof.
  unfold conflicts, newAppointment, active.
  cbn [appointmentDoctorId appointmentPatientId startTime endTime status].
  rewrite !eqb_refl, Z.geb_leb. cbn [andb].
  destruct (s <=? e); reflexivity.
Qed.

(** X14.  A booking that succeeded is refused when it is sent again,
    provided its start is not after its end: the same request in the
    world that the first one left is answered with 409 and changes
    nothing.  A booking whose end is before its start is accepted, meets
    no range, not even its own, and is stored again each time it is
    sent. *)
Theorem repeated_booking :
  forall (req : Request) (w w1 : World) (resp : Response),
    run (POST req) w = (Ok resp, w1) ->
    statusCode resp = 200 ->
    exists first,
      body resp = Created first
      /\ (startTime first <= endTime first ->
          run (POST req) w1 =
            (Ok {| statusCode := 409;
                   body := Text (lit "Time slot not available") |}, w1))
      /\ (endTime first < startTime first ->
          exists second w2,
            run (POST req) w1 =
              (Ok {| statusCode := 200; body := Created second |}, w2)
            /\ appointments (db w2)
               = appointments (db w) ++ [first; second]
            /\ appointmentDoctorId second = appointmentDoctorId first
            /\ appointmentPatientId second = appointmentPatientId first
            /\ startTime second = startTime first
            /\ endTime second = endTime first).
Proof.
  intros req w w1 resp E S.
  destruct (post_200 req w w1 resp E S)
    as (user & j & parsed & doctor & Hs & Hj & Hp & Hserved & Hd & Hc).
  rewrite (post_valid req w user j parsed Hs Hj Hp Hserved), Hd, Hc in E.
  cbv zeta in E. injection E as <- <-.
  set (w0 := withProfile w user).
  set (row := newAppointment w0 (bodyDoctorId parsed)
                             (servedPatientId w user)
                             (dateOfText (bodyStartTime parsed))
                             (dateOfText (bodyEndTime parsed))).
  exists row. split; [reflexivity|].
  destruct (withProfile_keeps w user) as (Kd & Ka & _).
  destruct (withProfile_served w user) as (patient & Fp & Pid).
  assert (Fp1 : patientOf (withAppointment w0 row) user = Some patient)
    by exact Fp.
  assert (Served : servedPatientId (withAppointment w0 row) user
                   = servedPatientId w user).
  { unfold servedPatientId at 1. rewrite Fp1. exact Pid. }
  assert (Same : withProfile (withAppointment w0 row) user
                 = withAppointment w0 row).
  { unfold withProfile at 1. now rewrite Fp1. }
  assert (Doc : doctorById (withAppointment w0 row) (bodyDoctorId parsed)
                = Some doctor).
  { unfold doctorById, withAppointment. cbn [db doctors].
    fold w0 in Kd. rewrite Kd. exact Hd. }
  assert (Apps : appointments (db (withAppointment w0 row))
                 = appointments (db w) ++ [row]).
  { unfold withAppointment. cbn [db appointments]. fold w0 in Ka.
    now rewrite Ka. }
  assert (Again : served (withAppointment w0 row) user = true).
  { unfold served. now rewrite Fp1. }
  rewrite (post_valid req _ user j parsed Hs Hj Hp Again),
    Doc, Served, Same, Apps.
  rewrite (find_app_none _ _ _ Hc). cbn [find].
  assert (Own : conflicts (bodyDoctorId parsed) (servedPatientId w user)
                          (dateOfText (bodyStartTime parsed))
                          (dateOfText (bodyEndTime parsed)) row
                = (dateOfText (bodyStartTime parsed)
                   <=? dateOfText (bodyEndTime parsed)))
    by apply conflicts_own.
  rewrite Own.
  split.
  - intros Le.
    assert (Le' : (dateOfText (bodyStartTime parsed)
                   <=? dateOfText (bodyEndTime parsed)) = true)
      by (apply Z.leb_le; exact Le).
    rewrite Le'. reflexivity.
  - intros Lt.
    assert (Gt : (dateOfText (bodyStartTime parsed)
                  <=? dateOfText (bodyEndTime parsed)) = false)
      by (apply Z.leb_gt; exact Lt).
    rewrite Gt. cbv zeta.
    eexists. eexists. split; [reflexivity|].
    split; [|repeat split].
    unfold withAppointment at 1. cbn [db appointments]. rewrite Apps.
    rewrite <- app_assoc. reflexivity.
Qed.

End Bookings.

(** ** The doctor registration form *)

Section Submissions.
Import JS Eff DoctorForm FormRuns.
Context {B : Backend}.

(** The database step of the form. *)
Lemma axiosPost_run (data : FormData) (userId : str) (w : World) :
  run (axiosPost data userId) w =
    match postDoctor (dbDoctors w) data userId with
    | Resolved status =>
        (Ok status,
         {| chainDoctors := chainDoctors w;
            dbDoctors :=
              if status =? 200 then dbDoctors w ++ [userId] else dbDoctors w;
            toasts := toasts w; pushed := pushed w;
            calls := calls w ++ [PostDoctor userId] |})
    | Rejected msg =>
        (Throw {| message := Some msg; errorData := NoDataMessage |},
         {| chainDoctors := chainDoctors w; dbDoctors := dbDoctors w;
            toasts := toasts w; pushed := pushed w;
            calls := calls w ++ [PostDoctor userId] |})
    end.
Proof.
  unfold run, axiosPost, bind, record, modify.
  cbn [chainDoctors dbDoctors toasts pushed calls].
  destruct (postDoctor (dbDoctors w) data userId); reflexivity.
Qed.

Ltac form_simpl :=
  cbv beta iota delta
    [run onSubmit tryCatch bind contractInit contractRegisterDoctor
     axiosPost record toast routerPush modify throw ret orThrow];
  cbn [chainDoctors dbDoctors toasts pushed calls message errorData
       fst snd].

Ltac form_norm :=
  cbv beta iota;
  cbn [chainDoctors dbDoctors toasts pushed calls message errorData
       optionalIncludes fst snd negb].

Ltac form_case :=
  match goal with
  | |- context [initContract ?a] =>
      let E := fresh "Einit" in destruct (initContract a) eqn:E
  | |- context [registerDoctor ?c ?d] =>
      let E := fresh "Ereg" in destruct (registerDoctor c d) eqn:E
  | |- context [postDoctor ?c ?d ?u] =>
      let E := fresh "Epost" in destruct (postDoctor c d u) eqn:E
  | |- context [errorData ?e] =>
      let E := fresh "Emsg" in
      destruct (errorData e) as [|?|[?|]] eqn:E
  | |- context [includes ?n ?m] =>
      let E := fresh "Einc" in destruct (includes n m) eqn:E
  | |- context [if ?b then _ else _] =>
      is_var b; destruct b
  | |- context [?s =? 200] =>
      let E := fresh "Est" in destruct (s =? 200) eqn:E
  end;
  form_norm.

(** X15.  Every submission of the form ends in one of two ways.  Either
    it ends without an exception and with exactly one toast: then the
    database stored the profile, the toast is not destructive and the
    router goes to [/doctor], or the database is as it was, the toast is
    destructive and the router stays; the chain is written at most once,
    and after the contract is initialised at most one [registerDoctor]
    and at most one POST are sent.  Or the contract step failed with an
    error whose [data.message] is a value without [includes]: then the
    [catch] block throws, the submission ends with an uncaught TypeError
    and no toast, nothing is sent to the database, and both stores and
    the router are as they were. *)
Theorem submission_ends_with_one_toast :
  forall (userId : str) (data : FormData) (w : World),
    (exists (t : Toast) (w' : World) (cs : list Call),
        run (onSubmit userId data) w = (Ok tt, w')
        /\ toasts w' = toasts w ++ [t]
        /\ (stored userId w w' t \/ notStored w w' t)
        /\ (chainDoctors w' = chainDoctors w
            \/ chainDoctors w' = chainDoctors w ++ [blockId data])
        /\ calls w' = calls w ++ ContractInit (blockId data) :: cs
        /\ In cs (callsAfterInit userId data))
    \/ (exists (e : JsError) (w' : World),
          chainFailure data w = Some e
          /\ saysRegistered e = None
          /\ run (onSubmit userId data) w = (Throw TypeError, w')
          /\ toasts w' = toasts w
          /\ pushed w' = pushed w
          /\ dbDoctors w' = dbDoctors w
          /\ chainDoctors w' = chainDoctors w
          /\ (calls w' = calls w ++ [ContractInit (blockId data)]
              \/ calls w' =
                 calls w ++ [ContractInit (blockId data);
                             RegisterDoctor (name data) (specialty data)
                                            (fees data)])).
Proof.
  intros userId data w. unfold chainFailure, saysRegistered. form_simpl.
  repeat form_case;
    first
      [ left;
        (eexists; eexists; eexists; split; [reflexivity|]);
        cbn [toasts pushed dbDoctors chainDoctors calls];
        (split; [reflexivity|]);
        (split;
         [first [ left; unfold stored;
                  cbn [toasts pushed dbDoctors destructive];
                  repeat split; reflexivity
                | right; unfold notStored;
                  cbn [toasts pushed dbDoctors destructive];
                  repeat split; reflexivity ]|]);
        (split; [first [left; reflexivity | right; reflexivity]|]);
        (split;
         [ rewrite <- ?app_assoc; reflexivity
         | unfold callsAfterInit;
           solve [repeat (first [left; reflexivity | right])] ])
      | right;
        (eexists; eexists; split; [reflexivity|]);
        (split; [rewrite Emsg; reflexivity|]);
        (split; [reflexivity|]);
        cbn [toasts pushed dbDoctors chainDoctors calls];
        rewrite <- ?app_assoc;
        repeat split;
        first [left; reflexivity | right; reflexivity] ].
Qed.

(** X16.  When the chain refuses the registration with an error whose
    [data.message] contains [Doctor already registered], the form still
    sends the profile to the database, once, and leaves the chain as it
    is.  If the database answers 200 the user is told that the
    registration is completed and is sent to [/doctor]; otherwise the
    toast is destructive and nothing is stored. *)
Theorem already_registered_is_stored_in_database :
  forall (userId : str) (data : FormData) (w : World)
         (e : JsError) (m : str),
    initContract (blockId data) = None ->
    registerDoctor (chainDoctors w) data = Some e ->
    dataMessage e = Some m ->
    includes (lit "Doctor already registered") m = true ->
    exists (t : Toast) (w' : World),
      run (onSubmit userId data) w = (Ok tt, w')
      /\ toasts w' = toasts w ++ [t]
      /\ chainDoctors w' = chainDoctors w
      /\ calls w' =
         calls w ++ [ContractInit (blockId data);
                     RegisterDoctor (name data) (specialty data) (fees data);
                     PostDoctor userId]
      /\ (postDoctor (dbDoctors w) data userId = Resolved 200 ->
          title t = lit "Registration Completed" /\ stored userId w w' t)
      /\ (postDoctor (dbDoctors w) data userId <> Resolved 200 ->
          notStored w w' t).
Proof.
  intros userId data w e m Hinit Hreg Hmsg Hinc.
  assert (Htext : errorData e = DataString m).
  { unfold dataMessage in Hmsg.
    destruct (errorData e); try discriminate Hmsg. now injection Hmsg as ->. }
  form_simpl. rewrite Hinit. form_norm. rewrite Hreg. form_norm.
  rewrite Htext. form_norm. rewrite Hinc. form_norm.
  destruct (postDoctor (dbDoctors w) data userId) as [status|msg] eqn:Epost;
    form_norm.
  - destruct (status =? 200) eqn:Est; form_norm.
    + apply Z.eqb_eq in Est. subst status.
      eexists. eexists. split; [reflexivity|].
      cbn [toasts pushed dbDoctors chainDoctors calls].
      rewrite <- !app_assoc.
      repeat split; try reflexivity; congruence.
    + apply Z.eqb_neq in Est.
      eexists. eexists. split; [reflexivity|].
      cbn [toasts pushed dbDoctors chainDoctors calls].
      rewrite <- !app_assoc.
      repeat split; try reflexivity; congruence.
  - eexists. eexists. split; [reflexivity|].
    cbn [toasts pushed dbDoctors chainDoctors calls].
    rewrite <- !app_assoc.
    repeat split; try reflexivity; congruence.
Qed.

(** X17.  When the contract cannot be initialised or the chain refuses
    the registration, and the error does not say that the doctor is
    registered already, nothing is sent to the database, and both stores
    and the router are as they were.  If the error can be asked, that
    is, its [data.message] is missing, a string or a value with
    [includes], the submission ends with the destructive toast
    [Registration Failed], which quotes the message of the error or
    [Unknown error]; if its [data.message] is a value without
    [includes], the submission ends with an uncaught TypeError and no
    toast. *)
Theorem chain_failure_never_reaches_database :
  forall (userId : str) (data : FormData) (w : World) (e : JsError),
    (initContract (blockId data) = Some e
     \/ (initContract (blockId data) = None
         /\ registerDoctor (chainDoctors w) data = Some e)) ->
    saysRegistered e <> Some true ->
    exists (o : outcome Uncaught unit) (w' : World),
      run (onSubmit userId data) w = (o, w')
      /\ (saysRegistered e = Some false ->
          o = Ok tt /\ toasts w' = toasts w ++ [failedToast e])
      /\ (saysRegistered e = None ->
          o = Throw TypeError /\ toasts w' = toasts w)
      /\ chainDoctors w' = chainDoctors w
      /\ dbDoctors w' = dbDoctors w
      /\ pushed w' = pushed w
      /\ forall c, In c (calls w') ->
                   In c (calls w) \/ c <> PostDoctor userId.
Proof.
  intros userId data w e Hfail Hother. unfold saysRegistered in *.
  form_simpl. destruct Hfail as [Hinit | [Hinit Hreg]].
  - rewrite Hinit. form_norm.
    destruct (optionalIncludes (errorData e) _) as [[|]|];
      [now contradiction Hother| |];
      (eexists; eexists; split; [reflexivity|]);
      cbn [toasts pushed dbDoctors chainDoctors calls];
      (repeat split; try reflexivity; try discriminate);
      intros c Hin; apply in_app_or in Hin;
      (destruct Hin as [Hin | [<- | []]]; [now left | right; discriminate]).
  - rewrite Hinit. form_norm. rewrite Hreg. form_norm.
    destruct (optionalIncludes (errorData e) _) as [[|]|];
      [now contradiction Hother| |];
      (eexists; eexists; split; [reflexivity|]);
      cbn [toasts pushed dbDoctors chainDoctors calls];
      (repeat split; try reflexivity; try discriminate);
      intros c Hin; apply in_app_or in Hin;
      (destruct Hin as [Hin | [<- | []]]; [|right; discriminate]);
      apply in_app_or in Hin;
      (destruct Hin as [Hin | [<- | []]]; [now left | right; discriminate]).
Qed.

End Submissions.

(** ** The appointments list *)

Section Lists.
Import JS Store Eff AppointmentList Spec Access Listing.
Context {C : Client}.

Lemma In_firstn {A} (n : nat) (l : list A) (x : A) :
  In x (firstn n l) -> In x l.
Proof.
  revert l. induction n as [|n IH]; intros [|y l]; cbn [firstn In];
    try tauto.
  intros [-> | H]; [now left | right; now apply IH].
Qed.

Lemma In_skipn {A} (n : nat) (l : list A) (x : A) :
  In x (skipn n l) -> In x l.
Proof.
  revert l. induction n as [|n IH]; intros [|y l]; cbn [skipn In];
    try tauto.
  intros H. right. now apply IH.
Qed.

Lemma sorted_skipn {A} (R : A -> A -> Prop) (n : nat) (l : list A) :
  StronglySorted R l -> StronglySorted R (skipn n l).
Proof.
  revert l. induction n as [|n IH]; intros [|y l] H; cbn [skipn];
    try assumption.
  inversion H; subst. now apply IH.
Qed.

Lemma sorted_firstn {A} (R : A -> A -> Prop) (n : nat) (l : list A) :
  StronglySorted R l -> StronglySorted R (firstn n l).
Proof.
  revert l. induction n as [|n IH]; intros [|y l] H; cbn [firstn];
    try constructor.
  - inversion H; subst. now apply IH.
  - inversion H as [|? ? _ Hy]; subst.
    apply Forall_forall. intros x Hx. apply In_firstn in Hx.
    revert x Hx. now apply Forall_forall.
Qed.

Lemma statusOfText_some (s : str) (st : AppointmentStatus) :
  statusOfText s = Some st -> exists c r, s = c :: r.
Proof.
  destruct s as [|c r]; [discriminate|]. intros _. now exists c, r.
Qed.

Lemma sameStatus_eq (a b : AppointmentStatus) :
  sameStatus a b = true <-> a = b.
Proof. destruct a, b; cbn; split; congruence. Qed.

Lemma asDoctor_storedRole (w : World) (user : SessionUser) :
  asDoctor w user = true <-> storedRole w user = Some (lit "doctor").
Proof.
  unfold asDoctor. destruct (storedRole w user) as [role|].
  - rewrite eqb_eq. split; [now intros -> | now intros [= ->]].
  - split; discriminate.
Qed.

Lemma requested_filter (req : ListRequest)
      (wanted : option AppointmentStatus) (b : bool) (id : str) :
  requested req wanted ->
  statusFilter
    {| byDoctor := b; profileId := id;
       statusIs := if truthy (statusParam req) then statusParam req
                   else None |}
  = Some wanted.
Proof.
  unfold requested, statusFilter. cbn [statusIs].
  destruct (statusParam req) as [[|c s]|]; cbn [truthy];
    try (now intros ->).
  intros [Hne <-].
  destruct (statusOfText (c :: s)); [reflexivity | now contradiction Hne].
Qed.

(** What [GET] answers to a regular request of an authenticated user. *)
Lemma list_regular (req : ListRequest) (w : World) (user : SessionUser)
      (wanted : option AppointmentStatus) (l o : Z) :
  regular req wanted l o ->
  session req = Some user ->
  run (GET req) w =
    match profileOf w user with
    | None =>
        (Ok {| statusCode := 404; body := Text (lit "Profile not found") |}, w)
    | Some _ =>
        (Ok {| statusCode := 200;
               body :=
                 Success
                   (firstn (Z.to_nat l)
                      (skipn (Z.to_nat o)
                         (sortBy latestFirst (visible w user wanted))))
                   {| total := Z.of_nat (List.length (visible w user wanted));
                      limit := Num l; offset := Num o;
                      hasMore :=
                        o + l <? Z.of_nat (List.length (visible w user wanted))
                   |} |}, w)
    end.
Proof.
  intros (Hst & Hl & Rl & Ho & Ro) Hs.
  assert (Bl : (0 <=? l) && (l <? 2 ^ 31) = true)
    by (apply andb_true_intro; split;
        [apply Z.leb_le | apply Z.ltb_lt]; lia).
  assert (Bo : (0 <=? o) && (o <? 2 ^ 31) = true)
    by (apply andb_true_intro; split;
        [apply Z.leb_le | apply Z.ltb_lt]; lia).
  unfold run, GET, tryCatch, bind. rewrite Hs, Hl, Ho.
  unfold findUser. cbv beta iota zeta.
  unfold visible, profileOf, asDoctor, storedRole.
  destruct (find _ (users (db w))) as [u|]; cbn [option_map].
  - destruct (eqb (userRole u) (lit "doctor")).
    + unfold findDoctorId, doctorOf. cbv beta iota.
      destruct (find _ (doctors (db w))) as [d|]; cbn [option_map];
        [|reflexivity].
      unfold findMany, count. rewrite (requested_filter _ _ _ _ Hst).
      unfold int32. rewrite Bl, Bo. reflexivity.
    + unfold findPatientId, patientOf. cbv beta iota.
      destruct (find _ (patients (db w))) as [p|]; cbn [option_map];
        [|reflexivity].
      unfold findMany, count. rewrite (requested_filter _ _ _ _ Hst).
      unfold int32. rewrite Bl, Bo. reflexivity.
  - unfold findPatientId, patientOf. cbv beta iota.
    destruct (find _ (patients (db w))) as [p|]; cbn [option_map];
      [|reflexivity].
    unfold findMany, count. rewrite (requested_filter _ _ _ _ Hst).
    unfold int32. rewrite Bl, Bo. reflexivity.
Qed.

Lemma visible_mine (w : World) (user : SessionUser)
      (wanted : option AppointmentStatus) (a : AppointmentRow) :
  In a (visible w user wanted) ->
  In a (appointments (db w)) /\ mine w user a /\ wantedBy wanted a.
Proof.
  unfold visible, profileOf, mine.
  pose proof (asDoctor_storedRole w user) as Role.
  destruct (asDoctor w user).
  - destruct (doctorOf w user) as [d|]; cbn [option_map]; [|contradiction].
    intros H. apply filter_In in H. destruct H as [Hin K].
    unfold selects in K. cbn [byDoctor profileId] in K.
    apply andb_prop in K. destruct K as [K1 K2]. apply eqb_eq in K1.
    split; [exact Hin|]. split.
    + left. split; [now apply Role|]. now exists d.
    + destruct wanted; cbn; [now apply sameStatus_eq | exact I].
  - destruct (patientOf w user) as [p|]; cbn [option_map]; [|contradiction].
    intros H. apply filter_In in H. destruct H as [Hin K].
    unfold selects in K. cbn [byDoctor profileId] in K.
    apply andb_prop in K. destruct K as [K1 K2]. apply eqb_eq in K1.
    split; [exact Hin|]. split.
    + right. split; [|now exists p].
      intros R. apply Role in R. discriminate R.
    + destruct wanted; cbn; [now apply sameStatus_eq | exact I].
Qed.

(** A request that is answered with 200 had a session, and a regular
    one is answered with the page of the visible appointments. *)
Lemma list_200 (req : ListRequest) (w w' : World) (resp : Response)
      (wanted : option AppointmentStatus) (l o : Z) :
  regular req wanted l o ->
  run (GET req) w = (Ok resp, w') ->
  statusCode resp = 200 ->
  w' = w
  /\ exists user,
      session req = Some user
      /\ body resp =
         Success
           (firstn (Z.to_nat l)
              (skipn (Z.to_nat o)
                 (sortBy latestFirst (visible w user wanted))))
           {| total := Z.of_nat (List.length (visible w user wanted));
              limit := Num l; offset := Num o;
              hasMore :=
                o + l <? Z.of_nat (List.length (visible w user wanted)) |}.
Proof.
  intros Reg. destruct (session req) as [user|] eqn:Es.
  - rewrite (list_regular req w user wanted l o Reg Es).
    destruct (profileOf w user).
    + intros E _. injection E as <- <-. split; [reflexivity|].
      exists user. split; reflexivity.
    + intros E S. injection E as <- <-. discriminate S.
  - unfold run, GET, tryCatch, bind. rewrite Es. unfold ret.
    intros E S. injection E as <- <-. discriminate S.
Qed.

(** X18.  The appointments list shows a user only the user's own
    appointments.  For a request whose status, limit and offset the
    database client takes, a 200 answer leaves the stores as they were
    and carries rows of the appointments table that belong to the
    doctor profile of the session user when the role of the user is
    doctor, to the patient profile otherwise, and that have the status
    asked for; the rows are ordered by start time, latest first, and are
    no more than the limit. *)
Theorem appointment_list_shows_own_appointments :
  forall (req : ListRequest) (w w' : World) (resp : Response)
         (wanted : option AppointmentStatus) (l o : Z),
    regular req wanted l o ->
    run (GET req) w = (Ok resp, w') ->
    statusCode resp = 200 ->
    w' = w
    /\ exists user data page,
        session req = Some user
        /\ body resp = Success data page
        /\ (forall a, In a data ->
                      In a (appointments (db w))
                      /\ mine w user a /\ wantedBy wanted a)
        /\ StronglySorted (Spec.notOlder startTime) data
        /\ Z.of_nat (List.length data) <= l.
Proof.
  intros req w w' resp wanted l o Reg E S.
  destruct (list_200 req w w' resp wanted l o Reg E S) as (-> & user & Hs & B).
  split; [reflexivity|]. eexists. eexists. eexists.
  split; [exact Hs|]. split; [exact B|]. split; [|split].
  - intros a Hin. apply In_firstn, In_skipn in Hin.
    apply (Permutation_in _ (sortBy_perm latestFirst _)) in Hin.
    now apply visible_mine.
  - apply sorted_firstn, sorted_skipn.
    apply (sortBy_sorted startTime latestFirst). reflexivity.
  - rewrite length_firstn. destruct Reg as (_ & _ & Rl & _). lia.
Qed.

(** X19.  The pagination of the appointments list is right.  For a
    request whose status, limit and offset the database client takes,
    the total of a 200 answer is the number of all appointments of the
    user with the status asked for, limit and offset are echoed, the
    page holds the rows that the offset leaves, up to the limit, and
    [hasMore] is true exactly when rows remain after the page. *)
Theorem appointment_list_pagination :
  forall (req : ListRequest) (w w' : World) (resp : Response)
         (wanted : option AppointmentStatus) (l o : Z),
    regular req wanted l o ->
    run (GET req) w = (Ok resp, w') ->
    statusCode resp = 200 ->
    exists user data page,
      session req = Some user
      /\ body resp = Success data page
      /\ total page = Z.of_nat (List.length (visible w user wanted))
      /\ limit page = Num l
      /\ offset page = Num o
      /\ Z.of_nat (List.length data) = Z.min l (Z.max 0 (total page - o))
      /\ (hasMore page = true <-> o + Z.of_nat (List.length data) < total page).
Proof.
  intros req w w' resp wanted l o Reg E S.
  destruct (list_200 req w w' resp wanted l o Reg E S) as (_ & user & Hs & B).
  destruct Reg as (_ & _ & Rl & _ & Ro).
  eexists. eexists. eexists.
  split; [exact Hs|]. split; [exact B|]. cbn [total limit offset hasMore].
  assert (Len : List.length (sortBy latestFirst (visible w user wanted))
                = List.length (visible w user wanted))
    by (apply Permutation_length, sortBy_perm).
  rewrite length_firstn, length_skipn, Len.
  repeat split; lia.
Qed.

End Lists.

(** ** The medication rows of the anonymous form *)

Section MedicationRows.
Import JS AnonymousForm FormEdits.

Lemma filter_after {A} (k index : nat) (l : list A) :
  (index < k)%nat ->
  map snd (filter (fun im => negb (fst im =? index)%nat)
                  (combine (seq k (List.length l)) l)) = l.
Proof.
  revert k. induction l as [|x l IH]; intros k Lt; [reflexivity|].
  cbn [List.length seq combine filter fst].
  assert (E : (k =? index)%nat = false) by (apply Nat.eqb_neq; lia).
  rewrite E. cbn [negb map snd]. f_equal. apply IH. lia.
Qed.

Lemma filter_index {A} (k i : nat) (l : list A) :
  map snd (filter (fun im => negb (fst im =? k + i)%nat)
                  (combine (seq k (List.length l)) l))
  = firstn i l ++ skipn (S i) l.
Proof.
  revert k i. induction l as [|x l IH]; intros k i.
  - now destruct i.
  - cbn [List.length seq combine filter fst]. destruct i as [|i].
    + rewrite Nat.add_0_r, Nat.eqb_refl. cbn [negb firstn skipn app].
      apply filter_after. lia.
    + assert (E : (k =? k + S i)%nat = false) by (apply Nat.eqb_neq; lia).
      rewrite E. cbn [negb map snd firstn skipn app]. f_equal.
      replace (k + S i)%nat with (S k + i)%nat by lia. apply IH.
Qed.

Lemma removeMedication_spec (index : nat)
      (medications : list ZkProofs.Medication) :
  removeMedication index medications =
    if (1 <? List.length medications)%nat
    then firstn index medications ++ skipn (S index) medications
    else medications.
Proof.
  unfold removeMedication, indexed.
  destruct (1 <? List.length medications)%nat; [|reflexivity].
  apply (filter_index 0 index).
Qed.

Lemma apply_nonempty (e : Edit) (medications : list ZkProofs.Medication) :
  medications <> [] -> apply medications e <> [].
Proof.
  intros Ne. destruct e as [|index|index field value]; cbn [apply].
  - unfold addMedication. intros E. now apply app_eq_nil in E.
  - rewrite removeMedication_spec.
    destruct (1 <? List.length medications)%nat eqn:L; [|exact Ne].
    apply Nat.ltb_lt in L. intros E.
    apply (f_equal (@List.length _)) in E.
    rewrite length_app, length_firstn, length_skipn in E. cbn in E. lia.
  - unfold updateMedication, indexed. intros E.
    apply (f_equal (@List.length _)) in E.
    rewrite length_map, length_combine, length_seq in E. cbn in E.
    destruct medications; [now apply Ne | cbn in E; lia].
Qed.

(** X20.  The anonymous-prescription form never loses its last
    medication row: whatever rows are added, removed and changed, in
    whatever order, a list that has a row keeps one.  Removing the row at
    an index takes out that row only, and only while more than one row is
    there; an index past the end removes nothing. *)
Theorem medication_rows_never_run_out :
  forall (edits : list Edit) (medications : list ZkProofs.Medication),
    medications <> [] ->
    edited edits medications <> []
    /\ (forall index,
          removeMedication index medications =
            if (1 <? List.length medications)%nat
            then firstn index medications ++ skipn (S index) medications
            else medications)
    /\ (forall index,
          (List.length medications <= index)%nat ->
          removeMedication index medications = medications).
Proof.
  intros edits medications Ne. split; [|split].
  - revert medications Ne. unfold edited.
    induction edits as [|e edits IH]; intros medications Ne;
      cbn [fold_left]; [exact Ne|].
    apply IH. now apply apply_nonempty.
  - intros index. apply removeMedication_spec.
  - intros index Le. rewrite removeMedication_spec.
    destruct (1 <? List.length medications)%nat; [|reflexivity].
    rewrite firstn_all2 by exact Le.
    rewrite skipn_all2 by lia. apply app_nil_r.
Qed.

Lemma nth_error_indexed {A} (k i : nat) (l : list A) :
  nth_error (combine (seq k (List.length l)) l) i
  = option_map (fun x => ((k + i)%nat, x)) (nth_error l i).
Proof.
  revert k i. induction l as [|x l IH]; intros k i.
  - now destruct i.
  - cbn [List.length seq combine]. destruct i as [|i]; cbn [nth_error].
    + now rewrite Nat.add_0_r.
    + rewrite IH. replace (S k + i)%nat with (k + S i)%nat by lia.
      reflexivity.
Qed.

(** X21.  [updateMedication] writes one field of one row: the row at
    the index has the new value in the field and its other fields as
    before, every other row is as before, the number of rows is the same,
    and an index past the end changes nothing. *)
Theorem update_changes_one_field :
  forall (index : nat) (field : Field) (value : str)
         (medications : list ZkProofs.Medication) (i : nat),
    nth_error (updateMedication index field value medications) i =
      match nth_error medications i with
      | Some med =>
          Some (if (i =? index)%nat then withField med field value else med)
      | None => None
      end
    /\ List.length (updateMedication index field value medications)
       = List.length medications
    /\ (forall med,
          fieldOf (withField med field value) field = value
          /\ forall other, other <> field ->
                           fieldOf (withField med field value) other
                           = fieldOf med other).
Proof.
  intros index field value medications i. split; [|split].
  - unfold updateMedication, indexed.
    rewrite nth_error_map, nth_error_indexed.
    destruct (nth_error medications i); reflexivity.
  - unfold updateMedication, indexed.
    rewrite length_map, length_combine, length_seq. lia.
  - intros med. split; [now destruct field|].
    intros other Ne. destruct field, other; try reflexivity;
      now contradiction Ne.
Qed.

End MedicationRows.

(** ** Further runs in the sample clinic *)

Section MoreRuns.
Import JS Dates Store Eff Spec.

(** The theorems on the sample prescription. *)
Lemma commitment_words_round_trip_witness :
  exists (digest : list byte) (commitment : str),
    run (ZkProofs.generateCommitment samplePrescription) atIssue
    = (Ok commitment, atIssue)
    /\ List.length digest = 32%nat
    /\ ZkProofs.parseCommitmentForContract commitment
       = map Num (Words.wordsOfBytes digest)
    /\ lit "0x"
         ++ flat_map chunkText (ZkProofs.parseCommitmentForContract commitment)
       = commitment.
Proof.
  destruct (commitment_words_round_trip samplePrescription atIssue eq_refl)
    as (digest & commitment & R & L & _ & _ & P & _ & _ & B).
  exists digest, commitment. repeat split; assumption.
Defined.

Lemma witness_input_fields_witness :
  exists wi : ZkProofs.WitnessInput,
    run (ZkProofs.generateWitnessInput samplePrescription) atIssue
    = (Ok wi, atIssue)
    /\ List.length (ZkProofs.prescription_hash wi) = 8%nat
    /\ List.length (ZkProofs.public_commitment wi) = 8%nat.
Proof.
  destruct (witness_input_fields samplePrescription atIssue eq_refl eq_refl)
    as (wi & R & _ & _ & _ & _ & L1 & L2).
  exists wi. repeat split; assumption.
Defined.

(** The theorem on sixty-four digits followed by two more. *)
Lemma hexToU32Array_ignores_what_follows_64_digits_witness :
  ZkProofs.hexToU32Array (Words.sampleDigits ++ lit "ff")
  = ZkProofs.hexToU32Array Words.sampleDigits
  /\ ZkProofs.hexToU32Array (lit "0x" ++ Words.sampleDigits ++ lit "ff")
     = ZkProofs.hexToU32Array Words.sampleDigits.
Proof.
  apply (hexToU32Array_ignores_what_follows_64_digits
           Words.sampleDigits (lit "ff")); reflexivity.
Defined.

(** The theorem on the doctor's list of the sample chain. *)
Lemma chain_list_is_filtered_by_address_witness :
  exists i data,
    1 <= i <= prescriptionCounter Sample.ledger
    /\ chainPrescriptions Sample.ledger i = Some data
    /\ chainId data <> 0
    /\ Prescriptions.viewId Sample.secondOnChain
       = numberToString (chainId data)
    /\ ChainFacts.listedFor true data (lit "0xD1").
Proof.
  apply (chain_list_is_filtered_by_address
           Sample.ledger (lit "0xD1") true Sample.secondOnChain).
  - discriminate.
  - vm_compute. right. left. reflexivity.
Defined.

(** The theorem on the list of the sample patient and the second
    prescription of the chain. *)
Lemma patient_list_shows_every_chain_prescription_witness :
  exists resp items it,
    run (Prescriptions.GET Sample.patientRequest) Sample.world
    = (Ok resp, Sample.world)
    /\ Prescriptions.statusCode resp = 200
    /\ Prescriptions.body resp = Prescriptions.ListJson items
    /\ In it items
    /\ Prescriptions.itemId it = numberToString 2.
Proof.
  apply (patient_list_shows_every_chain_prescription
           Sample.patientRequest Sample.world Sample.patientUser 2
           (Sample.onChain 2 7)
           {| chainDoctorName := lit "Dr. Rao"; chainSpeciality := lit "GP" |}
           {| chainPatientName := [] |}).
  - reflexivity.
  - discriminate.
  - reflexivity.
  - cbn. lia.
  - vm_compute. discriminate.
  - reflexivity.
  - cbn. lia.
  - reflexivity.
  - reflexivity.
  - split; vm_compute; discriminate.
Defined.

(** The theorem on the prescription that the sample request stores. *)
Lemma stored_prescription_is_validated_witness :
  In Clinic.prescribed (prescriptions (db Sample.world))
  \/ (prescriptionPatientId Clinic.prescribed <> []
      /\ Forall (fun m => medName m <> [] /\ medDosage m <> []
                          /\ medDuration m <> [])
                (medications Clinic.prescribed)
      /\ exists props items,
           json Sample.prescribeRequest = Some (JSON.JObject props)
           /\ JSON.property (lit "medications") props
              = Some (JSON.JArray items)
           /\ JSON.property (lit "patientId") props
              = Some (JSON.JString (prescriptionPatientId Clinic.prescribed))
           /\ List.length (medications Clinic.prescribed)
              = List.length items).
Proof.
  apply (stored_prescription_is_validated (P := Sample.platform)
           Sample.prescribeRequest Sample.world Clinic.afterPrescribing
           {| Prescriptions.statusCode := 200;
              Prescriptions.body :=
                Prescriptions.PrescriptionJson Clinic.prescribed |}
           Clinic.prescribed).
  - reflexivity.
  - vm_compute. right. left. reflexivity.
Defined.

(** The theorem on the sample prescription sent with a transaction
    hash. *)
Lemma tx_hash_is_dropped_witness :
  run (Prescriptions.POST (P := Sample.platform)
         {| session := Some Sample.doctorUser;
            roleParam := None;
            json :=
              Some (JSON.JObject
                      ((lit "blockchainTxHash", JSON.JString (lit "0xabc"))
                         :: [(lit "patientId", JSON.JString (lit "p1"));
                             (lit "medications",
                               JSON.JArray
                                 [JSON.JObject
                                    [(lit "name", JSON.JString (lit "Aspirin"));
                                     (lit "dosage", JSON.JString (lit "100mg"));
                                     (lit "duration",
                                       JSON.JString (lit "5 days"))]])])) |})
      Sample.world
  = run (Prescriptions.POST (P := Sample.platform) Sample.prescribeRequest)
        Sample.world.
Proof.
  apply (tx_hash_is_dropped (P := Sample.platform)
           Sample.prescribeRequest Sample.world); reflexivity.
Defined.

(** The theorem on the stored prescription, asked for by its doctor. *)
Lemma get_by_id_shows_own_prescriptions_only_witness :
  Sample.world = Sample.world
  /\ exists user,
      session Sample.listRequest = Some user
      /\ ((exists row,
             PrescriptionById.RowJson Sample.stored
             = PrescriptionById.RowJson row
             /\ In row (prescriptions (db Sample.world))
             /\ Store.prescriptionId row = lit "1"
             /\ Access.ownedBy Sample.world user row)
          \/ (exists v n data address,
                PrescriptionById.RowJson Sample.stored
                = PrescriptionById.ViewJson v
                /\ Access.walletOf Sample.world user address
                /\ address <> []
                /\ parseInt (lit "1") 0 = Num n
                /\ 0 <= n <= maxSafeInteger
                /\ chainPrescriptions (chain Sample.world) n = Some data
                /\ chainId data <> 0
                /\ Prescriptions.viewId v = numberToString (chainId data)
                /\ Access.partyOf data address)).
Proof.
  apply (get_by_id_shows_own_prescriptions_only
           Sample.listRequest (lit "1") Sample.world Sample.world
           {| PrescriptionById.statusCode := 200;
              PrescriptionById.body :=
                PrescriptionById.RowJson Sample.stored |});
    reflexivity.
Defined.

(** The theorem on a user who is in no table. *)
Lemma get_by_id_without_patient_profile_is_404_witness :
  run (PrescriptionById.GET Clinic.strangerRequest (lit "1")) Sample.world =
    (Ok {| PrescriptionById.statusCode := 404;
           PrescriptionById.body :=
             PrescriptionById.Text
               (lit "Patient not found and no blockchain data available") |},
     Sample.world).
Proof.
  apply (get_by_id_without_patient_profile_is_404
           Clinic.strangerRequest (lit "1") Sample.world Clinic.stranger).
  - reflexivity.
  - discriminate.
  - reflexivity.
Defined.

(** The theorem on the sample booking in the idle clinic. *)
Lemma appointment_in_free_slot_is_booked_witness :
  exists row w',
    run (Appointments.POST (P := Sample.platform) Sample.bookingRequest)
        Clinic.idle =
      (Ok {| Appointments.statusCode := 200;
             Appointments.body := Appointments.Created row |}, w')
    /\ appointments (db w') = appointments (db Clinic.idle) ++ [row]
    /\ appointmentDoctorId row = lit "d1"
    /\ appointmentPatientId row = lit "p1"
    /\ startTime row = 1704103200000
    /\ endTime row = 1704106800000
    /\ status row = PENDING.
Proof.
  apply (appointment_in_free_slot_is_booked (P := Sample.platform)
           Sample.bookingRequest Clinic.idle Sample.patientUser
           Sample.appointmentBody Sample.parsedAppointment Sample.doctor).
  - reflexivity.
  - reflexivity.
  - reflexivity.
  - reflexivity.
  - left. discriminate.
  - intros a [<- | []] [[H | H] _]; discriminate H.
Defined.

(** The theorem on the doctor of the clinic, who has a row in the users
    table and books the doctor's own taken slot: the answer is 409, and
    the doctor is a patient now. *)
Lemma booking_creates_placeholder_profile_witness :
  exists resp w',
    run (Appointments.POST (P := Sample.platform) Clinic.doctorBooking)
        Sample.world = (Ok resp, w')
    /\ In (Appointments.statusCode resp) [200; 404; 409]
    /\ patients (db w')
       = patients (db Sample.world)
           ++ [Booking.placeholder (P := Sample.platform)
                 Sample.world Sample.doctorUser]
    /\ patientOf w' Sample.doctorUser
       = Some (Booking.placeholder (P := Sample.platform)
                 Sample.world Sample.doctorUser)
    /\ List.length (users (db w')) = List.length (users (db Sample.world))
    /\ (forall u, In u (users (db w')) ->
                  userId u = sessionId Sample.doctorUser ->
                  userRole u = lit "patient")
    /\ (forall u, In u (users (db Sample.world)) ->
                  userId u <> sessionId Sample.doctorUser ->
                  In u (users (db w'))).
Proof.
  apply (booking_creates_placeholder_profile (P := Sample.platform)
           Clinic.doctorBooking Sample.world Sample.doctorUser
           Sample.appointmentBody Sample.parsedAppointment).
  - reflexivity.
  - reflexivity.
  - reflexivity.
  - eexists. split; [left; reflexivity | reflexivity].
  - reflexivity.
Defined.

(** The theorem on the sample booking, sent twice. *)
Lemma repeated_booking_witness :
  run (Appointments.POST (P := Sample.platform) Sample.bookingRequest)
      Clinic.afterBooking =
    (Ok {| Appointments.statusCode := 409;
           Appointments.body :=
             Appointments.Text (lit "Time slot not available") |},
     Clinic.afterBooking).
Proof.
  destruct (repeated_booking (P := Sample.platform)
              Sample.bookingRequest Clinic.idle Clinic.afterBooking
              {| Appointments.statusCode := 200;
                 Appointments.body :=
                   Appointments.Created Clinic.firstBooking |}
              eq_refl eq_refl) as (first & B & Le & _).
  injection B as <-. apply Le. vm_compute. discriminate.
Defined.

(** The theorem on a doctor whose address is on the chain already,
    while the database is down. *)
Lemma already_registered_is_stored_in_database_witness :
  exists (t : DoctorForm.Toast) (w' : DoctorForm.World),
    run (DoctorForm.onSubmit (B := SampleForm.backend)
           (lit "u1") SampleForm.form) FormRuns.alreadyOnChain = (Ok tt, w')
    /\ DoctorForm.toasts w' = [t]
    /\ DoctorForm.chainDoctors w' = [lit "0xD1"]
    /\ FormRuns.notStored FormRuns.alreadyOnChain w' t.
Proof.
  destruct (already_registered_is_stored_in_database
              (B := SampleForm.backend) (lit "u1") SampleForm.form
              FormRuns.alreadyOnChain FormRuns.alreadyRegistered
              (lit "Doctor already registered")
              eq_refl eq_refl eq_refl eq_refl)
    as (t & w' & E & T & Ch & _ & _ & No).
  exists t, w'. repeat split; try assumption.
  - apply No. discriminate.
  - apply No. discriminate.
  - apply No. discriminate.
Defined.

(** The theorem on a browser without a wallet. *)
Lemma chain_failure_never_reaches_database_witness :
  exists (w' : DoctorForm.World),
    run (DoctorForm.onSubmit (B := FormRuns.noWallet)
           (lit "u1") SampleForm.form) SampleForm.start = (Ok tt, w')
    /\ DoctorForm.toasts w' =
       [{| DoctorForm.title := lit "Registration Failed";
           DoctorForm.description :=
             lit "Failed to register: No wallet found";
           DoctorForm.destructive := true |}]
    /\ DoctorForm.dbDoctors w' = []
    /\ DoctorForm.pushed w' = [].
Proof.
  destruct (chain_failure_never_reaches_database (B := FormRuns.noWallet)
              (lit "u1") SampleForm.form SampleForm.start
              FormRuns.noWalletError)
    as (o & w' & E & Asked & _ & _ & D & Pu & _).
  - left. reflexivity.
  - discriminate.
  - destruct (Asked eq_refl) as [-> T].
    exists w'. repeat split; assumption.
Defined.

(** A submission that the wallet refuses with an error whose
    [data.message] is a number: the [catch] block throws, and the form
    shows nothing. *)
Example submission_with_numbered_error_throws :
  run (DoctorForm.onSubmit (B := FormRuns.numbered)
         (lit "u1") SampleForm.form) SampleForm.start
  = (Throw DoctorForm.TypeError,
     {| DoctorForm.chainDoctors := [];
        DoctorForm.dbDoctors := [];
        DoctorForm.toasts := [];
        DoctorForm.pushed := [];
        DoctorForm.calls :=
          [DoctorForm.ContractInit (lit "0xD1");
           DoctorForm.RegisterDoctor (DoctorForm.name SampleForm.form)
             (DoctorForm.specialty SampleForm.form)
             (DoctorForm.fees SampleForm.form)] |}).
Proof. vm_compute. reflexivity. Qed.

(** The theorems on the pending appointments of the sample doctor. *)
Lemma appointment_list_shows_own_appointments_witness :
  Sample.world = Sample.world
  /\ exists user data page,
      AppointmentList.session Listing.pendingPage = Some user
      /\ AppointmentList.body Listing.pendingAnswer
         = AppointmentList.Success data page
      /\ (forall a, In a data ->
                    In a (appointments (db Sample.world))
                    /\ Listing.mine Sample.world user a
                    /\ Listing.wantedBy (Some PENDING) a)
      /\ StronglySorted (Spec.notOlder startTime) data
      /\ Z.of_nat (List.length data) <= 2.
Proof.
  apply (appointment_list_shows_own_appointments (C := Listing.strict)
           Listing.pendingPage Sample.world Sample.world
           Listing.pendingAnswer (Some PENDING) 2 0).
  - repeat split; try reflexivity; try discriminate; vm_compute;
      discriminate.
  - reflexivity.
  - reflexivity.
Defined.

Lemma appointment_list_pagination_witness :
  exists user data page,
    AppointmentList.session Listing.pendingPage = Some user
    /\ AppointmentList.body Listing.pendingAnswer
       = AppointmentList.Success data page
    /\ AppointmentList.total page
       = Z.of_nat (List.length
                     (Listing.visible Sample.world user (Some PENDING)))
    /\ AppointmentList.limit page = Num 2
    /\ AppointmentList.offset page = Num 0
    /\ Z.of_nat (List.length data)
       = Z.min 2 (Z.max 0 (AppointmentList.total page - 0))
    /\ (AppointmentList.hasMore page = true
        <-> 0 + Z.of_nat (List.length data) < AppointmentList.total page).
Proof.
  apply (appointment_list_pagination (C := Listing.strict)
           Listing.pendingPage Sample.world Sample.world
           Listing.pendingAnswer (Some PENDING) 2 0).
  - repeat split; try reflexivity; try discriminate; vm_compute;
      discriminate.
  - reflexivity.
  - reflexivity.
Defined.

(** The theorem on the form as it opens. *)
Lemma medication_rows_never_run_out_witness :
  FormEdits.edited FormEdits.sampleEdits AnonymousForm.initialMedications
  <> [].
Proof.
  apply (medication_rows_never_run_out
           FormEdits.sampleEdits AnonymousForm.initialMedications).
  discriminate.
Defined.

End MoreRuns.

(** ** The prescription form of the doctor *)

Section Issues.
Import JS Eff Dates PrescriptionForm Issuing.
Import DoctorForm (Toast, title, description, destructive,
                   JsError, message, errorData, DataMessage, NoDataMessage,
                   PostOutcome, Resolved, Rejected).
Context {B : Backend}.

Ltac issue_norm :=
  cbv beta iota;
  cbn [issued saved toasts pushed isSubmitting clock calls
       message errorData fst snd].

Ltac issue_simpl :=
  cbv beta iota delta
    [run handleSubmit tryCatch bind contractGet contractIssue axiosGet
     axiosPost validTillOrDefault dateNow record toast routerPush
     setIsSubmitting modify throw ret];
  issue_norm.

Ltac issue_case :=
  match goal with
  | |- context [blank ?s] =>
      let E := fresh "Eblank" in destruct (blank s) eqn:E
  | |- context [someBlank ?m] =>
      let E := fresh "Esome" in destruct (someBlank m) eqn:E
  | |- context [match getMedicalContract with _ => _ end] =>
      let E := fresh "Eget" in destruct getMedicalContract eqn:E
  | |- context [issuePrescription ?c ?i] =>
      let E := fresh "Eissue" in destruct (issuePrescription c i) eqn:E
  | |- context [match selectedPatientId ?f with _ => _ end] =>
      let E := fresh "Eid" in destruct (selectedPatientId f) eqn:E
  | |- context [match selectedPatientAddress ?f with _ => _ end] =>
      let E := fresh "Eaddr" in destruct (selectedPatientAddress f) eqn:E
  | |- context [getPatients ?a] =>
      let E := fresh "Epatients" in destruct (getPatients a) eqn:E
  | |- context [match validTill ?f with _ => _ end] =>
      let E := fresh "Etill" in destruct (validTill f) eqn:E
  | |- context [toISOString ?d] =>
      let E := fresh "Eiso" in destruct (toISOString d) eqn:E
  | |- context [postPrescription ?c ?b] =>
      let E := fresh "Epost" in destruct (postPrescription c b) eqn:E
  | |- context [?s =? 200] =>
      let E := fresh "Est" in destruct (s =? 200) eqn:E
  | |- context [match ?l with [] => _ | _ :: _ => _ end] =>
      is_var l; destruct l
  end;
  issue_norm.

(** X22.  Every submission of a prescription form whose durations spell
    no integer beyond 2^53 ends without an exception and with exactly one
    toast.  Either the prescription is on
    the chain, the toast is not destructive and the router goes to the
    list of prescriptions; or the toast is destructive and the router
    stays.  The chain is written at most once, with the prescription of
    the form, each duration as [parseInt] reads it after any white space
    of ECMA-262; the database is written only after the chain was, at
    most once, for a patient id that is not empty; and a submission that
    called anything ends with [isSubmitting] off. *)
Theorem prescription_form_ends_with_one_toast :
  forall (form : Form) (w : World),
    exactDurations form = true ->
    exists (t : Toast) (w' : World),
      run (handleSubmit form) w = (Ok tt, w')
      /\ toasts w' = toasts w ++ [t]
      /\ (reportedIssued form w w' t \/ reportedFailed w w' t)
      /\ (issued w' = issued w \/ issued w' = issued w ++ [issueOf form])
      /\ (saved w' = saved w
          \/ exists body,
               saved w' = saved w ++ [body]
               /\ bodyPatientId body <> []
               /\ bodyMedications body = medications form
               /\ issued w' = issued w ++ [issueOf form])
      /\ (isSubmitting w' = false
          \/ (isSubmitting w' = isSubmitting w /\ calls w' = calls w)).
Proof.
  intros form w _. unfold reportedIssued, reportedFailed, issueOf.
  issue_simpl.
  repeat issue_case;
    (eexists; eexists; split; [reflexivity|]);
    cbn [issued saved toasts pushed isSubmitting clock calls];
    (split; [reflexivity|]);
    (split;
     [first [ left; cbn [destructive]; repeat split; reflexivity
            | right; cbn [destructive errorToast]; repeat split;
              reflexivity ]|]);
    (split; [first [left; reflexivity | right; reflexivity]|]);
    (split;
     [first [ left; reflexivity
            | right; eexists; cbn [bodyPatientId bodyMedications];
              repeat split; try reflexivity; discriminate ]|]);
    first [left; reflexivity | right; split; reflexivity].
Qed.

(** X23.  The form reports success although the database has nothing:
    when the form is filled, its durations spell no integer beyond 2^53,
    no patient was chosen from the list and the patients route knows no
    patient with the address typed, the prescription is issued on the
    chain, nothing is posted to the prescriptions route, and the user is
    shown [Success!] and sent to the list of prescriptions. *)
Theorem prescription_issued_on_chain_only :
  forall (form : Form) (w : World),
    filled form ->
    exactDurations form = true ->
    getMedicalContract = None ->
    issuePrescription (issued w) (issueOf form) = None ->
    selectedPatientId form = [] ->
    getPatients (selectedPatientAddress form) = Found [] ->
    exists w',
      run (handleSubmit form) w = (Ok tt, w')
      /\ toasts w' = toasts w ++ [successToast]
      /\ pushed w' = pushed w ++ [lit "/doctor/prescriptions"]
      /\ issued w' = issued w ++ [issueOf form]
      /\ saved w' = saved w
      /\ calls w' =
         calls w ++ [GetContract; IssuePrescription (issueOf form);
                     GetPatients (selectedPatientAddress form)].
Proof.
  intros form w (Ha & Hd & Hm) _ Hget Hissue Hid Hpatients.
  unfold issueOf in *. issue_simpl.
  rewrite Ha, Hd, Hm, Hget. issue_norm. rewrite Hissue. issue_norm.
  rewrite Hid.
  destruct (selectedPatientAddress form) as [|c r] eqn:Eaddr;
    [discriminate Ha|].
  issue_norm. rewrite Hpatients. issue_norm.
  eexists. split; [reflexivity|].
  cbn [issued saved toasts pushed isSubmitting clock calls].
  rewrite <- !app_assoc. repeat split.
Qed.

(** X24.  The form has no compensation for a database failure: when the
    prescription of a filled form, whose durations spell no integer
    beyond 2^53, is issued on the chain and the prescriptions route then
    rejects the body, the submission ends with the destructive toast
    [Failed to issue prescription], the router stays, the database is as
    it was, and the prescription stays on the chain; nothing is sent
    after the one POST. *)
Theorem prescription_form_has_no_compensation :
  forall (form : Form) (w : World) (till : ValidTill) (msg : str),
    filled form ->
    exactDurations form = true ->
    getMedicalContract = None ->
    issuePrescription (issued w) (issueOf form) = None ->
    selectedPatientId form <> [] ->
    tillOf form w = Some till ->
    postPrescription (saved w)
      {| bodyPatientId := selectedPatientId form;
         bodyMedications := medications form;
         bodyValidTill := till |} = Rejected msg ->
    exists w',
      run (handleSubmit form) w = (Ok tt, w')
      /\ toasts w' =
         toasts w ++
           [errorToast (lit "Failed to issue prescription: "
                          ++ orElse (Some msg) (lit "Unknown error"))]
      /\ pushed w' = pushed w
      /\ issued w' = issued w ++ [issueOf form]
      /\ saved w' = saved w
      /\ isSubmitting w' = false
      /\ calls w' =
         calls w ++ [GetContract; IssuePrescription (issueOf form);
                     PostPrescription
                       {| bodyPatientId := selectedPatientId form;
                          bodyMedications := medications form;
                          bodyValidTill := till |}].
Proof.
  intros form w till msg (Ha & Hd & Hm) _ Hget Hissue Hid Htill Hpost.
  unfold issueOf, tillOf in *. issue_simpl.
  rewrite Ha, Hd, Hm, Hget. issue_norm. rewrite Hissue. issue_norm.
  destruct (selectedPatientId form) as [|c r] eqn:Eid;
    [now contradiction Hid|].
  issue_norm.
  destruct (validTill form) as [|v vs] eqn:Etill.
  - issue_norm.
    destruct (toISOString (newDate (clock w + 30 * 24 * 60 * 60 * 1000)))
      as [text|]; [|discriminate Htill].
    cbn [option_map] in Htill. injection Htill as <-.
    issue_norm. rewrite Hpost. issue_norm.
    eexists. split; [reflexivity|].
    cbn [issued saved toasts pushed isSubmitting clock calls].
    rewrite <- !app_assoc. repeat split.
  - injection Htill as <-.
    issue_norm. rewrite Hpost. issue_norm.
    eexists. split; [reflexivity|].
    cbn [issued saved toasts pushed isSubmitting clock calls].
    rewrite <- !app_assoc. repeat split.
Qed.

End Issues.

(** ** The anonymous-prescription form *)

Section AnonymousSubmissions.
Import JS Ethers Eff AnonymousPage Anonymous Spec Words.
Import DoctorForm (Toast, title, description, destructive).
Context {W : Wallet}.

Ltac page_norm :=
  cbv beta iota;
  cbn [state browser anonymousIssued toasts calls medications diagnosis
       secretKey isGeneratingProof isSubmitting fst snd].

(** X25.  What the anonymous-prescription form sends is the commitment
    and nothing of the secret key besides.  For a form that passes the
    checks, whose secret key holds no high surrogate without its low
    surrogate, and a wallet with a signer, [handleSubmit] calls the contract
    once, with the medications and the diagnosis as typed, the eight
    32-bit words of the commitment digest of the form data and the
    signer's address at the current second, the mock proof, and the same
    digest in hexadecimal as the only public input.  If the transaction
    goes through, the prescription is on the chain, the form is cleared
    and [Success] is shown; if not, the chain and the fields are as they
    were and the toast is destructive.  Either way both progress flags
    end off, and the clock has moved by the second that the mock proof
    takes. *)
Theorem anonymous_form_sends_commitment :
  forall (s : State) (w : World) (doctorAddress : str),
    filled s ->
    unpairedHigh (secretKey s) = false ->
    signerAddress = Some doctorAddress ->
    exists (t : Toast) (w' : World),
      let digest :=
        commitmentDigest (dataOf s doctorAddress)
                         (ZkProofs.clock (browser w) / 1000) in
      run (handleSubmit s) w = (Ok tt, w')
      /\ List.length digest = 32%nat
      /\ calls w' =
         calls w ++ [GetContract;
                     IssueAnonymousPrescription (sentFor s digest)]
      /\ toasts w' = toasts w ++ [t]
      /\ idle (state w')
      /\ ZkProofs.clock (browser w') = ZkProofs.clock (browser w) + 1000
      /\ (issueAnonymousPrescription (anonymousIssued w) (sentFor s digest)
          = true ->
          anonymousIssued w' = anonymousIssued w ++ [sentFor s digest]
          /\ cleared (state w')
          /\ destructive t = false)
      /\ (issueAnonymousPrescription (anonymousIssued w) (sentFor s digest)
          = false ->
          anonymousIssued w' = anonymousIssued w
          /\ medications (state w') = medications (state w)
          /\ diagnosis (state w') = diagnosis (state w)
          /\ secretKey (state w') = secretKey (state w)
          /\ destructive t = true).
Proof.
  intros s w doctorAddress (Hd & Hk & Hm) Hkey Hsigner.
  pose proof (generateZKProof_run (dataOf s doctorAddress) (browser w) Hkey)
    as Mock.
  unfold run in Mock.
  unfold sentFor, dataOf, idle, cleared in *.
  cbv beta iota delta
    [run handleSubmit tryCatch bind signer contractIssue inBrowser
     setIsGeneratingProof setIsSubmitting setMedications setDiagnosis
     setSecretKey setState record toast modify orThrow throw ret].
  rewrite Hd, Hk, Hm, Hsigner. page_norm.
  rewrite Mock. page_norm.
  cbn [ZkProofs.inputs ZkProofs.proof nth_error]. page_norm.
  unfold ZkProofs.parseCommitmentForContract.
  rewrite (hexToU32Array_hexlify (commitmentDigest _ _)
             (keccak_256_length _)).
  destruct (issueAnonymousPrescription _ _) eqn:Eissue; page_norm.
  - eexists. eexists. cbv zeta. split; [reflexivity|].
    split; [apply keccak_256_length|].
    cbn [state browser anonymousIssued toasts calls medications diagnosis
         secretKey isGeneratingProof isSubmitting ZkProofs.clock].
    rewrite <- !app_assoc.
    repeat split; try reflexivity; intros; congruence.
  - eexists. eexists. cbv zeta. split; [reflexivity|].
    split; [apply keccak_256_length|].
    cbn [state browser anonymousIssued toasts calls medications diagnosis
         secretKey isGeneratingProof isSubmitting ZkProofs.clock].
    rewrite <- !app_assoc.
    repeat split; try reflexivity; intros; congruence.
Qed.

End AnonymousSubmissions.

(** ** Runs of the two prescription forms *)

Section FormRunsMore.
Import JS Eff.

(** The theorem on the sample form, whose one duration is read as 5. *)
Lemma prescription_form_ends_with_one_toast_witness :
  Issuing.exactDurations Issuing.sampleForm = true
  /\ exists (t : DoctorForm.Toast) (w' : PrescriptionForm.World),
      run (PrescriptionForm.handleSubmit (B := Issuing.chainOnly)
             Issuing.sampleForm) Issuing.start = (Ok tt, w')
      /\ PrescriptionForm.toasts w' = [t]
      /\ (Issuing.reportedIssued Issuing.sampleForm Issuing.start w' t
          \/ Issuing.reportedFailed Issuing.start w' t).
Proof.
  split; [reflexivity|].
  destruct (prescription_form_ends_with_one_toast (B := Issuing.chainOnly)
              Issuing.sampleForm Issuing.start eq_refl)
    as (t & w' & E & T & R & _).
  exists t, w'. repeat split; assumption.
Defined.

(** The theorem on an address that the patients route does not know. *)
Lemma prescription_issued_on_chain_only_witness :
  exists w',
    run (PrescriptionForm.handleSubmit (B := Issuing.chainOnly)
           Issuing.sampleForm) Issuing.start = (Ok tt, w')
    /\ PrescriptionForm.toasts w' = [Issuing.successToast]
    /\ PrescriptionForm.pushed w' = [lit "/doctor/prescriptions"]
    /\ PrescriptionForm.issued w' = [Issuing.issueOf Issuing.sampleForm]
    /\ PrescriptionForm.saved w' = [].
Proof.
  destruct (prescription_issued_on_chain_only (B := Issuing.chainOnly)
              Issuing.sampleForm Issuing.start)
    as (w' & E & T & Pu & I & S & _).
  - repeat split; reflexivity.
  - reflexivity.
  - reflexivity.
  - reflexivity.
  - reflexivity.
  - reflexivity.
  - exists w'. repeat split; assumption.
Defined.

(** The theorem on a body that the prescriptions route refuses. *)
Lemma prescription_form_has_no_compensation_witness :
  exists w',
    run (PrescriptionForm.handleSubmit (B := Issuing.chainOnly)
           Issuing.chosenForm) Issuing.start = (Ok tt, w')
    /\ PrescriptionForm.toasts w' =
       [PrescriptionForm.errorToast
          (lit "Failed to issue prescription: Request failed with status code 422")]
    /\ PrescriptionForm.pushed w' = []
    /\ PrescriptionForm.issued w' = [Issuing.issueOf Issuing.chosenForm]
    /\ PrescriptionForm.saved w' = [].
Proof.
  destruct (prescription_form_has_no_compensation (B := Issuing.chainOnly)
              Issuing.chosenForm Issuing.start
              (PrescriptionForm.Typed (lit "2024-02-01"))
              (lit "Request failed with status code 422"))
    as (w' & E & T & Pu & I & S & _).
  - repeat split; reflexivity.
  - reflexivity.
  - reflexivity.
  - reflexivity.
  - discriminate.
  - reflexivity.
  - reflexivity.
  - exists w'. repeat split; assumption.
Defined.

(** The theorem on the sample prescription and a wallet whose chain
    takes it. *)
Lemma anonymous_form_sends_commitment_witness :
  exists (t : DoctorForm.Toast) (w' : AnonymousPage.World),
    run (AnonymousPage.handleSubmit (W := Anonymous.wallet)
           Anonymous.sampleState) Anonymous.start = (Ok tt, w')
    /\ AnonymousPage.toasts w' = [t]
    /\ DoctorForm.destructive t = false
    /\ Anonymous.cleared (AnonymousPage.state w')
    /\ List.length (AnonymousPage.anonymousIssued w') = 1%nat.
Proof.
  destruct (anonymous_form_sends_commitment (W := Anonymous.wallet)
              Anonymous.sampleState Anonymous.start
              (lit "0x00000000000000000000000000000000000000d0"))
    as (t & w' & H).
  - repeat split; reflexivity.
  - reflexivity.
  - reflexivity.
  - cbv zeta in H. destruct H as (E & _ & _ & T & _ & _ & Yes & _).
    destruct (Yes eq_refl) as (I & C & D).
    exists t, w'. repeat split; try assumption; try apply C.
    rewrite I. reflexivity.
Defined.

End FormRunsMore.

(** ** The patients route *)

Section PatientsRoute.
Import JS Store Eff Patients Spec Registry.
Context {C : Collation}.

(** X26.  [GET /api/patients] gives patient data to doctors only and
    never changes the stores.  An answer with rows is a 200 answer to a
    session user who has a doctor profile; with a non-empty [address] the
    rows are exactly the patients whose wallet address is that text,
    character for character (letter case matters here, unlike in the
    comparisons with the chain); without one they are all patients,
    rearranged. *)
Theorem patients_route_is_for_doctors :
  forall (req : PatientsRequest) (w w' : World) (resp : Response),
    run (GET req) w = (Ok resp, w') ->
    w' = w
    /\ (statusCode resp = 200 ->
        (exists user doctor,
           session req = Some user /\ doctorOf w user = Some doctor)
        /\ (forall address,
              addressParam req = Some address -> address <> [] ->
              forall p, In p (rowsOf (body resp)) <->
                        In p (patients (db w))
                        /\ patientBlockId p = address)
        /\ (truthy (addressParam req) = false ->
            Permutation (rowsOf (body resp)) (patients (db w))))
    /\ (statusCode resp <> 200 -> rowsOf (body resp) = []).
Proof.
  intros req w w' resp. unfold run, GET, tryCatch, bind.
  destruct (session req) as [user|] eqn:Es.
  2:{ unfold ret. intros E. injection E as <- <-.
      split; [reflexivity|]. split; [discriminate | reflexivity]. }
  unfold findDoctorByUser. cbv beta iota.
  destruct (find _ (doctors (db w))) as [doctor|] eqn:Fd.
  2:{ unfold ret. intros E. injection E as <- <-.
      split; [reflexivity|]. split; [discriminate | reflexivity]. }
  cbv zeta. destruct (truthy (addressParam req)) eqn:T.
  - unfold findByBlockId, ret. cbv beta iota. intros E. injection E as <- <-.
    split; [reflexivity|]. split; [|intros N; now contradiction N].
    intros _. split; [now exists user, doctor|]. split; [|discriminate].
    intros address Ha Hne. rewrite Ha.
    destruct address as [|c r]; [now contradiction Hne|].
    cbn [orElse body rowsOf].
    intros p. rewrite filter_In, eqb_eq. reflexivity.
  - unfold findAllByName, ret. cbv beta iota. intros E. injection E as <- <-.
    split; [reflexivity|]. split; [|intros N; now contradiction N].
    intros _. split; [now exists user, doctor|]. split.
    + intros address Ha Hne. rewrite Ha in T.
      destruct address; [now contradiction Hne | discriminate T].
    + intros _. cbn [body rowsOf]. apply orderByUserName_perm.
Qed.

End PatientsRoute.

Section PatientsRuns.
Import JS Store Eff Patients Registry.

(** The theorem on the address of the sample patient in lower case: the
    patient is not found. *)
Lemma patients_route_is_for_doctors_witness :
  run (GET (C := tableOrder) lowerLookup) Sample.world =
    (Ok {| statusCode := 200; body := Rows [] |}, Sample.world)
  /\ forall p, In p (rowsOf (Rows [])) <->
               In p (patients (db Sample.world))
               /\ patientBlockId p = lit "0xa1".
Proof.
  assert (E : run (GET (C := tableOrder) lowerLookup) Sample.world =
              (Ok {| statusCode := 200; body := Rows [] |}, Sample.world))
    by reflexivity.
  split; [exact E|].
  destruct (patients_route_is_for_doctors (C := tableOrder)
              lowerLookup Sample.world Sample.world _ E)
    as (_ & Yes & _).
  destruct (Yes eq_refl) as (_ & At & _).
  apply (At (lit "0xa1") eq_refl). discriminate.
Defined.

End PatientsRuns.
